(** * Bikeshare dashboard: the data-preparation core

    A shallow embedding of the data-preparation code of the dashboard
    ([utils.py], [pages/2_Qualite_et_nettoyage.py],
    [pages/3_Variables_creees.py], [pages/4_Analyses_et_graphiques.py])
    together with the properties its design document states about it.

    Modelling conventions.
    - A pandas [DataFrame] is an ordered list of column names, an ordered
      list of rows (a row maps column names to cells) and, for its datetime
      columns, the time zone of the column: pandas keeps the zone in the
      dtype of the column, not in its values.
    - Python integers are [Z]. A [float64] value is the rational it denotes;
      every float operation rounds its exact result to the nearest binary64
      value ([Float64.round]).
    - A [datetime64[ns]] value is its number of nanoseconds since the epoch,
      counted in UTC when the column is tz-aware.
    - Python exceptions are the [Raise] results of a small error monad.
    - [str.lower] and [pd.to_datetime] are library code. They are
      parameters of the development: [lower] is known on ASCII strings
      only, and [parse] may raise, may look at the whole column and decides
      the time zone of the column it returns. *)

From Stdlib Require Import ZArith QArith Qround Qabs Qpower.
From Stdlib Require Import String Ascii List Bool Lia Lqa.
From stdpp Require Import base option list gmap strings.

Local Open Scope string_scope.
Local Open Scope Z_scope.

(** ** Python strings and exceptions *)

Module Py.

(** What [str.lower()] does to a string of ASCII characters: [A]-[Z] become
    [a]-[z], every other character is kept. On other strings [str.lower()]
    follows the Unicode tables, which are not modelled. *)
Definition ascii_lower_char (c : ascii) : ascii :=
  let n := nat_of_ascii c in
  if (65 <=? n)%nat && (n <=? 90)%nat then ascii_of_nat (n + 32) else c.

Fixpoint ascii_lower (s : string) : string :=
  match s with
  | EmptyString => EmptyString
  | String c s' => String (ascii_lower_char c) (ascii_lower s')
  end.

(** [s.isascii()]: every byte of the UTF-8 form of [s] is below 128. *)
Fixpoint is_ascii (s : string) : bool :=
  match s with
  | EmptyString => true
  | String c s' => (nat_of_ascii c <? 128)%nat && is_ascii s'
  end.

(** The part of [str.lower] the development relies on. *)
Definition lowers_ascii (lower : string -> string) : Prop :=
  forall s, is_ascii s = true -> lower s = ascii_lower s.

(** Truth value of an [Optional[str]]: [None] and [""] are falsy. *)
Definition truthy (o : option string) : bool :=
  match o with
  | Some s => negb (String.eqb s "")
  | None => false
  end.

(** Exceptions the modelled code could raise. *)
Inductive exn :=
| KeyError (key : string)
| TypeError
| ValueError
| AttributeError
| OverflowError.

Inductive result (A : Type) :=
| Ok (a : A)
| Raise (e : exn).
Arguments Ok {A} a.
Arguments Raise {A} e.

#[export] Instance result_ret : MRet result := fun _ a => Ok a.
#[export] Instance result_bind : MBind result := fun _ _ k m =>
  match m with
  | Ok a => k a
  | Raise e => Raise e
  end.

End Py.

Import Py.

(** ** binary64 arithmetic

    A finite [float64] is a rational [m * 2^e] with [|m| < 2^53]. An
    operation returns the value of this form nearest to its exact result,
    ties going to the even [m]. The exponent range is not bounded: the
    quantities computed here (seconds and minutes between two [int64]
    instants) are far from both ends of it. *)

Module Float64.

Definition pow2 (k : Z) : Q := (2 ^ k)%Q.

(** [floor (log2 x)], for [x > 0]. *)
Definition ilog2 (x : Q) : Z :=
  let k := Z.log2 (Qnum x) - Z.log2 (Z.pos (Qden x)) in
  if Qle_bool (pow2 k) x then k else k - 1.

(** The integer nearest to [x], the even one of the two on a tie. *)
Definition nearest_even (x : Q) : Z :=
  let f := Qfloor x in
  match (x - inject_Z f ?= 1 # 2)%Q with
  | Lt => f
  | Gt => f + 1
  | Eq => if Z.even f then f else f + 1
  end.

Definition round (x : Q) : Q :=
  if Qeq_bool x 0 then 0%Q
  else
    let e := ilog2 (Qabs x) - 52 in
    Qred (inject_Z (nearest_even (x / pow2 e)) * pow2 e).

(** An [int64] converted to [float64]; [x / y] on floats. *)
Definition of_int (n : Z) : Q := round (inject_Z n).
Definition div (x y : Q) : Q := round (x / y).

End Float64.

Arguments Float64.round : simpl never.

(** ** The pandas operations the code uses *)

Module Pandas.

(** One cell of a table. [NaN] stands for every missing marker of a column
    that is not a datetime column ([NaN], [None]); [NaT] is the missing
    marker of datetime columns. *)
Inductive cell :=
| NaN
| NaT
| Str (s : string)
| Int (n : Z)
| Num (x : Q)
| Timestamp (ns : Z).

Definition isna (c : cell) : bool :=
  match c with
  | NaN | NaT => true
  | _ => false
  end.

Definition notna (c : cell) : bool := negb (isna c).

(** A column taken out of a table: its cells and, when it is a tz-aware
    datetime column, the offset of its zone from UTC, in nanoseconds. A
    tz-naive datetime column and a column of another dtype have no zone. *)
Record Series := {
  values : list cell;
  tz : option Z
}.

(** A table: column labels in order, rows in order, and the zones of its
    tz-aware columns. *)
Record DataFrame := {
  columns : list string;
  rows : list (gmap string cell);
  tzs : gmap string Z
}.

(** The cell of row [r] under column [c]. *)
Definition at_col (c : string) (r : gmap string cell) : cell :=
  default NaN (r !! c).

(** [len(df)] *)
Definition len (df : DataFrame) : Z := Z.of_nat (length (rows df)).

(** [c in df.columns] *)
Definition has_col (df : DataFrame) (c : string) : bool :=
  bool_decide (c ∈ columns df).

(** [df[c]] *)
Definition getitem (df : DataFrame) (c : string) : result Series :=
  if has_col df c then
    Ok {| values := at_col c <$> rows df; tz := tzs df !! c |}
  else Raise (KeyError c).

(** The zones of a table after column [c] received a column of zone
    [zone]. *)
Definition set_tz (c : string) (zone : option Z) (m : gmap string Z)
  : gmap string Z :=
  match zone with
  | Some offset => <[c := offset]> m
  | None => delete c m
  end.

(** [df[c] = s], for a series [s]: a new label is appended, an existing
    column is overwritten; a series of another length is refused. *)
Definition setitem (df : DataFrame) (c : string) (s : Series)
  : result DataFrame :=
  if Nat.eqb (length (values s)) (length (rows df)) then
    Ok {| columns := if has_col df c then columns df else columns df ++ [c];
          rows := zip_with (fun r v => <[c := v]> r) (rows df) (values s);
          tzs := set_tz c (tz s) (tzs df) |}
  else Raise ValueError.

(** [df[c] = v], for a scalar [v] that is not a timestamp. *)
Definition setitem_scalar (df : DataFrame) (c : string) (v : cell)
  : DataFrame :=
  {| columns := if has_col df c then columns df else columns df ++ [c];
     rows := (fun r => <[c := v]> r) <$> rows df;
     tzs := delete c (tzs df) |}.

(** [df.loc[mask]], for a boolean series [mask]. *)
Definition loc (df : DataFrame) (mask : list bool) : result DataFrame :=
  if Nat.eqb (length mask) (length (rows df)) then
    Ok {| columns := columns df;
          rows := fst <$> List.filter snd (zip (rows df) mask);
          tzs := tzs df |}
  else Raise ValueError.

(** [df.dropna(subset=cs)]: keep the rows with no missing cell under [cs]. *)
Definition dropna (df : DataFrame) (subset : list string)
  : result DataFrame :=
  match List.find (fun c => negb (has_col df c)) subset with
  | Some c => Raise (KeyError c)
  | None =>
      Ok {| columns := columns df;
            rows := List.filter
                      (fun r => forallb (fun c => notna (at_col c r)) subset)
                      (rows df);
            tzs := tzs df |}
  end.

(** [s.fillna(v)] *)
Definition fillna (s : Series) (v : cell) : Series :=
  {| values := (fun c => if isna c then v else c) <$> values s;
     tz := tz s |}.

(** [s.notna()] *)
Definition series_notna (s : Series) : list bool := notna <$> values s.

(** [m1 & m2], [~m], [m.sum()] on boolean series. *)
Definition mask_and (m1 m2 : list bool) : list bool := zip_with andb m1 m2.
Definition mask_not (m : list bool) : list bool := negb <$> m.
Definition mask_sum (m : list bool) : Z :=
  Z.of_nat (length (List.filter id m)).

(** [pd.to_datetime(values, errors="coerce")]: either an exception (pandas
    raises [ValueError] on a column whose values carry different UTC
    offsets) or the zone of the resulting column and, cell by cell, the
    instant read or nothing. *)
Definition parser := list cell -> result (option Z * list (option Z)).

Definition datetime_cell (o : option Z) : cell :=
  match o with
  | Some ns => Timestamp ns
  | None => NaT
  end.

Definition to_datetime (parse : parser) (s : Series) : result Series :=
  '(zone, instants) ← parse (values s);
  mret {| values := datetime_cell <$> instants; tz := zone |}.

(** The dtype test behind datetime arithmetic and the [.dt] accessor. *)
Definition is_datetime_cell (c : cell) : bool :=
  match c with
  | NaT | Timestamp _ => true
  | _ => false
  end.

Definition is_datetime64 (s : Series) : bool :=
  forallb is_datetime_cell (values s).

Definition aware (zone : option Z) : bool :=
  match zone with
  | Some _ => true
  | None => false
  end.

(** Two datetime series can be compared or subtracted when both are
    tz-aware or both tz-naive; otherwise pandas raises [TypeError]. *)
Definition check_datetimes (a b : Series) : result () :=
  if is_datetime64 a && is_datetime64 b then
    if Bool.eqb (aware (tz a)) (aware (tz b)) then Ok ()
    else Raise TypeError
  else Raise TypeError.

(** [a < b] on two datetime series; a comparison with [NaT] is [False]. *)
Definition cell_lt (a b : cell) : bool :=
  match a, b with
  | Timestamp x, Timestamp y => x <? y
  | _, _ => false
  end.

Definition series_lt (a b : Series) : result (list bool) :=
  _ ← check_datetimes a b;
  mret (zip_with cell_lt (values a) (values b)).

(** [a - b] on two datetime series: a [timedelta64[ns]] series, [None]
    being its missing value. A difference that does not fit in an [int64]
    raises [OverflowError]. *)
Definition cell_sub (a b : cell) : option Z :=
  match a, b with
  | Timestamp x, Timestamp y => Some (x - y)
  | _, _ => None
  end.

Definition fits_int64 (d : option Z) : bool :=
  match d with
  | Some n => (- 2 ^ 63 <? n) && (n <? 2 ^ 63)
  | None => true
  end.

Definition series_sub (a b : Series) : result (list (option Z)) :=
  _ ← check_datetimes a b;
  let td := zip_with cell_sub (values a) (values b) in
  if forallb fits_int64 td then Ok td else Raise OverflowError.

(** [td.dt.total_seconds()]: the [int64] count of nanoseconds, as a float,
    divided by the float [1e9]. *)
Definition seconds_of (ns : Z) : Q :=
  Float64.div (Float64.of_int ns) (inject_Z 1000000000).

Definition total_seconds (td : list (option Z)) : list (option Q) :=
  fmap (M := option) seconds_of <$> td.

(** [s / k] on a float series. *)
Definition truediv (s : list (option Q)) (k : Q) : list (option Q) :=
  fmap (M := option) (fun x => Float64.div x k) <$> s.

(** A float series as a column of cells. *)
Definition float_cell (o : option Q) : cell :=
  match o with
  | Some x => Num x
  | None => NaN
  end.

Definition float_series (s : list (option Q)) : Series :=
  {| values := float_cell <$> s; tz := None |}.

(** The numeric view of a column: comparing a column that holds strings or
    timestamps with a number raises. *)
Definition as_float (c : cell) : result (option Q) :=
  match c with
  | NaN => Ok None
  | Num x => Ok (Some x)
  | Int n => Ok (Some (inject_Z n))
  | NaT | Str _ | Timestamp _ => Raise TypeError
  end.

Definition Qlt_bool (x y : Q) : bool := negb (Qle_bool y x).

(** [s <= k], [s < k], [s >= k], [s > k]: [False] on a missing value. *)
Definition compare_scalar (op : Q -> Q -> bool) (s : Series) (k : Q)
  : result (list bool) :=
  fs ← mapM as_float (values s);
  mret ((fun o => match o with Some x => op x k | None => false end) <$> fs).

Definition series_le (s : Series) (k : Q) := compare_scalar Qle_bool s k.
Definition series_lt_scalar (s : Series) (k : Q) :=
  compare_scalar Qlt_bool s k.
Definition series_ge (s : Series) (k : Q) :=
  compare_scalar (fun x y => Qle_bool y x) s k.
Definition series_gt (s : Series) (k : Q) :=
  compare_scalar (fun x y => Qlt_bool y x) s k.

(** The [.dt] accessor of a datetime column: [.dt.hour] and
    [.dt.day_name()], read on the clock of the zone of the column.
    1970-01-01, the epoch, was a Thursday. *)
Definition NS_PER_HOUR : Z := 3600000000000.
Definition NS_PER_DAY : Z := 86400000000000.

Definition local_time (zone : option Z) (ns : Z) : Z := ns + default 0 zone.

Definition hour_of (ns : Z) : Z := (ns / NS_PER_HOUR) mod 24.

Definition day_names : list string :=
  ["Monday"; "Tuesday"; "Wednesday"; "Thursday"; "Friday"; "Saturday";
   "Sunday"].

Definition weekday_of (ns : Z) : Z := (ns / NS_PER_DAY + 3) mod 7.

Definition day_name_of (ns : Z) : string :=
  nth (Z.to_nat (weekday_of ns)) day_names "".

Definition hour_cell (zone : option Z) (c : cell) : cell :=
  match c with
  | Timestamp ns => Int (hour_of (local_time zone ns))
  | _ => NaN
  end.

Definition day_name_cell (zone : option Z) (c : cell) : cell :=
  match c with
  | Timestamp ns => Str (day_name_of (local_time zone ns))
  | _ => NaN
  end.

Definition dt_hour (s : Series) : result Series :=
  if is_datetime64 s then
    Ok {| values := hour_cell (tz s) <$> values s; tz := None |}
  else Raise AttributeError.

Definition dt_day_name (s : Series) : result Series :=
  if is_datetime64 s then
    Ok {| values := day_name_cell (tz s) <$> values s; tz := None |}
  else Raise AttributeError.

(** [pd.cut(s, bins=bins, labels=labels, right=False)]: the label of the
    half-open interval [[lo, hi)] of consecutive bin edges that holds the
    value; no label, that is a missing value, outside every interval. *)
Fixpoint cut_value (bins : list Z) (labels : list string) (x : Q)
  : option string :=
  match bins, labels with
  | lo :: ((hi :: _) as bins'), l :: labels' =>
      if Qle_bool (inject_Z lo) x && Qlt_bool x (inject_Z hi) then Some l
      else cut_value bins' labels' x
  | _, _ => None
  end.

Definition cut_cell (bins : list Z) (labels : list string) (c : cell)
  : result cell :=
  o ← as_float c;
  mret (match o with
        | Some x =>
            match cut_value bins labels x with
            | Some l => Str l
            | None => NaN
            end
        | None => NaN
        end).

Definition cut (s : Series) (bins : list Z) (labels : list string)
  : result Series :=
  if Nat.eqb (length labels) (Nat.pred (length bins)) then
    vs ← mapM (cut_cell bins labels) (values s);
    mret {| values := vs; tz := None |}
  else Raise ValueError.

End Pandas.

Import Pandas.

(** ** [utils.py] *)

Module utils.

Record cols := {
  start_dt : option string;
  end_dt : option string;
  user : option string;
  bike : option string
}.

Section WithLibraries.
Variable lower : string -> string.
Variable parse : parser.

(** [_find_col]: [cols_lower] is the dictionary
    [{c.lower(): c for c in df.columns}]; a later column replaces an earlier
    one under the same key. *)
Definition cols_lower (df : DataFrame) : gmap string string :=
  foldl (fun m c => <[lower c := c]> m) ∅ (columns df).

Fixpoint first_present (d : gmap string string) (candidates : list string)
  : option string :=
  match candidates with
  | [] => None
  | cand :: candidates' =>
      match d !! lower cand with
      | Some c => Some c
      | None => first_present d candidates'
      end
  end.

Definition _find_col (df : DataFrame) (candidates : list string)
  : option string :=
  first_present (cols_lower df) candidates.

(** The dictionary [infer_cols] returns. *)
Definition infer_cols (df : DataFrame) : cols :=
  {| start_dt :=
       _find_col df ["started_at"; "start_time"; "starttime"; "start_datetime"];
     end_dt :=
       _find_col df ["ended_at"; "end_time"; "stoptime"; "end_datetime"];
     user :=
       _find_col df ["member_casual"; "usertype"; "user_type"; "customer_type"];
     bike :=
       _find_col df ["rideable_type"; "bike_type"; "vehicle_type"] |}.

Definition _to_datetime_safe (s : Series) : result Series :=
  to_datetime parse s.

(** [load_prepared], from the table [pd.read_csv(path)] returned. *)
Definition load_prepared (df : DataFrame) : result (DataFrame * cols) :=
  let cols := infer_cols df in
  match start_dt cols, end_dt cols with
  | Some start_c, Some end_c =>
      s ← getitem df start_c;
      s ← _to_datetime_safe s;
      df ← setitem df start_c s;
      e ← getitem df end_c;
      e ← _to_datetime_safe e;
      df ← setitem df end_c e;
      df ← dropna df [start_c; end_c];
      e ← getitem df end_c;
      s ← getitem df start_c;
      td ← series_sub e s;
      df ← setitem df "trip_duration_min"
             (float_series (truediv (total_seconds td) 60));
      s ← getitem df start_c;
      names ← dt_day_name s;
      df ← setitem df "day_of_week" names;
      s ← getitem df start_c;
      hours ← dt_hour s;
      df ← setitem df "start_hour" hours;
      mret (df, cols)
  | _, _ => mret (df, cols)
  end.

End WithLibraries.

End utils.

(** ** [pages/2_Qualite_et_nettoyage.py] *)

Module Qualite_et_nettoyage.

Definition MIN_DURATION_MIN : Q := 1.
Definition MAX_DURATION_MIN : Q := 24 * 60.

Record cols := {
  started_at : option string;
  ended_at : option string
}.

(** The dictionary [cleaning_log]. *)
Record cleaning_log := {
  raw_n : Z;
  clean_n : Z;
  dropped_total : Z;
  dropped_geo : Z;
  incoh_time : Z;
  dur_le_0 : Z;
  dur_lt_1 : Z;
  dur_gt_24h : Z;
  dropped_dur : Z;
  start_col : option string;
  end_col : option string
}.

Section WithLibraries.
Variable lower : string -> string.
Variable parse : parser.

(** [_find_col]: the page has its own copy, with the dictionary named
    [lower_map]. *)
Definition lower_map (df : DataFrame) : gmap string string :=
  foldl (fun m c => <[lower c := c]> m) ∅ (columns df).

Fixpoint first_present (d : gmap string string) (candidates : list string)
  : option string :=
  match candidates with
  | [] => None
  | cand :: candidates' =>
      match d !! lower cand with
      | Some c => Some c
      | None => first_present d candidates'
      end
  end.

Definition _find_col (df : DataFrame) (candidates : list string)
  : option string :=
  first_present (lower_map df) candidates.

Definition infer_cols (df : DataFrame) : cols :=
  {| started_at :=
       _find_col df ["started_at"; "start_time"; "starttime"; "start_datetime"];
     ended_at :=
       _find_col df ["ended_at"; "end_time"; "stoptime"; "end_datetime"] |}.

Definition to_datetime_safe (s : Series) : result Series :=
  to_datetime parse s.

(** Lines 59-63: [if col: df[col] = to_datetime_safe(df[col])]. *)
Definition convert_datetime (df : DataFrame) (col : option string)
  : result DataFrame :=
  match col with
  | Some c =>
      if truthy col then
        s ← getitem df c;
        s ← to_datetime_safe s;
        setitem df c s
      else mret df
  | None => mret df
  end.

(** Lines 65-68: [if c in df.columns: df[c] = df[c].fillna("Missing")]. *)
Definition impute_station (df : DataFrame) (c : string) : result DataFrame :=
  if has_col df c then
    s ← getitem df c;
    setitem df c (fillna s (Str "Missing"))
  else mret df.

Definition impute_stations (df : DataFrame) : result DataFrame :=
  df ← impute_station df "start_station_name";
  impute_station df "end_station_name".

(** Lines 70-76: the geo-completeness filter and its count. *)
Definition drop_missing_geo (df : DataFrame) : result (Z * DataFrame) :=
  let geo_cols := List.filter (has_col df) ["end_lat"; "end_lng"] in
  if Nat.eqb (length geo_cols) 2 then
    let before := len df in
    df ← dropna df geo_cols;
    mret (before - len df, df)
  else mret (0, df).

(** Lines 81-84: the temporal-consistency filter and its count. *)
Definition drop_incoherent (df : DataFrame) (start_c end_c : string)
  : result (Z * DataFrame) :=
  s ← getitem df start_c;
  e ← getitem df end_c;
  let mask_valid_dt := mask_and (series_notna s) (series_notna e) in
  e ← getitem df end_c;
  s ← getitem df start_c;
  lt ← series_lt e s;
  let mask_incoh := mask_and mask_valid_dt lt in
  let incoh := mask_sum mask_incoh in
  df ← loc df (mask_not mask_incoh);
  mret (incoh, df).

(** Line 87: the duration column, in minutes. *)
Definition add_duration (df : DataFrame) (start_c end_c : string)
  : result DataFrame :=
  e ← getitem df end_c;
  s ← getitem df start_c;
  td ← series_sub e s;
  setitem df "trip_duration_min"
    (float_series (truediv (total_seconds td) 60)).

(** Lines 78-90: [if start_col and end_col: ... else: ...]. *)
Definition temporal_step (df : DataFrame) (start_c end_c : option string)
  : result (Z * DataFrame) :=
  match start_c, end_c with
  | Some sc, Some ec =>
      if truthy start_c && truthy end_c then
        '(incoh, df) ← drop_incoherent df sc ec;
        df ← add_duration df sc ec;
        mret (incoh, df)
      else mret (0, setitem_scalar df "trip_duration_min" NaN)
  | _, _ => mret (0, setitem_scalar df "trip_duration_min" NaN)
  end.

(** Lines 92-96: the three diagnostic counters, before the bounds filter. *)
Definition count_outliers (df : DataFrame) : result (Z * Z * Z) :=
  dur ← getitem df "trip_duration_min";
  le_0 ← series_le dur 0;
  let n_le_0 := mask_sum le_0 in
  gt_0 ← series_gt dur 0;
  lt_min ← series_lt_scalar dur MIN_DURATION_MIN;
  let n_lt_1 := mask_sum (mask_and gt_0 lt_min) in
  gt_max ← series_gt dur MAX_DURATION_MIN;
  let n_gt_24h := mask_sum gt_max in
  mret (n_le_0, n_lt_1, n_gt_24h).

(** Lines 98-101: the duration-bounds filter and its count. *)
Definition filter_duration (df : DataFrame) : result (Z * DataFrame) :=
  let before_dur := len df in
  d ← getitem df "trip_duration_min";
  ge_min ← series_ge d MIN_DURATION_MIN;
  d ← getitem df "trip_duration_min";
  le_max ← series_le d MAX_DURATION_MIN;
  df ← loc df (mask_and ge_min le_max);
  mret (before_dur - len df, df).

(** The table the temporal step receives: lines 56-76. *)
Definition before_temporal (df_raw : DataFrame)
  : result (Z * DataFrame) :=
  let df := df_raw in
  let cols := infer_cols df in
  df ← convert_datetime df (started_at cols);
  df ← convert_datetime df (ended_at cols);
  df ← impute_stations df;
  drop_missing_geo df.

(** The table the outlier counters and the bounds filter receive:
    lines 56-90. *)
Definition before_bounds (df_raw : DataFrame)
  : result (Z * Z * DataFrame) :=
  let cols := infer_cols df_raw in
  '(dropped_geo, df) ← before_temporal df_raw;
  '(incoh, df) ← temporal_step df (started_at cols) (ended_at cols);
  mret (dropped_geo, incoh, df).

(** [prepare_data], from the table [pd.read_csv(path)] returned. *)
Definition prepare_data (df_raw : DataFrame)
  : result (DataFrame * DataFrame * cleaning_log) :=
  let cols := infer_cols df_raw in
  '(dropped_geo, incoh, df) ← before_bounds df_raw;
  '(n_le_0, n_lt_1, n_gt_24h) ← count_outliers df;
  '(dropped_dur, df) ← filter_duration df;
  let raw_n := len df_raw in
  let clean_n := len df in
  let dropped_total := raw_n - clean_n in
  mret (df_raw, df,
        {| raw_n := raw_n;
           clean_n := clean_n;
           dropped_total := dropped_total;
           dropped_geo := dropped_geo;
           incoh_time := incoh;
           dur_le_0 := n_le_0;
           dur_lt_1 := n_lt_1;
           dur_gt_24h := n_gt_24h;
           dropped_dur := dropped_dur;
           start_col := started_at cols;
           end_col := ended_at cols |}).

End WithLibraries.

End Qualite_et_nettoyage.

(** ** [pages/4_Analyses_et_graphiques.py] *)

Module Analyses_et_graphiques.

Definition bins : list Z := [0; 6; 10; 14; 18; 22; 24].

Definition labels : list string :=
  ["00–05 (Nuit)";
   "06–09 (Matin)";
   "10–13 (Midi)";
   "14–17 (Après-midi)";
   "18–21 (Soir)";
   "22–23 (Nuit tardive)"].

(** Lines 117-124: the column [time_slot] of the copy [df_h]. *)
Definition time_slot (df : DataFrame) : result DataFrame :=
  let df_h := df in
  h ← getitem df_h "start_hour";
  slots ← cut h bins labels;
  setitem df_h "time_slot" slots.

(** The slot of one hour. *)
Definition slot_of_hour (h : Z) : option string :=
  cut_value bins labels (inject_Z h).

End Analyses_et_graphiques.

(** ** Concrete libraries and sample tables

    The properties below hold for every [lower] that lower-cases ASCII
    strings as Python does and for every parser. To run the code on
    concrete tables we fix both: [Py.ascii_lower], and a parser of
    timestamps written [YYYY-MM-DD HH:MM:SS], the format of the dataset,
    with an optional UTC offset [+HH:MM] or [-HH:MM]. *)

Module Sample.

Definition lower : string -> string := ascii_lower.

Definition digit (c : ascii) : option Z :=
  let n := nat_of_ascii c in
  if (48 <=? n)%nat && (n <=? 57)%nat then Some (Z.of_nat n - 48) else None.

Fixpoint number_from (acc : Z) (s : string) : option Z :=
  match s with
  | EmptyString => Some acc
  | String c s' =>
      match digit c with
      | Some d => number_from (10 * acc + d) s'
      | None => None
      end
  end.

Definition number (s : string) : option Z :=
  match s with
  | EmptyString => None
  | _ => number_from 0 s
  end.

Definition is_leap (y : Z) : bool :=
  ((y mod 4 =? 0) && negb (y mod 100 =? 0)) || (y mod 400 =? 0).

Definition days_in_month (y m : Z) : Z :=
  if m =? 2 then (if is_leap y then 29 else 28)
  else if (m =? 4) || (m =? 6) || (m =? 9) || (m =? 11) then 30
  else 31.

(** Days between 1970-01-01 and the civil date [y-m-d]. *)
Definition days_from_civil (y m d : Z) : Z :=
  let y' := if m <=? 2 then y - 1 else y in
  let era := y' / 400 in
  let yoe := y' - era * 400 in
  let mp := (m + 9) mod 12 in
  let doy := (153 * mp + 2) / 5 + d - 1 in
  let doe := yoe * 365 + yoe / 4 - yoe / 100 + doy in
  era * 146097 + doe - 719468.

(** The nanoseconds from the epoch to the wall-clock time [s] shows. *)
Definition parse_wall_clock (s : string) : option Z :=
  if negb (Nat.eqb (String.length s) 19) then None
  else if negb (String.eqb (substring 4 1 s) "-"
                && String.eqb (substring 7 1 s) "-"
                && String.eqb (substring 10 1 s) " "
                && String.eqb (substring 13 1 s) ":"
                && String.eqb (substring 16 1 s) ":") then None
  else
    y ← number (substring 0 4 s);
    m ← number (substring 5 2 s);
    d ← number (substring 8 2 s);
    hh ← number (substring 11 2 s);
    mm ← number (substring 14 2 s);
    ss ← number (substring 17 2 s);
    if (1 <=? m) && (m <=? 12) && (1 <=? d) && (d <=? days_in_month y m)
       && (hh <? 24) && (mm <? 60) && (ss <? 60)
    then Some ((((days_from_civil y m d * 24 + hh) * 60 + mm) * 60 + ss)
               * 1000000000)
    else None.

(** The nanoseconds of a UTC offset [+HH:MM] or [-HH:MM]. *)
Definition parse_offset (s : string) : option Z :=
  if negb (Nat.eqb (String.length s) 6) then None
  else if negb (String.eqb (substring 3 1 s) ":") then None
  else
    sign ← (if String.eqb (substring 0 1 s) "+" then Some 1
            else if String.eqb (substring 0 1 s) "-" then Some (-1)
            else None);
    hh ← number (substring 1 2 s);
    mm ← number (substring 4 2 s);
    if (hh <? 24) && (mm <? 60)
    then Some (sign * (hh * 60 + mm) * 60 * 1000000000)
    else None.

(** One timestamp: its instant and, when it is written with one, its
    offset. *)
Definition parse_timestamp (s : string) : option (Z * option Z) :=
  if Nat.eqb (String.length s) 19 then
    ns ← parse_wall_clock s; Some (ns, None)
  else if Nat.eqb (String.length s) 25 then
    ns ← parse_wall_clock (substring 0 19 s);
    offset ← parse_offset (substring 19 6 s);
    Some (ns - offset, Some offset)
  else None.

Definition parse_cell (c : cell) : option (Z * option Z) :=
  match c with
  | Str s => parse_timestamp s
  | _ => None
  end.

(** A column: the first value that parses decides whether the column is
    read with or without offsets; a value written the other way does not
    parse; two different offsets raise [ValueError]. *)
Definition iso_parser : parser :=
  fun s =>
    let ps := parse_cell <$> s in
    match head (omap id ps) with
    | Some (_, Some offset) =>
        if forallb (fun p => match p with
                             | Some (_, Some o) => o =? offset
                             | _ => true
                             end) ps
        then Ok (Some offset,
                 (fun p => match p with
                           | Some (ns, Some _) => Some ns
                           | _ => None
                           end) <$> ps)
        else Raise ValueError
    | _ =>
        Ok (None,
            (fun p => match p with
                      | Some (ns, None) => Some ns
                      | _ => None
                      end) <$> ps)
    end.

(** A table from its header and its lines, as [pd.read_csv] builds it. *)
Definition frame (header : list string) (lines : list (list cell))
  : DataFrame :=
  {| columns := header;
     rows := (fun line => list_to_map (zip header line)) <$> lines;
     tzs := ∅ |}.

(** Six trips: a five-minute one, one that ends before it starts, one of
    zero length, one of two days, one whose end time is malformed, and one
    with no end latitude. *)
Definition trips : DataFrame :=
  frame ["ride_id"; "Started_At"; "ended_at"; "end_lat"; "end_lng"]
    [ [Str "a"; Str "2024-01-01 10:00:00"; Str "2024-01-01 10:05:00";
       Num 1; Num 2];
      [Str "b"; Str "2024-01-01 10:00:00"; Str "2024-01-01 09:00:00";
       Num 1; Num 2];
      [Str "c"; Str "2024-01-01 10:00:00"; Str "2024-01-01 10:00:00";
       Num 1; Num 2];
      [Str "d"; Str "2024-01-01 10:00:00"; Str "2024-01-03 10:00:00";
       Num 1; Num 2];
      [Str "e"; Str "2024-01-01 10:00:00"; Str "not a date";
       Num 1; Num 2];
      [Str "f"; Str "2024-01-01 10:00:00"; Str "2024-01-01 10:30:00";
       NaN; Num 2] ].

(** [trips] with its two time columns converted. *)
Definition trips_converted : DataFrame :=
  frame ["ride_id"; "Started_At"; "ended_at"; "end_lat"; "end_lng"]
    [ [Str "a"; Timestamp 1704103200000000000;
       Timestamp 1704103500000000000; Num 1; Num 2];
      [Str "b"; Timestamp 1704103200000000000;
       Timestamp 1704099600000000000; Num 1; Num 2];
      [Str "c"; Timestamp 1704103200000000000;
       Timestamp 1704103200000000000; Num 1; Num 2];
      [Str "d"; Timestamp 1704103200000000000;
       Timestamp 1704276000000000000; Num 1; Num 2];
      [Str "e"; Timestamp 1704103200000000000; NaT; Num 1; Num 2];
      [Str "f"; Timestamp 1704103200000000000;
       Timestamp 1704105000000000000; NaN; Num 2] ].

(** What the cleaning pipeline makes of [trips]: before the temporal
    filter, before the bounds filter, and at the end. *)
Definition trips_geo : DataFrame :=
  frame ["ride_id"; "Started_At"; "ended_at"; "end_lat"; "end_lng"]
    [ [Str "a"; Timestamp 1704103200000000000;
       Timestamp 1704103500000000000; Num 1; Num 2];
      [Str "b"; Timestamp 1704103200000000000;
       Timestamp 1704099600000000000; Num 1; Num 2];
      [Str "c"; Timestamp 1704103200000000000;
       Timestamp 1704103200000000000; Num 1; Num 2];
      [Str "d"; Timestamp 1704103200000000000;
       Timestamp 1704276000000000000; Num 1; Num 2];
      [Str "e"; Timestamp 1704103200000000000; NaT; Num 1; Num 2] ].

Definition trips_coherent : DataFrame :=
  frame ["ride_id"; "Started_At"; "ended_at"; "end_lat"; "end_lng"]
    [ [Str "a"; Timestamp 1704103200000000000;
       Timestamp 1704103500000000000; Num 1; Num 2];
      [Str "c"; Timestamp 1704103200000000000;
       Timestamp 1704103200000000000; Num 1; Num 2];
      [Str "d"; Timestamp 1704103200000000000;
       Timestamp 1704276000000000000; Num 1; Num 2];
      [Str "e"; Timestamp 1704103200000000000; NaT; Num 1; Num 2] ].

Definition trips_timed : DataFrame :=
  frame ["ride_id"; "Started_At"; "ended_at"; "end_lat"; "end_lng";
         "trip_duration_min"]
    [ [Str "a"; Timestamp 1704103200000000000;
       Timestamp 1704103500000000000; Num 1; Num 2; Num 5];
      [Str "c"; Timestamp 1704103200000000000;
       Timestamp 1704103200000000000; Num 1; Num 2; Num 0];
      [Str "d"; Timestamp 1704103200000000000;
       Timestamp 1704276000000000000; Num 1; Num 2; Num 2880];
      [Str "e"; Timestamp 1704103200000000000; NaT; Num 1; Num 2; NaN] ].

Definition trips_clean : DataFrame :=
  frame ["ride_id"; "Started_At"; "ended_at"; "end_lat"; "end_lng";
         "trip_duration_min"]
    [ [Str "a"; Timestamp 1704103200000000000;
       Timestamp 1704103500000000000; Num 1; Num 2; Num 5] ].

Definition trips_log : Qualite_et_nettoyage.cleaning_log :=
  {| Qualite_et_nettoyage.raw_n := 6;
     Qualite_et_nettoyage.clean_n := 1;
     Qualite_et_nettoyage.dropped_total := 5;
     Qualite_et_nettoyage.dropped_geo := 1;
     Qualite_et_nettoyage.incoh_time := 1;
     Qualite_et_nettoyage.dur_le_0 := 1;
     Qualite_et_nettoyage.dur_lt_1 := 0;
     Qualite_et_nettoyage.dur_gt_24h := 1;
     Qualite_et_nettoyage.dropped_dur := 3;
     Qualite_et_nettoyage.start_col := Some "Started_At";
     Qualite_et_nettoyage.end_col := Some "ended_at" |}.

(** What [load_prepared] makes of [trips]: the row with the malformed end
    time is gone, the reversed trip, the empty one and the two-day one are
    kept. *)
Definition trips_prepared : DataFrame :=
  frame ["ride_id"; "Started_At"; "ended_at"; "end_lat"; "end_lng";
         "trip_duration_min"; "day_of_week"; "start_hour"]
    [ [Str "a"; Timestamp 1704103200000000000;
       Timestamp 1704103500000000000; Num 1; Num 2;
       Num 5; Str "Monday"; Int 10];
      [Str "b"; Timestamp 1704103200000000000;
       Timestamp 1704099600000000000; Num 1; Num 2;
       Num (-60); Str "Monday"; Int 10];
      [Str "c"; Timestamp 1704103200000000000;
       Timestamp 1704103200000000000; Num 1; Num 2;
       Num 0; Str "Monday"; Int 10];
      [Str "d"; Timestamp 1704103200000000000;
       Timestamp 1704276000000000000; Num 1; Num 2;
       Num 2880; Str "Monday"; Int 10];
      [Str "f"; Timestamp 1704103200000000000;
       Timestamp 1704105000000000000; NaN; Num 2;
       Num 30; Str "Monday"; Int 10] ].

Definition trips_cols : utils.cols :=
  {| utils.start_dt := Some "Started_At";
     utils.end_dt := Some "ended_at";
     utils.user := None;
     utils.bike := None |}.

(** A table whose start times carry a UTC offset and whose end times carry
    none. *)
Definition zoned_start : DataFrame :=
  frame ["started_at"; "ended_at"]
    [ [Str "2024-01-01 10:00:00+02:00"; Str "2024-01-01 10:05:00"] ].

(** [zoned_start] with its two time columns converted: the start column is
    tz-aware, two hours ahead of UTC, the end column is tz-naive. *)
Definition zoned_start_converted : DataFrame :=
  {| columns := ["started_at"; "ended_at"];
     rows := [ list_to_map [("started_at", Timestamp 1704096000000000000);
                            ("ended_at", Timestamp 1704103500000000000)] ];
     tzs := {[ "started_at" := 7200000000000 ]} |}.

(** A table whose start times carry two different UTC offsets. *)
Definition two_offsets : DataFrame :=
  frame ["started_at"; "ended_at"]
    [ [Str "2024-01-01 10:00:00+02:00"; Str "2024-01-01 10:05:00"];
      [Str "2024-01-01 10:00:00+01:00"; Str "2024-01-01 10:05:00"] ].

(** A table whose start column is spelt in capitals and that has no end
    column. *)
Definition shouting : DataFrame :=
  frame ["ride_id"; "STARTED_AT"]
    [ [Str "a"; Str "2024-01-01 10:00:00"] ].

(** A table with two start columns that differ by case only. *)
Definition two_starts : DataFrame :=
  frame ["STARTED_AT"; "started_at"]
    [ [Str "2024-01-01 10:00:00"; Str "2024-01-01 11:00:00"] ].

(** A table with no start or end column. *)
Definition no_times : DataFrame :=
  frame ["ride_id"; "end_station_name"]
    [ [Str "a"; Str "Quai"]; [Str "b"; NaN] ].

Definition no_times_timed : DataFrame :=
  frame ["ride_id"; "end_station_name"; "trip_duration_min"]
    [ [Str "a"; Str "Quai"; NaN]; [Str "b"; Str "Missing"; NaN] ].

(** A prepared table of four trips, by its hours of departure. *)
Definition departures : DataFrame :=
  frame ["ride_id"; "start_hour"]
    [ [Str "a"; Int 6]; [Str "b"; Int 21]; [Str "c"; Int 23];
      [Str "d"; Int 0] ].

Definition departures_slotted : DataFrame :=
  frame ["ride_id"; "start_hour"; "time_slot"]
    [ [Str "a"; Int 6; Str "06–09 (Matin)"];
      [Str "b"; Int 21; Str "18–21 (Soir)"];
      [Str "c"; Int 23; Str "22–23 (Nuit tardive)"];
      [Str "d"; Int 0; Str "00–05 (Nuit)"] ].

End Sample.

(** ** Row-wise readings of the pipeline steps

    Each column expression of the code is a function of the row; these are
    the functions the properties are stated with. *)

Module QN := Qualite_et_nettoyage.

Module RowSpec.

Definition DURATION : string := "trip_duration_min".

(** The candidate aliases of the four roles, as the design document lists
    them. *)
Definition start_aliases : list string :=
  ["started_at"; "start_time"; "starttime"; "start_datetime"].
Definition end_aliases : list string :=
  ["ended_at"; "end_time"; "stoptime"; "end_datetime"].
Definition user_aliases : list string :=
  ["member_casual"; "usertype"; "user_type"; "customer_type"].
Definition bike_aliases : list string :=
  ["rideable_type"; "bike_type"; "vehicle_type"].

(** What the resolver answers for a list of candidates: on a hit, the hit
    is the last column that equals, once lower-cased, the first candidate
    that some column equals once lower-cased; on a miss, no column equals
    any candidate once lower-cased. *)
Definition resolves (lower : string -> string) (df : DataFrame)
    (candidates : list string) (answer : option string) : Prop :=
  match answer with
  | Some c =>
      exists (before : list string) cand after (pre post : list string),
        candidates = (before ++ cand :: after)%list /\
        (forall a col, a ∈ before -> col ∈ columns df ->
                       lower col <> lower a) /\
        columns df = (pre ++ c :: post)%list /\
        lower c = lower cand /\
        (forall col, col ∈ post -> lower col <> lower cand)
  | None =>
      forall a col, a ∈ candidates -> col ∈ columns df ->
                    lower col <> lower a
  end.

(** The mask [mask_incoh], row by row. *)
Definition incoherent (start_c end_c : string) (r : gmap string cell) : bool :=
  notna (at_col start_c r) && notna (at_col end_c r)
  && cell_lt (at_col end_c r) (at_col start_c r).

Definition coherent (start_c end_c : string) (r : gmap string cell) : bool :=
  negb (incoherent start_c end_c r).

(** The float [total_seconds() / 60] of a difference of [ns]
    nanoseconds. *)
Definition float_minutes (ns : Z) : Q := Float64.div (seconds_of ns) 60.



(** The duration cell computed from the end and start cells of a row. *)
Definition duration_cell (e s : cell) : cell :=
  float_cell (float_minutes <$> cell_sub e s).

Definition duration_of (start_c end_c : string) (r : gmap string cell)
  : cell :=
  duration_cell (at_col end_c r) (at_col start_c r).

(** A numeric test on a duration cell; [false] on a missing value. *)
Definition num_test (p : Q -> bool) (c : cell) : bool :=
  match c with
  | Num x => p x
  | Int n => p (inject_Z n)
  | _ => false
  end.

Definition non_positive (c : cell) : bool :=
  num_test (fun x => Qle_bool x 0) c.
Definition sub_minute (c : cell) : bool :=
  num_test (fun x => Qlt_bool 0 x && Qlt_bool x 1) c.
Definition over_a_day (c : cell) : bool :=
  num_test (fun x => Qlt_bool 1440 x) c.
Definition in_bounds (c : cell) : bool :=
  num_test (fun x => Qle_bool 1 x && Qle_bool x 1440) c.
Definition zero_duration (c : cell) : bool :=
  num_test (fun x => Qeq_bool x 0) c.

(** A column of floats: every cell a number or [NaN]. *)
Definition is_float_cell (c : cell) : bool :=
  match c with
  | NaN | Num _ => true
  | _ => false
  end.

(** The table [df] with column [c] set, row by row, to [F], a value that is
    not a timestamp. *)
Definition assign (c : string) (F : gmap string cell -> cell)
    (df : DataFrame) : DataFrame :=
  {| columns := if has_col df c then columns df else columns df ++ [c];
     rows := (fun r => <[c := F r]> r) <$> rows df;
     tzs := delete c (tzs df) |}.

(** The rows of [df] that satisfy [p]. *)
Definition keep (p : gmap string cell -> bool) (df : DataFrame)
  : DataFrame :=
  {| columns := columns df;
     rows := List.filter p (rows df);
     tzs := tzs df |}.

(** The number of rows of [df] that satisfy [p]. *)
Definition count_rows (p : gmap string cell -> bool) (df : DataFrame) : Z :=
  Z.of_nat (length (List.filter p (rows df))).

(** Column [c] exists and holds only timestamps and [NaT]. *)
Definition datetime_col (df : DataFrame) (c : string) : Prop :=
  has_col df c = true /\
  forall r, r ∈ rows df -> is_datetime_cell (at_col c r) = true.

(** Column [DURATION] exists and holds only numbers and [NaN]. *)
Definition float_col (df : DataFrame) : Prop :=
  has_col df DURATION = true /\
  forall r, r ∈ rows df -> is_float_cell (at_col DURATION r) = true.

(** The table [df] with column [c] replaced by the datetime column of zone
    [zone] whose cells are [instants]. *)
Definition with_datetime (c : string) (zone : option Z)
    (instants : list (option Z)) (df : DataFrame) : DataFrame :=
  {| columns := if has_col df c then columns df else columns df ++ [c];
     rows := zip_with (fun r v => <[c := datetime_cell v]> r)
               (rows df) instants;
     tzs := set_tz c zone (tzs df) |}.

(** Column [c] converted by the datetime normalizer. *)
Definition converted (parse : parser) (c : string) (df : DataFrame)
  : result DataFrame :=
  '(zone, instants) ← parse (at_col c <$> rows df);
  if Nat.eqb (length instants) (length (rows df)) then
    Ok (with_datetime c zone instants df)
  else Raise ValueError.

Definition converted_opt (parse : parser) (col : option string)
    (df : DataFrame) : result DataFrame :=
  match col with
  | Some c => converted parse c df
  | None => Ok df
  end.

(** The table in which the time columns the cleaning page resolved are
    converted: lines 59-63. *)
Definition conversions (lower : string -> string) (parse : parser)
    (raw : DataFrame) : result DataFrame :=
  let cols := QN.infer_cols lower raw in
  N ← converted_opt parse (QN.started_at cols) raw;
  converted_opt parse (QN.ended_at cols) N.

(** Column [c], when the table has it, with its missing cells replaced by
    ["Missing"]. *)
Definition imputed (c : string) (df : DataFrame) : DataFrame :=
  if has_col df c then
    {| columns := columns df;
       rows := (fun r => <[c := if isna (at_col c r) then Str "Missing"
                                else at_col c r]> r) <$> rows df;
       tzs := tzs df |}
  else df.

(** No missing end coordinate. *)
Definition geo_complete (r : gmap string cell) : bool :=
  notna (at_col "end_lat" r) && notna (at_col "end_lng" r).

Definition geo_filtered (df : DataFrame) : DataFrame :=
  if has_col df "end_lat" && has_col df "end_lng" then keep geo_complete df
  else df.

(** Labels the code itself reads or writes. *)
Definition reserved : list string :=
  [""; "trip_duration_min"; "day_of_week"; "start_hour";
   "start_station_name"; "end_station_name"; "end_lat"; "end_lng"].

(** What the cleaning page knows about its two resolved columns. *)
Record resolved_pair (df : DataFrame) (sc ec : string) : Prop := {
  rp_start_in : sc ∈ columns df;
  rp_end_in : ec ∈ columns df;
  rp_start_free : sc ∉ reserved;
  rp_end_free : ec ∉ reserved;
  rp_distinct : sc <> ec
}.

(** From the table [N] in which the time columns are converted: the table
    after the station-name imputation and the geo-completeness filter, the
    table after the temporal step, and the table after the duration-bounds
    filter. *)
Definition geo_stage (N : DataFrame) : DataFrame :=
  geo_filtered (imputed "end_station_name" (imputed "start_station_name" N)).

Definition time_stage (start_c end_c : option string) (G : DataFrame)
  : DataFrame :=
  match start_c, end_c with
  | Some sc, Some ec =>
      assign DURATION (duration_of sc ec) (keep (coherent sc ec) G)
  | _, _ => assign DURATION (fun _ => NaN) G
  end.

Definition duration (r : gmap string cell) : cell := at_col DURATION r.

Definition cleaned (start_c end_c : option string) (G : DataFrame)
  : DataFrame :=
  keep (fun r => in_bounds (duration r)) (time_stage start_c end_c G).

(** The number of rows the temporal-consistency filter drops. *)
Definition incoherent_count (start_c end_c : option string) (G : DataFrame)
  : Z :=
  match start_c, end_c with
  | Some sc, Some ec => count_rows (incoherent sc ec) G
  | _, _ => 0
  end.

(** The two time columns are both tz-aware or both tz-naive. *)
Definition same_awareness (df : DataFrame) (a b : string) : bool :=
  Bool.eqb (aware (tzs df !! a)) (aware (tzs df !! b)).

(** Every difference of the end and the start of a row fits in an
    [int64]. *)
Definition differences_fit (start_c end_c : string) (df : DataFrame) : bool :=
  forallb (fun r => fits_int64 (cell_sub (at_col end_c r) (at_col start_c r)))
    (rows df).

(** What the temporal step answers on the table [G]. *)
Definition temporal_outcome (start_c end_c : option string) (G : DataFrame)
  : result (Z * DataFrame) :=
  match start_c, end_c with
  | Some sc, Some ec =>
      if same_awareness G sc ec then
        if differences_fit sc ec (keep (coherent sc ec) G) then
          Ok (incoherent_count start_c end_c G, time_stage start_c end_c G)
        else Raise OverflowError
      else Raise TypeError
  | _, _ => Ok (0, time_stage start_c end_c G)
  end.

(** The log of a run on [raw] whose temporal step received [G]. *)
Definition log_of (start_c end_c : option string) (raw G : DataFrame)
  : QN.cleaning_log :=
  let T := time_stage start_c end_c G in
  {| QN.raw_n := len raw;
     QN.clean_n := len (cleaned start_c end_c G);
     QN.dropped_total := len raw - len (cleaned start_c end_c G);
     QN.dropped_geo := len raw - len G;
     QN.incoh_time := incoherent_count start_c end_c G;
     QN.dur_le_0 := count_rows (fun r => non_positive (duration r)) T;
     QN.dur_lt_1 := count_rows (fun r => sub_minute (duration r)) T;
     QN.dur_gt_24h := count_rows (fun r => over_a_day (duration r)) T;
     QN.dropped_dur := len T - len (cleaned start_c end_c G);
     QN.start_col := start_c;
     QN.end_col := end_c |}.

(** Both timestamps of the row parsed and the end is earlier than the
    start. *)
Definition reversed (start_c end_c : string) (r : gmap string cell) : Prop :=
  exists s e,
    at_col start_c r = Timestamp s /\ at_col end_c r = Timestamp e /\ e < s.

(** A timestamp of the row failed to parse. *)
Definition unparsed (start_c end_c : string) (r : gmap string cell) : Prop :=
  at_col start_c r = NaT \/ at_col end_c r = NaT.

(** The row with its three derived cells, as [load_prepared] adds them; the
    day and the hour are read on the clock of the zone of the start
    column. *)
Definition derive (start_c end_c : string) (zone : option Z)
    (r : gmap string cell) : gmap string cell :=
  let r1 := <[DURATION := duration_of start_c end_c r]> r in
  let r2 := <["day_of_week" := day_name_cell zone (at_col start_c r1)]> r1 in
  <["start_hour" := hour_cell zone (at_col start_c r2)]> r2.

(** Both timestamps of the row parsed. *)
Definition both_parsed (start_c end_c : string) (r : gmap string cell)
  : bool :=
  notna (at_col start_c r) && notna (at_col end_c r).

(** The six buckets of the day, as the design document lists them: the
    half-open range of hours and its label. *)
Definition hour_buckets : list (Z * Z * string) :=
  [(0, 6, "00–05 (Nuit)");
   (6, 10, "06–09 (Matin)");
   (10, 14, "10–13 (Midi)");
   (14, 18, "14–17 (Après-midi)");
   (18, 22, "18–21 (Soir)");
   (22, 24, "22–23 (Nuit tardive)")].

Definition in_bucket (h : Z) (b : Z * Z * string) : Prop :=
  b.1.1 <= h < b.1.2.

(** The slot cell [pd.cut] gives to a cell of the hour column. *)
Definition slot_cell (c : cell) : cell :=
  match c with
  | Int h =>
      match Analyses_et_graphiques.slot_of_hour h with
      | Some l => Str l
      | None => NaN
      end
  | _ => NaN
  end.

(** The three derived cells of every row are present. *)
Definition derived_present (df : DataFrame) : Prop :=
  forall r, r ∈ rows df ->
    notna (duration r) = true /\
    notna (at_col "day_of_week" r) = true /\
    notna (at_col "start_hour" r) = true.

End RowSpec.

Import RowSpec.

(** ** The page scripts

    The pages are scripts; the computations they make between two widgets
    are modelled as functions of the values the script holds at that point.
    A value chosen on a widget is a parameter. *)

Module PandasSeries.

(** [s.dropna()] *)
Definition series_dropna (s : Series) : Series :=
  {| values := List.filter notna (values s); tz := tz s |}.

(** [s[mask]], for a boolean series [mask]. *)
Definition series_loc (s : Series) (mask : list bool) : result Series :=
  if Nat.eqb (length mask) (length (values s)) then
    Ok {| values := fst <$> List.filter snd (zip (values s) mask);
          tz := tz s |}
  else Raise ValueError.

End PandasSeries.

Import PandasSeries.

(** [pages/2_Qualite_et_nettoyage.py], lines 264-283. *)
Module Qualite_page.

Section WithLibraries.
Variable parse : parser.

(** Lines 264-268: the durations of the raw table, recomputed. *)
Definition dur_raw (df_raw : DataFrame) (log : QN.cleaning_log)
  : result DataFrame :=
  let dur_raw := df_raw in
  match QN.start_col log, QN.end_col log with
  | Some sc, Some ec =>
      if truthy (QN.start_col log) && truthy (QN.end_col log) then
        s ← getitem dur_raw sc;
        s ← to_datetime parse s;
        dur_raw ← setitem dur_raw sc s;
        e ← getitem dur_raw ec;
        e ← to_datetime parse e;
        dur_raw ← setitem dur_raw ec e;
        e ← getitem dur_raw ec;
        s ← getitem dur_raw sc;
        td ← series_sub e s;
        dur_raw ← setitem dur_raw "trip_duration_min"
                    (float_series (truediv (total_seconds td) 60));
        mret dur_raw
      else mret dur_raw
  | _, _ => mret dur_raw
  end.

(** Lines 279-283: the rows of the histogram, [max_show] being the value
    of the slider of lines 271-277. *)
Definition plot_df (df_raw : DataFrame) (log : QN.cleaning_log)
    (max_show : Q) : result DataFrame :=
  dur_raw ← dur_raw df_raw log;
  d ← getitem dur_raw "trip_duration_min";
  let present := series_notna d in
  d ← getitem dur_raw "trip_duration_min";
  ge_0 ← series_ge d 0;
  d ← getitem dur_raw "trip_duration_min";
  le_max ← series_le d max_show;
  loc dur_raw (mask_and (mask_and present ge_0) le_max).

End WithLibraries.

End Qualite_page.

(** [pages/2_Qualite_et_nettoyage.py], line 216. *)
Module Qualite_rapports.

(** Two cells hold the same value; missing values are the same. *)
Definition cell_same (a b : cell) : bool :=
  match a, b with
  | NaN, NaN | NaT, NaT => true
  | Str s, Str t => String.eqb s t
  | Int m, Int n => m =? n
  | Num x, Num y => Qeq_bool x y
  | Timestamp m, Timestamp n => m =? n
  | _, _ => false
  end.

Definition row_same (cols : list string) (r r' : gmap string cell) : bool :=
  forallb (fun c => cell_same (at_col c r) (at_col c r')) cols.

(** [df.duplicated()]: a row is marked when an earlier row is the same. *)
Fixpoint duplicated_from (cols : list string) (seen : list (gmap string cell))
    (l : list (gmap string cell)) : list bool :=
  match l with
  | [] => []
  | r :: l' =>
      existsb (row_same cols r) seen :: duplicated_from cols (r :: seen) l'
  end.

Definition duplicated (df : DataFrame) : list bool :=
  duplicated_from (columns df) [] (rows df).

(** Line 216: [int(df_raw.duplicated().sum())]. *)
Definition dup_count (df_raw : DataFrame) : Z := mask_sum (duplicated df_raw).

End Qualite_rapports.

(** [pages/3_Variables_creees.py], lines 70-85. *)
Module Variables_creees.

(** Line 70: the derived variables the prepared table has. *)
Definition available_vars (df : DataFrame) : list string :=
  List.filter (has_col df) ["trip_duration_min"; "day_of_week"; "start_hour"].

(** Lines 79-85: the series the page explores for the chosen variable. *)
Definition explored (df : DataFrame) (var_choice : string)
  : result Series :=
  s ← getitem df var_choice;
  let s := series_dropna s in
  if String.eqb var_choice "trip_duration_min" then
    ge_1 ← series_ge s 1;
    le_max ← series_le s (24 * 60);
    series_loc s (mask_and ge_1 le_max)
  else mret s.

End Variables_creees.

(** [pages/4_Analyses_et_graphiques.py], lines 17-21. *)
Module Analyses_page.

Definition required : list string :=
  ["start_hour"; "day_of_week"; "member_casual"; "rideable_type"].

(** Line 18: the required columns the prepared table lacks; the page stops
    when the list is not empty. *)
Definition missing (df : DataFrame) : list string :=
  List.filter (fun c => negb (has_col df c)) required.

End Analyses_page.

(** Row-wise readings used by the properties of the pages. *)
Module PageSpec.

(** The cell a station-name column holds after imputation. *)
Definition filled (c : cell) : cell :=
  if isna c then Str "Missing" else c.

(** A duration cell is missing. *)
Definition missing_duration (c : cell) : bool := isna c.

(** A duration cell is a number between 0 and [max_show]. *)
Definition shown (max_show : Q) (c : cell) : bool :=
  num_test (fun x => Qle_bool 0 x && Qle_bool x max_show) c.

(** The strings of [l] are ASCII and in lower case, and none of them is in
    [l']. *)
Definition lower_case_apart (l l' : list string) : bool :=
  forallb (fun a => is_ascii a && String.eqb (ascii_lower a) a
                    && forallb (fun b => negb (String.eqb a b)) l') l.

(** The table [load_prepared] returns from the table [N] in which the time
    columns [sc] and [ec] are converted. *)
Definition prepared (sc ec : string) (N : DataFrame) : DataFrame :=
  assign "start_hour" (fun r => hour_cell (tzs N !! sc) (at_col sc r))
    (assign "day_of_week"
       (fun r => day_name_cell (tzs N !! sc) (at_col sc r))
       (assign "trip_duration_min" (duration_of sc ec)
          (keep (both_parsed sc ec) N))).

(** A row after the imputation of column [c] of table [df]. *)
Definition impute_row (df : DataFrame) (c : string) (r : gmap string cell)
  : gmap string cell :=
  if has_col df c then <[c := filled (at_col c r)]> r else r.

End PageSpec.

Import PageSpec.

(** A table with station names, coordinates, user and bike types: trip [a]
    is complete; [b] has no start station and no end latitude; [c] has no
    end station; [d] lasts thirty seconds. *)
Module PageSample.

Definition rides : DataFrame :=
  Sample.frame
    ["ride_id"; "started_at"; "ended_at"; "start_station_name";
     "end_station_name"; "end_lat"; "end_lng"; "member_casual";
     "rideable_type"]
    [ [Str "a"; Str "2024-01-01 10:00:00"; Str "2024-01-01 10:05:00";
       Str "Quai"; Str "Gare"; Num 1; Num 2; Str "member";
       Str "classic_bike"];
      [Str "b"; Str "2024-01-01 10:00:00"; Str "2024-01-01 10:30:00";
       NaN; Str "Gare"; NaN; Num 2; Str "casual"; Str "electric_bike"];
      [Str "c"; Str "2024-01-01 23:15:00"; Str "2024-01-01 23:45:00";
       Str "Quai"; NaN; Num 1; Num 2; Str "member"; Str "classic_bike"];
      [Str "d"; Str "2024-01-02 08:00:00"; Str "2024-01-02 08:00:30";
       Str "Quai"; Str "Gare"; Num 1; Num 2; Str "casual";
       Str "classic_bike"] ].

(** What the cleaning pipeline makes of [rides]: [b] goes for its missing
    latitude, [d] for its duration. *)
Definition rides_clean : DataFrame :=
  Sample.frame
    ["ride_id"; "started_at"; "ended_at"; "start_station_name";
     "end_station_name"; "end_lat"; "end_lng"; "member_casual";
     "rideable_type"; "trip_duration_min"]
    [ [Str "a"; Timestamp 1704103200000000000;
       Timestamp 1704103500000000000;
       Str "Quai"; Str "Gare"; Num 1; Num 2; Str "member";
       Str "classic_bike"; Num 5];
      [Str "c"; Timestamp 1704150900000000000;
       Timestamp 1704152700000000000;
       Str "Quai"; Str "Missing"; Num 1; Num 2; Str "member";
       Str "classic_bike"; Num 30] ].

Definition rides_log : QN.cleaning_log :=
  {| QN.raw_n := 4;
     QN.clean_n := 2;
     QN.dropped_total := 2;
     QN.dropped_geo := 1;
     QN.incoh_time := 0;
     QN.dur_le_0 := 0;
     QN.dur_lt_1 := 1;
     QN.dur_gt_24h := 0;
     QN.dropped_dur := 1;
     QN.start_col := Some "started_at";
     QN.end_col := Some "ended_at" |}.

(** A table whose third row repeats the first. *)
Definition doubled : DataFrame :=
  Sample.frame ["ride_id"; "end_lat"]
    [ [Str "a"; NaN]; [Str "b"; Num 1]; [Str "a"; NaN] ].

End PageSample.

(** * Properties *)

(** ** The error monad, lists and masks *)

Lemma bind_Ok {A B} (a : A) (k : A -> result B) : (Ok a ≫= k) = k a.
Proof. reflexivity. Qed.

Lemma bind_mret {A B} (a : A) (k : A -> result B) : (mret a ≫= k) = k a.
Proof. reflexivity. Qed.

Lemma bind_Ok_inv {A B} (m : result A) (k : A -> result B) (b : B) :
  m ≫= k = Ok b -> exists a, m = Ok a /\ k a = Ok b.
Proof. destruct m as [a|e]; [|done]. intros H. by exists a. Qed.

Lemma zip_with_fmap_diag {A B C D} (f : B -> C -> D) (g : A -> B)
    (h : A -> C) (l : list A) :
  zip_with f (g <$> l) (h <$> l) = (fun x => f (g x) (h x)) <$> l.
Proof. induction l as [|x l IH]; csimpl; [done | by rewrite IH]. Qed.

Lemma zip_with_fmap_self {A B C} (f : A -> B -> C) (h : A -> B)
    (l : list A) :
  zip_with f l (h <$> l) = (fun x => f x (h x)) <$> l.
Proof. induction l as [|x l IH]; csimpl; [done | by rewrite IH]. Qed.

Lemma mask_sum_fmap {A} (p : A -> bool) (l : list A) :
  mask_sum (p <$> l) = Z.of_nat (length (List.filter p l)).
Proof.
  unfold mask_sum. f_equal.
  induction l as [|x l IH]; csimpl; [done |].
  destruct (p x); csimpl; by rewrite IH.
Qed.

Lemma filter_by_mask {A} (p : A -> bool) (l : list A) :
  fst <$> List.filter snd (zip l (p <$> l)) = List.filter p l.
Proof.
  induction l as [|x l IH]; csimpl; [done |].
  destruct (p x); csimpl; by rewrite IH.
Qed.

Lemma filter_split_length {A} (p : A -> bool) (l : list A) :
  Z.of_nat (length l)
  = Z.of_nat (length (List.filter p l))
    + Z.of_nat (length (List.filter (fun x => negb (p x)) l)).
Proof.
  induction l as [|x l IH]; simpl; [done |].
  destruct (p x); simpl; lia.
Qed.

Lemma filter_ext_in {A} (p q : A -> bool) (l : list A) :
  (forall x, x ∈ l -> p x = q x) -> List.filter p l = List.filter q l.
Proof.
  induction l as [|x l IH]; intros H; simpl; [done |].
  rewrite (H x) by left. rewrite IH; [done |].
  intros y Hy. apply H. by right.
Qed.

Lemma elem_of_bool_filter {A} (p : A -> bool) (l : list A) (x : A) :
  x ∈ List.filter p l <-> x ∈ l /\ p x = true.
Proof. rewrite !list_elem_of_In. apply filter_In. Qed.

Lemma filter_none {A} (p : A -> bool) (l : list A) :
  (forall x, x ∈ l -> p x = false) -> List.filter p l = [].
Proof.
  induction l as [|x l IH]; intros H; simpl; [done |].
  rewrite (H x) by left. apply IH. intros y Hy. apply H. by right.
Qed.

Lemma filter_filter_implied {A} (p q : A -> bool) (l : list A) :
  (forall x, p x = true -> q x = true) ->
  List.filter p (List.filter q l) = List.filter p l.
Proof.
  intros H. induction l as [|x l IH]; simpl; [done |].
  destruct (q x) eqn:Hq; simpl; rewrite IH; [done |].
  destruct (p x) eqn:Hp; [|done]. apply H in Hp. congruence.
Qed.

Lemma fmap_ext_in {A B} (f g : A -> B) (l : list A) :
  (forall x, x ∈ l -> f x = g x) -> f <$> l = g <$> l.
Proof.
  induction l as [|x l IH]; intros H; csimpl; [done |].
  rewrite (H x) by left. rewrite IH; [done |].
  intros y Hy. apply H. by right.
Qed.

Lemma forallb_fmap {A B} (p : B -> bool) (g : A -> B) (l : list A) :
  forallb p (g <$> l) = forallb (fun x => p (g x)) l.
Proof. induction l as [|x l IH]; csimpl; [done | by rewrite IH]. Qed.

Lemma forallb_filter_implied {A} (p q : A -> bool) (l : list A) :
  forallb p l = true -> forallb p (List.filter q l) = true.
Proof.
  rewrite !forallb_forall. intros H x Hx.
  apply filter_In in Hx as [Hx _]. by apply H.
Qed.

Lemma mapM_fmap_Ok {A B C} (f : B -> result C) (g : A -> B) (h : A -> C)
    (l : list A) :
  (forall x, x ∈ l -> f (g x) = Ok (h x)) ->
  mapM f (g <$> l) = Ok (h <$> l).
Proof.
  induction l as [|x l IH]; intros H; csimpl; [done |].
  rewrite (H x) by left. rewrite bind_Ok.
  change (mapM f (g <$> l) ≫= (fun k => mret (h x :: k)) = Ok (h x :: (h <$> l))).
  rewrite IH; [done |]. intros y Hy. apply H. by right.
Qed.

(** ** binary64 rounding keeps signs *)

Lemma pow2_pos k : (0 < Float64.pow2 k)%Q.
Proof. apply Qpower_0_lt. reflexivity. Qed.

Lemma pow2_le k k' : k <= k' -> (Float64.pow2 k <= Float64.pow2 k')%Q.
Proof. intros H. apply Qpower_le_compat_l; [done | discriminate]. Qed.

Lemma pow2_nat (k : Z) :
  0 <= k -> (Float64.pow2 k == inject_Z (2 ^ k))%Q.
Proof. intros H. unfold Float64.pow2. by rewrite Zpower_Qpower. Qed.

(** [ilog2] is not above the binary logarithm. *)
Lemma ilog2_le (p d : positive) :
  (Float64.pow2 (Float64.ilog2 (Z.pos p # d)) <= Z.pos p # d)%Q.
Proof.
  unfold Float64.ilog2. cbn [Qnum Qden].
  set (a := Z.log2 (Z.pos p)). set (b := Z.log2 (Z.pos d)).
  destruct (Qle_bool (Float64.pow2 (a - b)) (Z.pos p # d)) eqn:E.
  { by apply Qle_bool_iff. }
  assert (0 <= a) as Ha by apply Z.log2_nonneg.
  assert (0 <= b) as Hb by apply Z.log2_nonneg.
  destruct (Z.log2_spec (Z.pos p)) as [Hp _]; [lia |].
  destruct (Z.log2_spec (Z.pos d)) as [_ Hd]; [lia |].
  fold a in Hp. fold b in Hd.
  replace (a - b - 1) with (a - Z.succ b) by lia.
  unfold Float64.pow2. rewrite Qpower_minus by discriminate.
  fold (Float64.pow2 a). fold (Float64.pow2 (Z.succ b)).
  rewrite !pow2_nat by lia.
  assert (0 < 2 ^ Z.succ b) as Hpos by (apply Z.pow_pos_nonneg; lia).
  destruct (2 ^ Z.succ b) as [|q|q] eqn:Eq; try lia.
  destruct (2 ^ a) as [|q'|q'] eqn:Eq'; try lia.
  unfold Qle, Qdiv, Qmult, Qinv, inject_Z. cbn.
  nia.
Qed.

Lemma nearest_even_floor x : Qfloor x <= Float64.nearest_even x.
Proof.
  unfold Float64.nearest_even.
  destruct (_ ?= _)%Q; [destruct (Z.even _) | |]; lia.
Qed.

Lemma round_zero x : (x == 0)%Q -> Float64.round x = 0%Q.
Proof.
  intros H. unfold Float64.round. apply Qeq_bool_iff in H. by rewrite H.
Qed.

Lemma round_pos x : (0 < x)%Q -> (0 < Float64.round x)%Q.
Proof.
  intros H. unfold Float64.round.
  destruct (Qeq_bool x 0) eqn:E.
  { apply Qeq_bool_iff in E. rewrite E in H. discriminate H. }
  destruct x as [[|p|p] d]; try done.
  change (Qabs (Z.pos p # d)) with (Z.pos p # d).
  set (e := Float64.ilog2 (Z.pos p # d) - 52).
  rewrite Qred_correct.
  apply Qmult_lt_0_compat; [| apply pow2_pos].
  change 0%Q with (inject_Z 0). rewrite <- Zlt_Qlt.
  pose proof (nearest_even_floor ((Z.pos p # d) / Float64.pow2 e)).
  assert (1 <= Qfloor ((Z.pos p # d) / Float64.pow2 e)); [| lia].
  rewrite <- (Qfloor_Z 1). apply Qfloor_resp_le.
  apply Qle_shift_div_l; [apply pow2_pos |].
  rewrite Qmult_1_l.
  apply Qle_trans with (Float64.pow2 (Float64.ilog2 (Z.pos p # d)));
    [| apply ilog2_le].
  apply pow2_le. unfold e. lia.
Qed.

Lemma round_nonneg x : (0 <= x)%Q -> (0 <= Float64.round x)%Q.
Proof.
  intros H. apply Qle_lteq in H as [H | H].
  - apply Qlt_le_weak. by apply round_pos.
  - rewrite round_zero; [discriminate | by symmetry].
Qed.

Lemma round_nonneg_zero x :
  (0 <= x)%Q -> (Float64.round x == 0)%Q <-> (x == 0)%Q.
Proof.
  intros H. split.
  - intros Hr. apply Qle_lteq in H as [H | H]; [| by symmetry].
    apply round_pos in H. rewrite Hr in H. discriminate H.
  - intros Hx. by rewrite round_zero.
Qed.

Lemma div_nonneg x (k : positive) :
  (0 <= x)%Q -> (0 <= Float64.div x (inject_Z (Z.pos k)))%Q.
Proof.
  intros H. apply round_nonneg. apply Qle_shift_div_l; [reflexivity |].
  by rewrite Qmult_0_l.
Qed.

Lemma div_nonneg_zero x (k : positive) :
  (0 <= x)%Q -> (Float64.div x (inject_Z (Z.pos k)) == 0)%Q <-> (x == 0)%Q.
Proof.
  intros H. unfold Float64.div. rewrite round_nonneg_zero.
  - split; intros E.
    + apply (Qmult_inj_r _ _ (/ inject_Z (Z.pos k))); [discriminate |].
      by rewrite Qmult_0_l.
    + rewrite E. reflexivity.
  - apply Qle_shift_div_l; [reflexivity |]. by rewrite Qmult_0_l.
Qed.

Lemma seconds_of_nonneg ns : 0 <= ns -> (0 <= seconds_of ns)%Q.
Proof.
  intros H. unfold seconds_of. apply div_nonneg. apply round_nonneg.
  change 0%Q with (inject_Z 0). by rewrite <- Zle_Qle.
Qed.

Lemma seconds_of_zero ns : 0 <= ns -> (seconds_of ns == 0)%Q <-> ns = 0.
Proof.
  intros H. unfold seconds_of, Float64.of_int.
  assert (0 <= inject_Z ns)%Q as Hq
    by (change 0%Q with (inject_Z 0); by rewrite <- Zle_Qle).
  rewrite div_nonneg_zero by (by apply round_nonneg).
  rewrite round_nonneg_zero by done.
  change 0%Q with (inject_Z 0). by rewrite inject_Z_injective.
Qed.

(** The float duration of a span that is not negative is not negative, and
    it is zero only for the empty span. *)
Lemma float_minutes_nonneg ns : 0 <= ns -> (0 <= float_minutes ns)%Q.
Proof.
  intros H. unfold float_minutes. apply (div_nonneg _ 60).
  by apply seconds_of_nonneg.
Qed.

Lemma float_minutes_zero ns :
  0 <= ns -> Qeq_bool (float_minutes ns) 0 = true <-> ns = 0.
Proof.
  intros H. rewrite Qeq_bool_iff. unfold float_minutes.
  rewrite (div_nonneg_zero _ 60) by (by apply seconds_of_nonneg).
  by apply seconds_of_zero.
Qed.

(** ** binary64 rounding is accurate *)





(** ** Tables *)

Lemma at_col_insert_eq c v (r : gmap string cell) :
  at_col c (<[c := v]> r) = v.
Proof. unfold at_col. by rewrite lookup_insert_eq. Qed.

Lemma at_col_insert_ne c c' v (r : gmap string cell) :
  c <> c' -> at_col c' (<[c := v]> r) = at_col c' r.
Proof. intros. unfold at_col. by rewrite lookup_insert_ne. Qed.

Lemma has_col_true df c : has_col df c = true <-> c ∈ columns df.
Proof. unfold has_col. apply bool_decide_eq_true. Qed.

Lemma getitem_has df c :
  has_col df c = true ->
  getitem df c = Ok {| values := at_col c <$> rows df; tz := tzs df !! c |}.
Proof. intros H. unfold getitem. by rewrite H. Qed.

Lemma setitem_fmap df c (F : gmap string cell -> cell) :
  setitem df c {| values := F <$> rows df; tz := None |}
  = Ok (assign c F df).
Proof.
  unfold setitem. cbn [values tz]. rewrite length_fmap, Nat.eqb_refl.
  unfold assign. by rewrite zip_with_fmap_self.
Qed.

Lemma setitem_fmap_fmap {A} df c (f : gmap string cell -> A) (g : A -> cell) :
  setitem df c {| values := g <$> (f <$> rows df); tz := None |}
  = Ok (assign c (fun r => g (f r)) df).
Proof.
  rewrite <- list_fmap_compose. apply (setitem_fmap df c (fun r => g (f r))).
Qed.

Lemma set_tz_self c (m : gmap string Z) : set_tz c (m !! c) m = m.
Proof.
  unfold set_tz. destruct (m !! c) eqn:E; [by apply insert_id |].
  by apply delete_id.
Qed.

Lemma lookup_set_tz_ne c c' zone (m : gmap string Z) :
  c <> c' -> set_tz c zone m !! c' = m !! c'.
Proof.
  intros H. unfold set_tz. destruct zone.
  - by apply lookup_insert_ne.
  - by apply lookup_delete_ne.
Qed.

Lemma loc_fmap df (p : gmap string cell -> bool) :
  loc df (p <$> rows df) = Ok (keep p df).
Proof.
  unfold loc. rewrite length_fmap, Nat.eqb_refl.
  unfold keep. by rewrite filter_by_mask.
Qed.

Lemma has_col_append df c c' :
  bool_decide (c' ∈ (if has_col df c then columns df
                      else (columns df ++ [c])%list))
  = has_col df c' || bool_decide (c' = c).
Proof.
  destruct (has_col df c) eqn:Hc.
  - unfold has_col in *. destruct (bool_decide (c' = c)) eqn:E.
    + apply bool_decide_eq_true in E. subst. rewrite Hc. done.
    + by rewrite orb_false_r.
  - unfold has_col. apply eq_true_iff_eq.
    rewrite orb_true_iff, !bool_decide_eq_true, elem_of_app,
      list_elem_of_singleton. done.
Qed.

Lemma has_col_assign df c F c' :
  has_col (assign c F df) c' = has_col df c' || bool_decide (c' = c).
Proof. apply has_col_append. Qed.

Lemma has_col_assign_same df c F : has_col (assign c F df) c = true.
Proof.
  rewrite has_col_assign, bool_decide_eq_true_2 by done. apply orb_true_r.
Qed.

Lemma datetime_col_series df c :
  datetime_col df c ->
  is_datetime64 {| values := at_col c <$> rows df; tz := tzs df !! c |}
  = true.
Proof.
  intros [_ H]. unfold is_datetime64. cbn [values]. apply forallb_forall.
  intros x Hx. apply list_elem_of_In, list_elem_of_fmap in Hx.
  destruct Hx as (r & -> & Hr). by apply H.
Qed.

Lemma datetime_col_assign df c c' F :
  c <> c' -> datetime_col df c' -> datetime_col (assign c F df) c'.
Proof.
  intros Hne [Hc H]. split.
  - rewrite has_col_assign, Hc. done.
  - simpl. intros r Hr. apply list_elem_of_fmap in Hr.
    destruct Hr as (r0 & -> & Hr0). rewrite at_col_insert_ne by done.
    by apply H.
Qed.

Lemma datetime_col_keep df c p :
  datetime_col df c -> datetime_col (keep p df) c.
Proof.
  intros [Hc H]. split; [done |].
  simpl. intros r Hr. apply elem_of_bool_filter in Hr. apply H, Hr.
Qed.

Lemma len_keep_le p df : 0 <= len (keep p df) <= len df.
Proof.
  unfold len. simpl. pose proof (filter_split_length p (rows df)). lia.
Qed.

Lemma len_assign c F df : len (assign c F df) = len df.
Proof. unfold len. simpl. by rewrite length_fmap. Qed.

Lemma columns_assign_in c F df :
  c ∈ columns df -> columns (assign c F df) = columns df.
Proof.
  intros H. simpl. by rewrite (proj2 (has_col_true df c) H).
Qed.

Lemma elem_of_columns_assign c c' F df :
  c' ∈ columns df -> c' ∈ columns (assign c F df).
Proof.
  intros H. simpl. destruct (has_col df c); [done |].
  apply elem_of_app. by left.
Qed.

(** A table with a column replaced by a datetime column. *)
Lemma setitem_instants df c zone (instants : list (option Z)) :
  length instants = length (rows df) ->
  setitem df c {| values := datetime_cell <$> instants; tz := zone |}
  = Ok (with_datetime c zone instants df).
Proof.
  intros H. unfold setitem. cbn [values tz].
  rewrite length_fmap, H, Nat.eqb_refl.
  unfold with_datetime. by rewrite zip_with_fmap_r.
Qed.

Lemma rows_with_datetime c zone instants df r :
  r ∈ rows (with_datetime c zone instants df) ->
  exists r0 v, r0 ∈ rows df /\ r = <[c := datetime_cell v]> r0.
Proof.
  simpl. intros H. apply elem_of_zip_with in H as (r0 & v & -> & Hr0 & _).
  by exists r0, v.
Qed.

Lemma datetime_cell_is_datetime v : is_datetime_cell (datetime_cell v) = true.
Proof. by destruct v. Qed.

Lemma with_datetime_col c zone instants df :
  c ∈ columns df -> datetime_col (with_datetime c zone instants df) c.
Proof.
  intros Hin. split.
  - unfold has_col. cbn [columns with_datetime]. rewrite has_col_append.
    rewrite bool_decide_eq_true_2 by done. apply orb_true_r.
  - intros r Hr. apply rows_with_datetime in Hr as (r0 & v & _ & ->).
    rewrite at_col_insert_eq. apply datetime_cell_is_datetime.
Qed.

Lemma with_datetime_other c c' zone instants df :
  c <> c' -> datetime_col df c' ->
  datetime_col (with_datetime c zone instants df) c'.
Proof.
  intros Hne [Hc H]. split.
  - unfold has_col. cbn [columns with_datetime]. rewrite has_col_append.
    fold (has_col df c'). by rewrite Hc.
  - intros r Hr. apply rows_with_datetime in Hr as (r0 & v & Hr0 & ->).
    rewrite at_col_insert_ne by done. by apply H.
Qed.

Lemma columns_with_datetime c zone instants df :
  c ∈ columns df -> columns (with_datetime c zone instants df) = columns df.
Proof.
  intros H. simpl. by rewrite (proj2 (has_col_true df c) H).
Qed.

Lemma len_with_datetime c zone instants df :
  length instants = length (rows df) ->
  len (with_datetime c zone instants df) = len df.
Proof.
  intros H. unfold len. simpl. rewrite length_zip_with. f_equal. lia.
Qed.

(** What a successful conversion of column [c] says. *)
Lemma converted_inv parse c df N :
  converted parse c df = Ok N ->
  exists zone instants,
    parse (at_col c <$> rows df) = Ok (zone, instants) /\
    length instants = length (rows df) /\
    N = with_datetime c zone instants df.
Proof.
  unfold converted.
  destruct (parse (at_col c <$> rows df)) as [[zone instants]|e]; [|done].
  simpl. destruct (Nat.eqb _ _) eqn:E; [|done].
  intros [= <-]. apply Nat.eqb_eq in E. by exists zone, instants.
Qed.

Lemma converted_opt_facts parse col df N :
  (forall c, col = Some c -> c ∈ columns df) ->
  converted_opt parse col df = Ok N ->
  columns N = columns df /\ len N = len df /\
  (forall c, col = Some c -> datetime_col N c) /\
  (forall c, col <> Some c -> datetime_col df c -> datetime_col N c).
Proof.
  intros Hin. destruct col as [c|]; simpl.
  - intros H. apply converted_inv in H as (zone & instants & _ & Hlen & ->).
    specialize (Hin c eq_refl).
    split; [by apply columns_with_datetime |].
    split; [by apply len_with_datetime |].
    split.
    + intros c' [= <-]. by apply with_datetime_col.
    + intros c' Hne. apply with_datetime_other. congruence.
  - intros [= <-]. split; [done |]. split; [done |].
    split; [by intros c [=] | by intros c _ ?].
Qed.

(** ** The column resolver *)

Lemma last_filter_Some (P : string -> Prop) `{!forall x, Decision (P x)}
    (cs : list string) (c : string) :
  last (filter P cs) = Some c ->
  exists pre post : list string,
    cs = (pre ++ c :: post)%list /\ P c /\ forall x, x ∈ post -> ~ P x.
Proof.
  induction cs as [|x cs IH] using rev_ind; [done |].
  rewrite filter_app. destruct (decide (P x)) as [Hx | Hx].
  - rewrite filter_cons_True, filter_nil by done. rewrite last_snoc.
    intros [= ->]. exists cs, []. split; [done |]. split; [done |].
    intros y Hy. by apply elem_of_nil in Hy.
  - rewrite filter_cons_False, filter_nil, app_nil_r by done.
    intros Hl. destruct (IH Hl) as (pre & post & -> & Hc & Hpost).
    exists pre, (post ++ [x])%list. split; [by rewrite <- app_assoc |].
    split; [done |]. intros y Hy. apply elem_of_app in Hy as [Hy | Hy].
    + by apply Hpost.
    + apply list_elem_of_singleton in Hy. by subst.
Qed.

Lemma last_filter_None (P : string -> Prop) `{!forall x, Decision (P x)}
    (cs : list string) :
  last (filter P cs) = None <-> forall x, x ∈ cs -> ~ P x.
Proof.
  rewrite last_None. split.
  - intros Hn x Hx HP.
    assert (x ∈ filter P cs) as Hin by (by apply list_elem_of_filter).
    rewrite Hn in Hin. by apply elem_of_nil in Hin.
  - intros Hn. destruct (filter P cs) as [|y l] eqn:E; [done |].
    assert (y ∈ filter P cs) as Hin by (rewrite E; left).
    apply list_elem_of_filter in Hin as [HP Hy]. by destruct (Hn y Hy).
Qed.

Lemma filter_no_match (P : string -> Prop) `{!forall x, Decision (P x)}
    (cs : list string) :
  (forall x, x ∈ cs -> ~ P x) -> filter P cs = [].
Proof.
  induction cs as [|x cs IH]; intros Hno; [done |].
  rewrite filter_cons_False by (apply Hno; left).
  apply IH. intros y Hy. apply Hno. by right.
Qed.

Section Resolver.
Context (lower : string -> string).

(** The dictionary built from the column labels maps a key to the last
    column whose lower-case form is the key. *)
Lemma lower_dict_lookup (cs : list string) (k : string) :
  foldl (fun m c => <[lower c := c]> m) (∅ : gmap string string) cs !! k
  = last (filter (fun c => lower c = k) cs).
Proof.
  induction cs as [|c cs IH] using rev_ind; [done |].
  rewrite foldl_app, filter_app. simpl.
  destruct (decide (lower c = k)) as [E | E].
  - rewrite E, lookup_insert_eq.
    rewrite filter_cons_True, filter_nil by done. by rewrite last_snoc.
  - rewrite lookup_insert_ne by done.
    rewrite filter_cons_False, filter_nil by done.
    by rewrite app_nil_r.
Qed.

(** The two copies of the resolver are the same function. *)
Lemma find_col_copies df candidates :
  QN._find_col lower df candidates = utils._find_col lower df candidates.
Proof. reflexivity. Qed.

(** A hit: the first candidate with a matching column, and the last column
    that matches it. *)
Lemma find_col_Some df candidates c :
  utils._find_col lower df candidates = Some c ->
  resolves lower df candidates (Some c).
Proof.
  unfold utils._find_col, utils.cols_lower, resolves.
  induction candidates as [|cand cs IH]; simpl; [done |].
  rewrite lower_dict_lookup.
  destruct (last (filter _ (columns df))) as [c0|] eqn:E.
  - intros [= ->]. apply last_filter_Some in E as (pre & post & ? & ? & ?).
    exists [], cand, cs, pre, post. split; [done |]. split; [|done].
    intros a col Ha. by apply elem_of_nil in Ha.
  - intros H. destruct (IH H) as (bf & cd & af & pre & post & -> & Hb & ?).
    exists (cand :: bf), cd, af, pre, post. split; [done |]. split; [|done].
    intros a col Ha Hcol. apply elem_of_cons in Ha as [-> | Ha].
    + by apply (proj1 (last_filter_None _ _) E).
    + by apply Hb.
Qed.

(** A miss: no candidate matches any column. *)
Lemma find_col_None df candidates :
  utils._find_col lower df candidates = None <->
  resolves lower df candidates None.
Proof.
  unfold utils._find_col, utils.cols_lower, resolves.
  induction candidates as [|cand cs IH]; simpl.
  - split; [|done]. intros _ a col Ha. by apply elem_of_nil in Ha.
  - rewrite lower_dict_lookup.
    destruct (last (filter _ (columns df))) as [c0|] eqn:E.
    + split; [done |]. intros H. exfalso.
      apply last_filter_Some in E as (pre & post & Hcols & Hc & _).
      apply (H cand c0); [left | | done].
      rewrite Hcols. apply elem_of_app. right. left.
    + rewrite IH. split.
      * intros H a col Ha Hcol. apply elem_of_cons in Ha as [-> | Ha].
        -- by apply (proj1 (last_filter_None _ _) E).
        -- by apply H.
      * intros H a col Ha. apply H. by right.
Qed.

Lemma find_col_resolves df candidates :
  resolves lower df candidates (utils._find_col lower df candidates).
Proof.
  destruct (utils._find_col lower df candidates) as [c|] eqn:E.
  - by apply find_col_Some.
  - by apply find_col_None.
Qed.

(** The hit on the first candidate: the last column that matches it. *)
Lemma find_col_first df cand candidates (pre post : list string) c :
  columns df = (pre ++ c :: post)%list ->
  lower c = lower cand ->
  (forall col, col ∈ post -> lower col <> lower cand) ->
  utils._find_col lower df (cand :: candidates) = Some c.
Proof.
  intros Hcols Hc Hpost. unfold utils._find_col, utils.cols_lower. simpl.
  rewrite lower_dict_lookup, Hcols, filter_app, filter_cons_True by done.
  rewrite (filter_no_match _ post) by done.
  by rewrite last_snoc.
Qed.

Lemma find_col_in_columns df candidates c :
  utils._find_col lower df candidates = Some c ->
  c ∈ columns df /\ exists cand, cand ∈ candidates /\ lower c = lower cand.
Proof.
  intros H. apply find_col_Some in H
    as (bf & cd & af & pre & post & -> & _ & -> & Hl & _).
  split; [set_solver |]. exists cd. split; [set_solver | done].
Qed.

Context (Hlower : lowers_ascii lower).

Lemma lower_alias (a : string) :
  a ∈ (start_aliases ++ end_aliases)%list -> lower a = a.
Proof.
  intros H. unfold start_aliases, end_aliases in H. simpl in H.
  repeat (apply elem_of_cons in H as [-> | H];
          [by rewrite Hlower |]).
  by apply elem_of_nil in H.
Qed.

Lemma lower_reserved (c : string) : c ∈ reserved -> lower c = c.
Proof.
  intros H. unfold reserved in H.
  repeat (apply elem_of_cons in H as [-> | H];
          [by rewrite Hlower |]).
  by apply elem_of_nil in H.
Qed.

(** A resolved time column carries none of the labels the code itself
    reads or writes, and the two time columns differ. *)
Lemma resolved_not_reserved (c a : string) :
  a ∈ (start_aliases ++ end_aliases)%list ->
  lower c = lower a -> c ∉ reserved.
Proof.
  intros Ha Hl Hc. rewrite (lower_alias a Ha) in Hl.
  rewrite (lower_reserved c Hc) in Hl. subst c.
  unfold reserved in Hc.
  unfold start_aliases, end_aliases in Ha. simpl in Ha.
  repeat (apply elem_of_cons in Ha as [-> | Ha];
          [ repeat (apply elem_of_cons in Hc as [Hc | Hc];
                    [discriminate Hc |]);
            by apply elem_of_nil in Hc |]).
  by apply elem_of_nil in Ha.
Qed.

Lemma resolved_distinct (sc ec a b : string) :
  a ∈ start_aliases -> b ∈ end_aliases ->
  lower sc = lower a -> lower ec = lower b -> sc <> ec.
Proof.
  intros Ha Hb Hs He ->. rewrite Hs in He.
  rewrite (lower_alias a), (lower_alias b) in He
    by (apply elem_of_app; auto).
  unfold start_aliases, end_aliases in *.
  repeat (apply elem_of_cons in Ha as [-> | Ha];
          [ repeat (apply elem_of_cons in Hb as [-> | Hb];
                    [discriminate He |]);
            by apply elem_of_nil in Hb |]).
  by apply elem_of_nil in Ha.
Qed.

Lemma start_resolved df sc :
  utils._find_col lower df start_aliases = Some sc ->
  sc ∈ columns df /\ (sc ∉ reserved) /\
  exists a, a ∈ start_aliases /\ lower sc = lower a.
Proof.
  intros H. apply find_col_in_columns in H as [Hin (a & Ha & Hl)].
  split; [done |]. split; [| exists a; done].
  apply (resolved_not_reserved sc a); [apply elem_of_app; by left | done].
Qed.

Lemma end_resolved df ec :
  utils._find_col lower df end_aliases = Some ec ->
  ec ∈ columns df /\ (ec ∉ reserved) /\
  exists b, b ∈ end_aliases /\ lower ec = lower b.
Proof.
  intros H. apply find_col_in_columns in H as [Hin (a & Ha & Hl)].
  split; [done |]. split; [| exists a; done].
  apply (resolved_not_reserved ec a); [apply elem_of_app; by right | done].
Qed.

Lemma pair_resolved df sc ec :
  utils._find_col lower df start_aliases = Some sc ->
  utils._find_col lower df end_aliases = Some ec ->
  resolved_pair df sc ec.
Proof.
  intros Hs He.
  apply start_resolved in Hs as (? & ? & a & ? & ?).
  apply end_resolved in He as (? & ? & b & ? & ?).
  split; try done. by apply (resolved_distinct sc ec a b).
Qed.

Lemma infer_cols_pair df sc ec :
  QN.started_at (QN.infer_cols lower df) = Some sc ->
  QN.ended_at (QN.infer_cols lower df) = Some ec ->
  resolved_pair df sc ec.
Proof. apply pair_resolved. Qed.

End Resolver.

Lemma not_reserved_truthy c : c ∉ reserved -> truthy (Some c) = true.
Proof.
  intros H. simpl. apply negb_true_iff, String.eqb_neq.
  intros ->. apply H. left.
Qed.

Lemma not_reserved_ne c c' : c ∉ reserved -> c' ∈ reserved -> c <> c'.
Proof. intros H H' ->. done. Qed.

Lemma station_labels_reserved :
  "start_station_name" ∈ reserved /\ "end_station_name" ∈ reserved
  /\ DURATION ∈ reserved.
Proof. unfold reserved, DURATION. set_solver. Qed.

(** ** The steps of the cleaning pipeline *)

Section Steps.
Context (lower : string -> string) (parse : parser).

(** Lines 60-61 or 62-63, followed by any continuation [k]. *)
Lemma convert_then {B} df c (k : DataFrame -> result B) :
  c ∈ columns df ->
  (s ← getitem df c;
   s ← to_datetime parse s;
   df' ← setitem df c s;
   k df')
  = (df' ← converted parse c df; k df').
Proof.
  intros Hin. unfold converted.
  rewrite getitem_has by (by apply has_col_true). rewrite bind_Ok.
  unfold to_datetime. cbn [values].
  destruct (parse (at_col c <$> rows df)) as [[zone instants]|e]; [|done].
  simpl. destruct (Nat.eqb (length instants) (length (rows df))) eqn:E.
  - apply Nat.eqb_eq in E. by rewrite setitem_instants.
  - unfold setitem. cbn [values]. by rewrite length_fmap, E.
Qed.

Lemma convert_datetime_Some df c :
  c ∈ columns df -> c ∉ reserved ->
  QN.convert_datetime parse df (Some c) = converted parse c df.
Proof.
  intros Hin Hfree. unfold QN.convert_datetime, QN.to_datetime_safe.
  rewrite (not_reserved_truthy c Hfree).
  transitivity (df' ← converted parse c df; Ok df').
  - rewrite <- (convert_then df c Ok) by done.
    destruct (getitem df c) as [s|]; [|done]. rewrite !bind_Ok.
    destruct (to_datetime parse s) as [s'|]; [|done]. rewrite !bind_Ok.
    by destruct (setitem _ _ _).
  - by destruct (converted parse c df).
Qed.

Lemma convert_datetime_opt df col :
  (forall c, col = Some c -> c ∈ columns df /\ (c ∉ reserved)) ->
  QN.convert_datetime parse df col = converted_opt parse col df.
Proof.
  destruct col as [c|]; [|done]. intros H.
  destruct (H c eq_refl). by apply convert_datetime_Some.
Qed.

Lemma impute_station_spec df c :
  QN.impute_station df c = Ok (imputed c df).
Proof.
  unfold QN.impute_station, imputed. destruct (has_col df c) eqn:Hc; [|done].
  rewrite getitem_has by done. rewrite bind_Ok.
  unfold fillna, setitem. cbn [values tz].
  rewrite !length_fmap, Nat.eqb_refl, Hc, set_tz_self.
  rewrite <- list_fmap_compose. by rewrite zip_with_fmap_self.
Qed.

Lemma impute_stations_spec df :
  QN.impute_stations df
  = Ok (imputed "end_station_name" (imputed "start_station_name" df)).
Proof.
  unfold QN.impute_stations. rewrite impute_station_spec, bind_Ok.
  apply impute_station_spec.
Qed.

Lemma drop_missing_geo_spec df :
  QN.drop_missing_geo df = Ok (len df - len (geo_filtered df), geo_filtered df).
Proof.
  unfold QN.drop_missing_geo, geo_filtered. simpl.
  destruct (has_col df "end_lat") eqn:Hlat;
    destruct (has_col df "end_lng") eqn:Hlng; simpl;
    try (by rewrite Z.sub_diag).
  unfold dropna. simpl. rewrite Hlat, Hlng. simpl.
  unfold keep.
  rewrite (filter_ext_in _ geo_complete)
    by (intros r _; unfold geo_complete; by rewrite andb_true_r).
  reflexivity.
Qed.

Lemma check_datetimes_cols df a b :
  datetime_col df a -> datetime_col df b ->
  check_datetimes
    {| values := at_col a <$> rows df; tz := tzs df !! a |}
    {| values := at_col b <$> rows df; tz := tzs df !! b |}
  = if same_awareness df a b then Ok () else Raise TypeError.
Proof.
  intros Ha Hb. unfold check_datetimes.
  rewrite (datetime_col_series df a Ha), (datetime_col_series df b Hb).
  reflexivity.
Qed.

Lemma same_awareness_sym df a b :
  same_awareness df a b = same_awareness df b a.
Proof.
  unfold same_awareness. by destruct (aware _), (aware _).
Qed.

Lemma drop_incoherent_spec df sc ec :
  datetime_col df sc -> datetime_col df ec ->
  QN.drop_incoherent df sc ec
  = if same_awareness df sc ec then
      Ok (count_rows (incoherent sc ec) df, keep (coherent sc ec) df)
    else Raise TypeError.
Proof.
  intros Hs He. unfold QN.drop_incoherent.
  rewrite !getitem_has by apply Hs || apply He. rewrite !bind_Ok.
  unfold series_lt. rewrite check_datetimes_cols by done.
  rewrite (same_awareness_sym df ec sc).
  destruct (same_awareness df sc ec); [|done]. rewrite bind_Ok, bind_mret.
  unfold series_notna, mask_and, mask_not. cbn [values].
  rewrite <- !list_fmap_compose, !zip_with_fmap_diag.
  rewrite <- list_fmap_compose, mask_sum_fmap.
  rewrite loc_fmap, bind_Ok. reflexivity.
Qed.

(** Line 87, followed by any continuation [k]. *)
Lemma duration_then {B} df sc ec (k : DataFrame -> result B) :
  datetime_col df sc -> datetime_col df ec ->
  (e ← getitem df ec;
   s ← getitem df sc;
   td ← series_sub e s;
   df' ← setitem df "trip_duration_min"
           (float_series (truediv (total_seconds td) 60));
   k df')
  = if same_awareness df sc ec then
      if differences_fit sc ec df then
        k (assign DURATION (duration_of sc ec) df)
      else Raise OverflowError
    else Raise TypeError.
Proof.
  intros Hs He.
  rewrite !getitem_has by apply Hs || apply He. rewrite !bind_Ok.
  unfold series_sub. rewrite check_datetimes_cols by done.
  rewrite (same_awareness_sym df ec sc).
  destruct (same_awareness df sc ec); [|done]. rewrite bind_Ok.
  cbn [values]. rewrite zip_with_fmap_diag, forallb_fmap.
  fold (differences_fit sc ec df).
  destruct (differences_fit sc ec df); [|done]. rewrite bind_Ok.
  unfold float_series, total_seconds, truediv.
  rewrite <- !list_fmap_compose.
  rewrite (fmap_ext_in _ (duration_of sc ec)).
  - by rewrite setitem_fmap, bind_Ok.
  - intros r _. unfold duration_of, duration_cell, float_minutes. simpl.
    by destruct (cell_sub _ _).
Qed.

Lemma add_duration_spec df sc ec :
  datetime_col df sc -> datetime_col df ec ->
  QN.add_duration df sc ec
  = if same_awareness df sc ec then
      if differences_fit sc ec df then
        Ok (assign DURATION (duration_of sc ec) df)
      else Raise OverflowError
    else Raise TypeError.
Proof.
  intros Hs He. rewrite <- (duration_then df sc ec Ok) by done.
  unfold QN.add_duration.
  destruct (getitem df ec) as [e|]; [|done]. rewrite !bind_Ok.
  destruct (getitem df sc) as [s|]; [|done]. rewrite !bind_Ok.
  destruct (series_sub e s) as [td|]; [|done]. rewrite !bind_Ok.
  by destruct (setitem _ _ _).
Qed.

Lemma same_awareness_keep p df a b :
  same_awareness (keep p df) a b = same_awareness df a b.
Proof. reflexivity. Qed.

Lemma temporal_step_spec G start_c end_c :
  (forall sc ec, start_c = Some sc -> end_c = Some ec ->
     (sc ∉ reserved) /\ (ec ∉ reserved)
     /\ datetime_col G sc /\ datetime_col G ec) ->
  QN.temporal_step G start_c end_c = temporal_outcome start_c end_c G.
Proof.
  intros H. unfold QN.temporal_step, temporal_outcome.
  destruct start_c as [sc|]; [|done]. destruct end_c as [ec|]; [|done].
  destruct (H sc ec eq_refl eq_refl) as (Fs & Fe & Ds & De).
  rewrite !not_reserved_truthy by done. cbn [andb].
  rewrite drop_incoherent_spec by done.
  destruct (same_awareness G sc ec) eqn:Ea; [|done]. rewrite bind_Ok.
  rewrite add_duration_spec by (by apply datetime_col_keep).
  rewrite same_awareness_keep, Ea.
  destruct (differences_fit sc ec (keep (coherent sc ec) G)); done.
Qed.

End Steps.

Lemma num_test_and p q c :
  num_test p c && num_test q c = num_test (fun x => p x && q x) c.
Proof. by destruct c. Qed.

Lemma datetime_col_imputed df c c' :
  c <> c' -> datetime_col df c' -> datetime_col (imputed c df) c'.
Proof.
  intros Hne [Hc' H]. unfold imputed. destruct (has_col df c); [|done].
  split; [done |]. simpl. intros r Hr.
  apply list_elem_of_fmap in Hr as (r0 & -> & Hr0).
  rewrite at_col_insert_ne by done. by apply H.
Qed.

Lemma len_imputed c df : len (imputed c df) = len df.
Proof.
  unfold imputed. destruct (has_col df c); [|done].
  unfold len. simpl. by rewrite length_fmap.
Qed.

Lemma columns_imputed c df : columns (imputed c df) = columns df.
Proof. unfold imputed. by destruct (has_col df c). Qed.

Lemma tzs_imputed c df : tzs (imputed c df) = tzs df.
Proof. unfold imputed. by destruct (has_col df c). Qed.

Lemma datetime_col_geo_filtered df c :
  datetime_col df c -> datetime_col (geo_filtered df) c.
Proof.
  intros H. unfold geo_filtered.
  destruct (_ && _); [by apply datetime_col_keep | done].
Qed.

Lemma columns_geo_filtered df : columns (geo_filtered df) = columns df.
Proof. unfold geo_filtered. by destruct (_ && _). Qed.

Lemma tzs_geo_filtered df : tzs (geo_filtered df) = tzs df.
Proof. unfold geo_filtered. by destruct (_ && _). Qed.

Lemma datetime_col_geo_stage N c :
  c ∉ reserved -> datetime_col N c -> datetime_col (geo_stage N) c.
Proof.
  intros Hfree H. destruct station_labels_reserved as (Hs & He & _).
  apply datetime_col_geo_filtered.
  apply datetime_col_imputed; [by apply not_eq_sym, not_reserved_ne |].
  apply datetime_col_imputed; [by apply not_eq_sym, not_reserved_ne | done].
Qed.

Lemma columns_geo_stage N : columns (geo_stage N) = columns N.
Proof.
  unfold geo_stage. by rewrite columns_geo_filtered, !columns_imputed.
Qed.

Lemma tzs_geo_stage N : tzs (geo_stage N) = tzs N.
Proof. unfold geo_stage. by rewrite tzs_geo_filtered, !tzs_imputed. Qed.

Lemma len_geo_stage N : 0 <= len (geo_stage N) <= len N.
Proof.
  unfold geo_stage, geo_filtered.
  rewrite <- (len_imputed "start_station_name" N).
  rewrite <- (len_imputed "end_station_name" (imputed _ N)).
  destruct (_ && _); [apply len_keep_le |]. unfold len. lia.
Qed.

Lemma compare_scalar_float df op k :
  float_col df ->
  compare_scalar op
    {| values := at_col DURATION <$> rows df; tz := tzs df !! DURATION |} k
  = Ok ((fun r => num_test (fun x => op x k) (duration r)) <$> rows df).
Proof.
  intros [_ Hf]. unfold compare_scalar. cbn [values].
  rewrite (mapM_fmap_Ok as_float (at_col DURATION)
             (fun r => match at_col DURATION r with
                       | Num x => Some x
                       | _ => None
                       end)).
  - rewrite bind_Ok. unfold mret, result_ret. f_equal.
    rewrite <- list_fmap_compose. apply fmap_ext_in. intros r Hr.
    unfold duration. simpl. specialize (Hf r Hr).
    by destruct (at_col DURATION r).
  - intros r Hr. specialize (Hf r Hr). by destruct (at_col DURATION r).
Qed.

Lemma count_outliers_spec df :
  float_col df ->
  QN.count_outliers df
  = Ok (count_rows (fun r => non_positive (duration r)) df,
        count_rows (fun r => sub_minute (duration r)) df,
        count_rows (fun r => over_a_day (duration r)) df).
Proof.
  intros Hf. unfold QN.count_outliers.
  rewrite getitem_has by apply Hf. rewrite bind_Ok.
  unfold series_le, series_gt, series_lt_scalar.
  repeat (rewrite (compare_scalar_float df) by done; rewrite ?bind_Ok).
  unfold mask_and. rewrite zip_with_fmap_diag, !mask_sum_fmap.
  unfold mret, result_ret, count_rows. do 5 f_equal.
  apply filter_ext_in. intros r _. apply num_test_and.
Qed.

Lemma filter_duration_spec df :
  float_col df ->
  QN.filter_duration df
  = Ok (len df - len (keep (fun r => in_bounds (duration r)) df),
        keep (fun r => in_bounds (duration r)) df).
Proof.
  intros Hf. unfold QN.filter_duration.
  rewrite !getitem_has by apply Hf. rewrite !bind_Ok.
  unfold series_le, series_ge.
  repeat (rewrite (compare_scalar_float df) by done; rewrite ?bind_Ok).
  unfold mask_and. rewrite zip_with_fmap_diag.
  rewrite (fmap_ext_in _ (fun r => in_bounds (duration r)))
    by (intros r _; apply num_test_and).
  rewrite loc_fmap, bind_Ok. reflexivity.
Qed.

Lemma duration_cell_float e s : is_float_cell (duration_cell e s) = true.
Proof. unfold duration_cell. by destruct (cell_sub e s). Qed.

Lemma time_stage_float start_c end_c G :
  float_col (time_stage start_c end_c G).
Proof.
  unfold time_stage.
  destruct start_c as [sc|]; [destruct end_c as [ec|] |];
    (split; [apply has_col_assign_same |]);
    simpl; intros r Hr; apply list_elem_of_fmap in Hr as (r0 & -> & _);
    rewrite at_col_insert_eq; try done.
  apply duration_cell_float.
Qed.

(** ** The pipeline, stage by stage *)

Lemma temporal_outcome_Ok start_c end_c G n T :
  temporal_outcome start_c end_c G = Ok (n, T) ->
  n = incoherent_count start_c end_c G /\ T = time_stage start_c end_c G.
Proof.
  unfold temporal_outcome, incoherent_count.
  destruct start_c as [sc|]; [destruct end_c as [ec|] |];
    try (by intros [= <- <-]).
  destruct (same_awareness G sc ec); [|done].
  destruct (differences_fit _ _ _); [|done]. by intros [= <- <-].
Qed.

Lemma temporal_outcome_resolved sc ec G x :
  temporal_outcome (Some sc) (Some ec) G = Ok x ->
  same_awareness G sc ec = true /\
  differences_fit sc ec (keep (coherent sc ec) G) = true.
Proof.
  unfold temporal_outcome. destruct (same_awareness G sc ec); [|done].
  by destruct (differences_fit _ _ _).
Qed.

Section Pipeline.
Context (lower : string -> string) (parse : parser).
Context (Hlower : lowers_ascii lower).

Lemma conversions_facts raw N :
  conversions lower parse raw = Ok N ->
  columns N = columns raw /\ len N = len raw /\
  (forall sc, QN.started_at (QN.infer_cols lower raw) = Some sc ->
              datetime_col N sc) /\
  (forall ec, QN.ended_at (QN.infer_cols lower raw) = Some ec ->
              datetime_col N ec).
Proof.
  unfold conversions. intros H.
  apply bind_Ok_inv in H as (N1 & H1 & H2).
  apply converted_opt_facts in H1 as (C1 & L1 & D1 & _).
  2:{ intros c Hc. by apply (start_resolved lower Hlower) in Hc as (? & _). }
  apply converted_opt_facts in H2 as (C2 & L2 & D2 & O2).
  2:{ intros c Hc. rewrite C1.
      by apply (end_resolved lower Hlower) in Hc as (? & _). }
  split; [congruence |]. split; [congruence |]. split; [|done].
  intros sc Hs. apply O2; [|by apply D1].
  intros He. destruct (infer_cols_pair lower Hlower raw sc sc Hs He). done.
Qed.

Lemma before_temporal_spec raw :
  QN.before_temporal lower parse raw
  = N ← conversions lower parse raw;
    Ok (len raw - len (geo_stage N), geo_stage N).
Proof.
  unfold QN.before_temporal, conversions.
  rewrite convert_datetime_opt.
  2:{ intros c Hc. by apply (start_resolved lower Hlower) in Hc as (? & ? & _). }
  destruct (converted_opt parse (QN.started_at _) raw) as [N1|e] eqn:E1;
    [|done].
  rewrite !bind_Ok.
  apply converted_opt_facts in E1 as (C1 & L1 & _).
  2:{ intros c Hc. by apply (start_resolved lower Hlower) in Hc as (? & _). }
  rewrite convert_datetime_opt.
  2:{ intros c Hc. rewrite C1.
      by apply (end_resolved lower Hlower) in Hc as (? & ? & _). }
  destruct (converted_opt parse (QN.ended_at _) N1) as [N|e] eqn:E2; [|done].
  rewrite !bind_Ok.
  apply converted_opt_facts in E2 as (_ & L2 & _).
  2:{ intros c Hc. rewrite C1.
      by apply (end_resolved lower Hlower) in Hc as (? & _). }
  rewrite impute_stations_spec, bind_Ok, drop_missing_geo_spec.
  fold (geo_stage N). rewrite !len_imputed. by rewrite L2, L1.
Qed.

Lemma geo_stage_datetime raw N sc ec :
  conversions lower parse raw = Ok N ->
  QN.started_at (QN.infer_cols lower raw) = Some sc ->
  QN.ended_at (QN.infer_cols lower raw) = Some ec ->
  resolved_pair raw sc ec /\
  datetime_col (geo_stage N) sc /\ datetime_col (geo_stage N) ec.
Proof.
  intros HN Hs He.
  pose proof (infer_cols_pair lower Hlower raw sc ec Hs He) as Hp.
  destruct Hp as [? ? Fs Fe ?].
  apply conversions_facts in HN as (_ & _ & Ds & De).
  split; [done |].
  split; apply datetime_col_geo_stage; auto.
Qed.

Lemma temporal_step_geo_stage raw N :
  conversions lower parse raw = Ok N ->
  QN.temporal_step (geo_stage N)
    (QN.started_at (QN.infer_cols lower raw))
    (QN.ended_at (QN.infer_cols lower raw))
  = temporal_outcome
      (QN.started_at (QN.infer_cols lower raw))
      (QN.ended_at (QN.infer_cols lower raw)) (geo_stage N).
Proof.
  intros HN. apply temporal_step_spec. intros sc ec Hs He.
  destruct (geo_stage_datetime raw N sc ec HN Hs He) as ([] & ? & ?).
  done.
Qed.

Lemma before_bounds_spec raw :
  QN.before_bounds lower parse raw
  = N ← conversions lower parse raw;
    '(n, T) ← temporal_outcome
                (QN.started_at (QN.infer_cols lower raw))
                (QN.ended_at (QN.infer_cols lower raw)) (geo_stage N);
    Ok (len raw - len (geo_stage N), n, T).
Proof.
  unfold QN.before_bounds. rewrite before_temporal_spec.
  destruct (conversions lower parse raw) as [N|e] eqn:HN; [|done].
  rewrite !bind_Ok. cbn beta iota.
  by rewrite (temporal_step_geo_stage raw N HN).
Qed.

(** The pipeline returns when the conversions and the temporal step do, and
    its three results are then these. *)
Lemma prepare_data_spec raw :
  QN.prepare_data lower parse raw
  = N ← conversions lower parse raw;
    let sc := QN.started_at (QN.infer_cols lower raw) in
    let ec := QN.ended_at (QN.infer_cols lower raw) in
    _ ← temporal_outcome sc ec (geo_stage N);
    Ok (raw, cleaned sc ec (geo_stage N), log_of sc ec raw (geo_stage N)).
Proof.
  unfold QN.prepare_data. rewrite before_bounds_spec.
  destruct (conversions lower parse raw) as [N|e] eqn:HN; [|done].
  rewrite !bind_Ok. cbv zeta.
  destruct (temporal_outcome _ _ (geo_stage N)) as [[n T]|e] eqn:HT; [|done].
  apply temporal_outcome_Ok in HT as [-> ->].
  rewrite !bind_Ok. cbn beta iota.
  pose proof (time_stage_float
                (QN.started_at (QN.infer_cols lower raw))
                (QN.ended_at (QN.infer_cols lower raw)) (geo_stage N)) as Hf.
  rewrite count_outliers_spec, bind_Ok by done. cbn beta iota.
  rewrite filter_duration_spec, bind_Ok by done.
  reflexivity.
Qed.

(** What a run that returns went through. *)
Lemma prepare_data_inv raw raw' clean log :
  QN.prepare_data lower parse raw = Ok (raw', clean, log) ->
  exists N,
    conversions lower parse raw = Ok N /\
    let sc := QN.started_at (QN.infer_cols lower raw) in
    let ec := QN.ended_at (QN.infer_cols lower raw) in
    temporal_outcome sc ec (geo_stage N)
    = Ok (incoherent_count sc ec (geo_stage N),
          time_stage sc ec (geo_stage N)) /\
    raw' = raw /\ clean = cleaned sc ec (geo_stage N) /\
    log = log_of sc ec raw (geo_stage N).
Proof.
  rewrite prepare_data_spec. intros H.
  apply bind_Ok_inv in H as (N & HN & H). exists N. split; [done |].
  cbv zeta in *.
  destruct (temporal_outcome _ _ (geo_stage N)) as [[n T]|e] eqn:HT; [|done].
  pose proof (temporal_outcome_Ok _ _ _ _ _ HT) as [-> ->].
  rewrite bind_Ok in H. injection H as <- <- <-. done.
Qed.

Lemma before_bounds_inv raw g n T :
  QN.before_bounds lower parse raw = Ok (g, n, T) ->
  exists N,
    conversions lower parse raw = Ok N /\
    let sc := QN.started_at (QN.infer_cols lower raw) in
    let ec := QN.ended_at (QN.infer_cols lower raw) in
    temporal_outcome sc ec (geo_stage N) = Ok (n, T) /\
    g = len raw - len (geo_stage N) /\
    n = incoherent_count sc ec (geo_stage N) /\
    T = time_stage sc ec (geo_stage N).
Proof.
  rewrite before_bounds_spec. intros H.
  apply bind_Ok_inv in H as (N & HN & H). exists N. split; [done |].
  cbv zeta.
  destruct (temporal_outcome _ _ (geo_stage N)) as [[n' T']|e] eqn:HT; [|done].
  rewrite bind_Ok in H. injection H as <- <- <-.
  apply temporal_outcome_Ok in HT as [? ?]. done.
Qed.

Lemma before_temporal_inv raw g G :
  QN.before_temporal lower parse raw = Ok (g, G) ->
  exists N,
    conversions lower parse raw = Ok N /\
    G = geo_stage N /\ g = len raw - len G.
Proof.
  rewrite before_temporal_spec. intros H.
  apply bind_Ok_inv in H as (N & HN & H). exists N.
  injection H as <- <-. done.
Qed.

(** Once the table before the bounds filter is there, the run returns. *)
Lemma prepare_data_after_bounds raw g n T :
  QN.before_bounds lower parse raw = Ok (g, n, T) ->
  exists N,
    conversions lower parse raw = Ok N /\
    let sc := QN.started_at (QN.infer_cols lower raw) in
    let ec := QN.ended_at (QN.infer_cols lower raw) in
    T = time_stage sc ec (geo_stage N) /\
    n = incoherent_count sc ec (geo_stage N) /\
    QN.prepare_data lower parse raw
    = Ok (raw, cleaned sc ec (geo_stage N), log_of sc ec raw (geo_stage N)).
Proof.
  intros H. apply before_bounds_inv in H as (N & HN & HT & _ & -> & ->).
  exists N. split; [done |]. cbv zeta in *. split; [done |]. split; [done |].
  rewrite prepare_data_spec, HN, bind_Ok. cbv zeta. by rewrite HT.
Qed.

End Pipeline.

(** ** Rows of the intermediate tables *)

Lemma incoherent_reversed sc ec r :
  incoherent sc ec r = true <-> reversed sc ec r.
Proof.
  unfold incoherent, reversed. split.
  - intros H. apply andb_true_iff in H as [_ H].
    destruct (at_col ec r) as [| | | | |e]; try done.
    destruct (at_col sc r) as [| | | | |s]; try done.
    exists s, e. simpl in H. apply Z.ltb_lt in H. done.
  - intros (s & e & -> & -> & H). simpl. by apply Z.ltb_lt.
Qed.

Lemma unparsed_not_incoherent sc ec r :
  unparsed sc ec r -> incoherent sc ec r = false.
Proof.
  unfold incoherent. intros [-> | ->]; simpl; [done |].
  by rewrite andb_false_r.
Qed.

(** With both time columns resolved, a row at the accounting step is a
    coherent row of the geo stage with its duration cell added. *)
Lemma time_stage_rows G sc ec r :
  sc ∉ reserved -> ec ∉ reserved ->
  r ∈ rows (time_stage (Some sc) (Some ec) G) ->
  exists r0,
    r0 ∈ rows G /\
    incoherent sc ec r0 = false /\
    r = <[DURATION := duration_of sc ec r0]> r0 /\
    at_col sc r = at_col sc r0 /\ at_col ec r = at_col ec r0 /\
    duration r = duration_of sc ec r0.
Proof.
  intros Fs Fe. unfold time_stage. simpl.
  intros Hr. apply list_elem_of_fmap in Hr as (r0 & -> & Hr0).
  apply elem_of_bool_filter in Hr0 as [Hr0 Hc].
  destruct station_labels_reserved as (_ & _ & HD).
  exists r0. split; [done |]. split; [by apply negb_true_iff |].
  split; [done |]. unfold duration.
  rewrite !at_col_insert_ne by (by apply not_eq_sym, not_reserved_ne).
  by rewrite at_col_insert_eq.
Qed.

(** With a time column unresolved, every duration cell is [NaN]. *)
Lemma time_stage_rows_degraded start_c end_c G r :
  start_c = None \/ end_c = None ->
  r ∈ rows (time_stage start_c end_c G) ->
  r !! DURATION = Some NaN.
Proof.
  intros H. unfold time_stage.
  assert (forall r, r ∈ rows (assign DURATION (fun _ => NaN) G) ->
                    r !! DURATION = Some NaN) as Hn.
  { simpl. intros r' Hr. apply list_elem_of_fmap in Hr as (r0 & -> & _).
    apply lookup_insert_eq. }
  destruct H as [-> | ->]; [apply Hn |].
  destruct start_c; apply Hn.
Qed.

Lemma len_time_stage start_c end_c G :
  len (time_stage start_c end_c G)
  = len G - incoherent_count start_c end_c G.
Proof.
  unfold time_stage, incoherent_count.
  destruct start_c as [sc|]; [destruct end_c as [ec|] |];
    rewrite len_assign; try lia.
  unfold len, count_rows, keep, coherent. simpl.
  pose proof (filter_split_length (incoherent sc ec) (rows G)). lia.
Qed.

Lemma incoherent_count_nonneg start_c end_c G :
  0 <= incoherent_count start_c end_c G.
Proof.
  unfold incoherent_count, count_rows.
  destruct start_c; [destruct end_c |]; lia.
Qed.

Lemma nonneg_le_zero (d : Q) :
  (0 <= d)%Q -> Qle_bool d 0 = Qeq_bool d 0.
Proof.
  intros H. apply eq_true_iff_eq. rewrite Qle_bool_iff, Qeq_bool_iff.
  split; intros H'.
  - by apply Qle_antisym.
  - rewrite H'. apply Qle_refl.
Qed.

Lemma missing_not_counted (c : cell) :
  isna c = true ->
  non_positive c = false /\ sub_minute c = false /\ over_a_day c = false.
Proof. by destruct c. Qed.

Lemma ascii_lower_lowers : lowers_ascii ascii_lower.
Proof. by intros s _. Qed.

(** ** The cleaning pipeline: claims *)

Section CleaningClaims.
Context (lower : string -> string) (parse : parser).
Context (Hlower : lowers_ascii lower).


(** C2 (log arithmetic). In the log of a run that returns,
    [raw_n - dropped_total = clean_n] and
    [dropped_total = dropped_geo + incoh_time + dropped_dur], the two row
    counts being those of the raw and of the cleaned table; no count is
    negative. *)
Theorem log_arithmetic (raw raw' clean : DataFrame) (log : QN.cleaning_log) :
  QN.prepare_data lower parse raw = Ok (raw', clean, log) ->
  raw' = raw /\
  QN.raw_n log = len raw /\
  QN.clean_n log = len clean /\
  QN.raw_n log - QN.dropped_total log = QN.clean_n log /\
  QN.dropped_total log
  = QN.dropped_geo log + QN.incoh_time log + QN.dropped_dur log /\
  0 <= QN.dropped_geo log /\ 0 <= QN.incoh_time log /\
  0 <= QN.dropped_dur log.
Proof.
  intros Hrun.
  apply (prepare_data_inv lower parse Hlower) in Hrun
    as (N & HN & _ & -> & -> & ->).
  cbv zeta. cbn [QN.raw_n QN.clean_n QN.dropped_total QN.dropped_geo
                 QN.incoh_time QN.dropped_dur log_of].
  set (sc := QN.started_at (QN.infer_cols lower raw)).
  set (ec := QN.ended_at (QN.infer_cols lower raw)).
  pose proof (len_time_stage sc ec (geo_stage N)) as Ht.
  apply (conversions_facts lower parse Hlower) in HN as (_ & Hn & _).
  pose proof (len_geo_stage N) as Hg.
  pose proof (incoherent_count_nonneg sc ec (geo_stage N)) as Hi.
  pose proof (len_keep_le (fun r => in_bounds (duration r))
                (time_stage sc ec (geo_stage N))) as Hc.
  fold (cleaned sc ec (geo_stage N)) in Hc.
  repeat split; lia.
Qed.

(** C3 (temporal-consistency filter). With both time columns resolved, the
    filter receives a table whose time cells are timestamps or [NaT]. When
    one of the two columns is tz-aware and the other is not, the comparison
    raises [TypeError] and so does the run. Otherwise the filter keeps, in
    order, exactly the rows that are not reversed (both timestamps parsed
    and the end earlier than the start), it counts the reversed rows, a row
    with an unparsed timestamp is kept and not counted, and the count is
    the [incoh_time] of the log of a run that returns. *)
Theorem temporal_filter_exact (raw : DataFrame) (sc ec : string) (g : Z)
    (G : DataFrame) :
  QN.started_at (QN.infer_cols lower raw) = Some sc ->
  QN.ended_at (QN.infer_cols lower raw) = Some ec ->
  QN.before_temporal lower parse raw = Ok (g, G) ->
  (forall r, r ∈ rows G ->
     is_datetime_cell (at_col sc r) = true /\
     is_datetime_cell (at_col ec r) = true) /\
  (forall r, incoherent sc ec r = true <-> reversed sc ec r) /\
  (same_awareness G sc ec = false ->
   QN.drop_incoherent G sc ec = Raise TypeError /\
   QN.prepare_data lower parse raw = Raise TypeError) /\
  (same_awareness G sc ec = true ->
   exists n T,
     QN.drop_incoherent G sc ec = Ok (n, T) /\
     columns T = columns G /\
     rows T = List.filter (fun r => negb (incoherent sc ec r)) (rows G) /\
     (forall r, r ∈ rows T <-> r ∈ rows G /\ ~ reversed sc ec r) /\
     n = Z.of_nat (length (List.filter (incoherent sc ec) (rows G))) /\
     (forall r, r ∈ rows G -> unparsed sc ec r ->
        r ∈ rows T /\ incoherent sc ec r = false) /\
     (forall raw' clean log,
        QN.prepare_data lower parse raw = Ok (raw', clean, log) ->
        QN.incoh_time log = n)).
Proof.
  intros Hs He Hbt.
  apply (before_temporal_inv lower parse Hlower) in Hbt as (N & HN & -> & _).
  destruct (geo_stage_datetime lower parse Hlower raw N sc ec HN Hs He)
    as (Hp & Ds & De).
  split; [intros r Hr; split; [by apply Ds | by apply De] |].
  split; [apply incoherent_reversed |].
  split.
  { intros Ha. split.
    - rewrite drop_incoherent_spec by done. by rewrite Ha.
    - rewrite (prepare_data_spec lower parse Hlower), HN, bind_Ok.
      cbv zeta. rewrite Hs, He. unfold temporal_outcome. by rewrite Ha. }
  intros Ha.
  assert (forall r,
            r ∈ List.filter (fun r => negb (incoherent sc ec r))
                  (rows (geo_stage N))
            <-> r ∈ rows (geo_stage N) /\ ~ reversed sc ec r) as Hmem.
  { intros r. rewrite elem_of_bool_filter, negb_true_iff,
      <- incoherent_reversed, not_true_iff_false. done. }
  eexists _, _.
  split; [rewrite drop_incoherent_spec by done; by rewrite Ha |].
  split; [done |]. split; [done |]. split; [apply Hmem |].
  split; [done |].
  split.
  { intros r Hr Hu. pose proof (unparsed_not_incoherent sc ec r Hu) as Hf.
    split; [|done]. apply Hmem. split; [done |].
    by rewrite <- incoherent_reversed, not_true_iff_false. }
  intros raw' clean log Hrun.
  apply (prepare_data_inv lower parse Hlower) in Hrun
    as (N' & HN' & _ & _ & _ & ->).
  rewrite HN in HN'. injection HN' as <-.
  cbv zeta. cbn [QN.incoh_time log_of]. by rewrite Hs, He.
Qed.

(** C4 (degraded mode). When neither the start nor the end column is
    resolved, the pipeline returns: the table it builds has a
    [trip_duration_min] column that is missing in every row, the bounds
    filter drops all of them, the cleaned table is empty and [clean_n] is
    0, and the log records both roles as [None]. When only one of the two
    is resolved, the conversion of that column may raise; a run that
    returns gives the same empty table and counts, with the resolved role
    recorded in the log. *)
Theorem degraded_mode (raw : DataFrame) :
  (QN.started_at (QN.infer_cols lower raw) = None ->
   QN.ended_at (QN.infer_cols lower raw) = None ->
   exists g T clean log,
     QN.before_bounds lower parse raw = Ok (g, 0, T) /\
     has_col T "trip_duration_min" = true /\
     len T = len raw - g /\
     (forall r, r ∈ rows T -> r !! "trip_duration_min" = Some NaN) /\
     QN.prepare_data lower parse raw = Ok (raw, clean, log) /\
     rows clean = [] /\
     QN.clean_n log = 0 /\
     QN.dropped_dur log = len T /\
     QN.dur_le_0 log = 0 /\ QN.dur_lt_1 log = 0 /\ QN.dur_gt_24h log = 0 /\
     QN.start_col log = None /\ QN.end_col log = None) /\
  (QN.started_at (QN.infer_cols lower raw) = None
   \/ QN.ended_at (QN.infer_cols lower raw) = None ->
   forall raw' clean log,
     QN.prepare_data lower parse raw = Ok (raw', clean, log) ->
     exists g T,
       QN.before_bounds lower parse raw = Ok (g, 0, T) /\
       has_col T "trip_duration_min" = true /\
       len T = len raw - g /\
       (forall r, r ∈ rows T -> r !! "trip_duration_min" = Some NaN) /\
       rows clean = [] /\
       QN.clean_n log = 0 /\
       QN.dropped_dur log = len T /\
       QN.dur_le_0 log = 0 /\ QN.dur_lt_1 log = 0 /\ QN.dur_gt_24h log = 0 /\
       QN.start_col log = QN.started_at (QN.infer_cols lower raw) /\
       QN.end_col log = QN.ended_at (QN.infer_cols lower raw)).
Proof.
  assert (forall N,
            conversions lower parse raw = Ok N ->
            QN.started_at (QN.infer_cols lower raw) = None
            \/ QN.ended_at (QN.infer_cols lower raw) = None ->
            let sc := QN.started_at (QN.infer_cols lower raw) in
            let ec := QN.ended_at (QN.infer_cols lower raw) in
            let T := time_stage sc ec (geo_stage N) in
            QN.before_bounds lower parse raw
            = Ok (len raw - len (geo_stage N), 0, T) /\
            QN.prepare_data lower parse raw
            = Ok (raw, cleaned sc ec (geo_stage N),
                  log_of sc ec raw (geo_stage N)) /\
            has_col T "trip_duration_min" = true /\
            len T = len raw - (len raw - len (geo_stage N)) /\
            (forall r, r ∈ rows T -> r !! "trip_duration_min" = Some NaN) /\
            rows (cleaned sc ec (geo_stage N)) = [] /\
            len (cleaned sc ec (geo_stage N)) = 0 /\
            (forall p : cell -> bool, p NaN = false ->
               count_rows (fun r => p (duration r)) T = 0)) as Hall.
  { intros N HN Hd sc ec T.
    assert (temporal_outcome sc ec (geo_stage N) = Ok (0, T)) as HT.
    { unfold temporal_outcome. subst sc ec T.
      destruct Hd as [-> | ->]; [done |]. by destruct (QN.started_at _). }
    assert (incoherent_count sc ec (geo_stage N) = 0) as Hi.
    { by apply temporal_outcome_Ok in HT as [<- _]. }
    assert (forall p : cell -> bool, p NaN = false ->
              List.filter (fun r => p (duration r)) (rows T) = []) as Hnone.
    { intros p Hp. apply filter_none. intros r Hr.
      unfold duration, at_col.
      by rewrite (time_stage_rows_degraded sc ec (geo_stage N) r Hd Hr). }
    split.
    { rewrite (before_bounds_spec lower parse Hlower), HN, bind_Ok.
      fold sc ec. by rewrite HT. }
    split.
    { rewrite (prepare_data_spec lower parse Hlower), HN, bind_Ok.
      cbv zeta. fold sc ec. by rewrite HT. }
    split; [apply time_stage_float |].
    split; [unfold T; rewrite len_time_stage, Hi; lia |].
    split; [intros r Hr;
            exact (time_stage_rows_degraded sc ec (geo_stage N) r Hd Hr) |].
    split; [unfold cleaned; simpl; by apply Hnone |].
    split; [unfold cleaned, len; simpl; by rewrite Hnone |].
    intros p Hp. unfold count_rows. by rewrite Hnone. }
  split.
  - intros Hs He.
    assert (conversions lower parse raw = Ok raw) as HN
      by (unfold conversions; by rewrite Hs, He).
    destruct (Hall raw HN (or_introl Hs))
      as (Hbb & Hpd & Hc & Hl & Hr & Hrows & Hlen & Hcount).
    eexists _, _, _, _.
    split; [exact Hbb |]. split; [exact Hc |]. split; [exact Hl |].
    split; [exact Hr |]. split; [exact Hpd |]. split; [exact Hrows |].
    cbn [QN.clean_n QN.dropped_dur QN.dur_le_0 QN.dur_lt_1 QN.dur_gt_24h
         QN.start_col QN.end_col log_of].
    rewrite Hlen, !Hcount by done.
    repeat split; try done; lia.
  - intros Hd raw' clean log Hrun.
    apply (prepare_data_inv lower parse Hlower) in Hrun
      as (N & HN & _ & _ & -> & ->).
    destruct (Hall N HN Hd)
      as (Hbb & Hpd & Hc & Hl & Hr & Hrows & Hlen & Hcount).
    eexists _, _.
    split; [exact Hbb |]. split; [exact Hc |]. split; [exact Hl |].
    split; [exact Hr |]. split; [exact Hrows |].
    cbv zeta.
    cbn [QN.clean_n QN.dropped_dur QN.dur_le_0 QN.dur_lt_1 QN.dur_gt_24h
         QN.start_col QN.end_col log_of].
    rewrite Hlen, !Hcount by done.
    repeat split; try done; lia.
Qed.

(** C10 (outlier counters). In the table the accounting step receives,
    every duration cell is a number or missing and every number is at least
    0; a duration is 0 exactly when the start and end timestamps are equal.
    The run then returns, its [dur_le_0] counts the rows whose duration is
    0, and its three counters are unchanged when the rows with a missing
    duration are left out. *)
Theorem outlier_counters (raw : DataFrame) (g n : Z) (T : DataFrame) :
  QN.before_bounds lower parse raw = Ok (g, n, T) ->
  (forall r, r ∈ rows T -> is_float_cell (duration r) = true) /\
  (forall r d, r ∈ rows T -> duration r = Num d -> (0 <= d)%Q) /\
  (forall sc ec r,
     QN.started_at (QN.infer_cols lower raw) = Some sc ->
     QN.ended_at (QN.infer_cols lower raw) = Some ec ->
     r ∈ rows T ->
     (zero_duration (duration r) = true <->
      exists t, at_col sc r = Timestamp t /\ at_col ec r = Timestamp t)) /\
  (forall c, isna c = true ->
     non_positive c = false /\ sub_minute c = false
     /\ over_a_day c = false) /\
  exists clean log,
    QN.prepare_data lower parse raw = Ok (raw, clean, log) /\
    QN.dur_le_0 log = count_rows (fun r => zero_duration (duration r)) T /\
    let present := keep (fun r => notna (duration r)) T in
    QN.dur_le_0 log = count_rows (fun r => non_positive (duration r)) present /\
    QN.dur_lt_1 log = count_rows (fun r => sub_minute (duration r)) present /\
    QN.dur_gt_24h log = count_rows (fun r => over_a_day (duration r)) present.
Proof.
  intros Hbb.
  apply (prepare_data_after_bounds lower parse Hlower) in Hbb
    as (N & HN & -> & _ & Hrun).
  cbv zeta in *.
  set (G := geo_stage N) in *.
  set (start_c := QN.started_at (QN.infer_cols lower raw)) in *.
  set (end_c := QN.ended_at (QN.infer_cols lower raw)) in *.
  assert (forall r d, r ∈ rows (time_stage start_c end_c G) ->
            duration r = Num d -> (0 <= d)%Q) as Hpos.
  { intros r d Hr Hd.
    destruct start_c as [sc|] eqn:Hs.
    2:{ unfold duration, at_col in Hd.
        rewrite (time_stage_rows_degraded _ _ _ r (or_introl eq_refl) Hr)
          in Hd. done. }
    destruct end_c as [ec|] eqn:He.
    2:{ unfold duration, at_col in Hd.
        rewrite (time_stage_rows_degraded _ _ _ r (or_intror eq_refl) Hr)
          in Hd. done. }
    destruct (infer_cols_pair lower Hlower raw sc ec Hs He) as [_ _ Fs Fe _].
    destruct (time_stage_rows G sc ec r Fs Fe Hr)
      as (r0 & _ & Hco & _ & _ & _ & Hdur).
    rewrite Hdur in Hd. unfold duration_of, duration_cell in Hd.
    unfold incoherent in Hco.
    destruct (at_col ec r0) as [| | | | |e]; try done.
    destruct (at_col sc r0) as [| | | | |s]; try done.
    simpl in Hd, Hco. injection Hd as <-.
    apply float_minutes_nonneg. apply Z.ltb_ge in Hco. lia. }
  split; [apply time_stage_float |].
  split; [done |].
  split.
  { intros sc ec r Hs He Hr. subst start_c end_c. rewrite Hs, He in Hr.
    destruct (infer_cols_pair lower Hlower raw sc ec Hs He) as [_ _ Fs Fe _].
    destruct (time_stage_rows G sc ec r Fs Fe Hr)
      as (r0 & _ & Hco & _ & -> & -> & ->).
    unfold duration_of, duration_cell, zero_duration.
    unfold incoherent in Hco.
    destruct (at_col ec r0) as [| | | | |e];
      try (split; [done | by intros (t & _ & ?)]).
    destruct (at_col sc r0) as [| | | | |s];
      try (split; [done | by intros (t & ? & _)]).
    simpl in Hco. apply Z.ltb_ge in Hco.
    simpl. rewrite float_minutes_zero by lia. split.
    - intros H. exists s. split; [done |]. f_equal. lia.
    - intros (t & [= ->] & [= ->]). lia. }
  split; [apply missing_not_counted |].
  eexists _, _. split; [exact Hrun |].
  cbn [QN.dur_le_0 QN.dur_lt_1 QN.dur_gt_24h log_of].
  split.
  { unfold count_rows. do 2 f_equal. apply filter_ext_in. intros r Hr.
    specialize (Hpos r). unfold non_positive, zero_duration.
    pose proof (proj2 (time_stage_float start_c end_c G) r Hr) as Hf.
    unfold duration in *. destruct (at_col DURATION r); try done.
    simpl. apply nonneg_le_zero. by apply Hpos. }
  unfold count_rows, keep. simpl.
  rewrite !filter_filter_implied; [done | | |];
    intros r; unfold notna; by destruct (duration r).
Qed.

End CleaningClaims.

(** ** The column resolver: claim *)

(** C6, as the code has it. For every list of candidates, [_find_col]
    answers the last column whose lower-cased name is the lower-cased first
    candidate that some column matches, and [None] when no column matches
    any candidate; the four roles of [utils.infer_cols] and the two roles
    of the cleaning page are the answers for their alias lists. A column
    ["STARTED_AT"] is the start column when no later column is spelt
    [started_at] up to case; a table with no alias of a role resolves that
    role to [None]. *)
Theorem resolver_last_match (lower : string -> string)
    (Hlower : lowers_ascii lower) (df : DataFrame) :
  (forall candidates,
     resolves lower df candidates (utils._find_col lower df candidates) /\
     QN._find_col lower df candidates = utils._find_col lower df candidates) /\
  resolves lower df start_aliases
    (utils.start_dt (utils.infer_cols lower df)) /\
  resolves lower df end_aliases
    (utils.end_dt (utils.infer_cols lower df)) /\
  resolves lower df user_aliases
    (utils.user (utils.infer_cols lower df)) /\
  resolves lower df bike_aliases
    (utils.bike (utils.infer_cols lower df)) /\
  QN.started_at (QN.infer_cols lower df)
  = utils.start_dt (utils.infer_cols lower df) /\
  QN.ended_at (QN.infer_cols lower df)
  = utils.end_dt (utils.infer_cols lower df) /\
  (forall pre post : list string,
     columns df = (pre ++ "STARTED_AT" :: post)%list ->
     (forall col, col ∈ post -> lower col <> "started_at") ->
     utils.start_dt (utils.infer_cols lower df) = Some "STARTED_AT") /\
  (resolves lower df start_aliases None ->
   utils.start_dt (utils.infer_cols lower df) = None) /\
  (resolves lower df end_aliases None ->
   utils.end_dt (utils.infer_cols lower df) = None) /\
  (resolves lower df user_aliases None ->
   utils.user (utils.infer_cols lower df) = None) /\
  (resolves lower df bike_aliases None ->
   utils.bike (utils.infer_cols lower df) = None).
Proof.
  split; [intros candidates; split; [apply find_col_resolves | done] |].
  split; [apply find_col_resolves |].
  split; [apply find_col_resolves |].
  split; [apply find_col_resolves |].
  split; [apply find_col_resolves |].
  split; [done |]. split; [done |].
  split.
  { intros pre post Hcols Hpost.
    assert (lower "started_at" = "started_at") as Ea by (by rewrite Hlower).
    assert (lower "STARTED_AT" = "started_at") as EA by (by rewrite Hlower).
    apply (find_col_first lower df "started_at" _ pre post); [done | |].
    - by rewrite Ea, EA.
    - intros col Hcol. rewrite Ea. by apply Hpost. }
  split; [by apply find_col_None |].
  split; [by apply find_col_None |].
  split; by apply find_col_None.
Qed.

(** ** The hour buckets: claim *)

Lemma Qle_bool_inject (a b : Z) :
  Qle_bool (inject_Z a) (inject_Z b) = (a <=? b).
Proof. unfold Qle_bool. simpl. by rewrite !Z.mul_1_r. Qed.

Lemma Qlt_bool_inject (a b : Z) :
  Qlt_bool (inject_Z a) (inject_Z b) = (a <? b).
Proof. unfold Qlt_bool. by rewrite Qle_bool_inject, Z.ltb_antisym. Qed.

Lemma slot_of_hour_cases (h : Z) :
  Analyses_et_graphiques.slot_of_hour h
  = if (0 <=? h) && (h <? 6) then Some "00–05 (Nuit)"
    else if (6 <=? h) && (h <? 10) then Some "06–09 (Matin)"
    else if (10 <=? h) && (h <? 14) then Some "10–13 (Midi)"
    else if (14 <=? h) && (h <? 18) then Some "14–17 (Après-midi)"
    else if (18 <=? h) && (h <? 22) then Some "18–21 (Soir)"
    else if (22 <=? h) && (h <? 24) then Some "22–23 (Nuit tardive)"
    else None.
Proof.
  unfold Analyses_et_graphiques.slot_of_hour, Analyses_et_graphiques.bins,
    Analyses_et_graphiques.labels, cut_value.
  by rewrite !Qle_bool_inject, !Qlt_bool_inject.
Qed.

Lemma bucket_bounds (b : Z * Z * string) :
  b ∈ hour_buckets ->
  b = (0, 6, "00–05 (Nuit)") \/ b = (6, 10, "06–09 (Matin)") \/
  b = (10, 14, "10–13 (Midi)") \/ b = (14, 18, "14–17 (Après-midi)") \/
  b = (18, 22, "18–21 (Soir)") \/ b = (22, 24, "22–23 (Nuit tardive)").
Proof.
  unfold hour_buckets. intros Hb.
  repeat (apply elem_of_cons in Hb as [-> | Hb]; [tauto |]).
  by apply elem_of_nil in Hb.
Qed.

Ltac decide_slot :=
  match goal with
  | |- context [if (?a <=? ?b) && (?c <? ?d) then _ else _] =>
      first
        [ replace ((a <=? b) && (c <? d)) with true
            by (symmetry; apply andb_true_iff;
                split; [apply Z.leb_le | apply Z.ltb_lt]; lia)
        | replace ((a <=? b) && (c <? d)) with false
            by (symmetry; apply andb_false_iff;
                first [left; apply Z.leb_gt; lia
                      | right; apply Z.ltb_ge; lia]) ]
  end.

Lemma slot_of_hour_in_bucket (h : Z) (b : Z * Z * string) :
  b ∈ hour_buckets -> in_bucket h b ->
  Analyses_et_graphiques.slot_of_hour h = Some b.2.
Proof.
  intros Hb Hin. rewrite slot_of_hour_cases. unfold in_bucket in Hin.
  apply bucket_bounds in Hb.
  destruct Hb as [-> | [-> | [-> | [-> | [-> | ->]]]]];
    cbn [fst snd] in Hin |- *; repeat decide_slot; reflexivity.
Qed.

Lemma slot_of_hour_outside (h : Z) :
  h < 0 \/ 24 <= h -> Analyses_et_graphiques.slot_of_hour h = None.
Proof.
  intros [Hh | Hh]; rewrite slot_of_hour_cases; repeat decide_slot;
    reflexivity.
Qed.

Lemma bucket_unique (h : Z) (b b' : Z * Z * string) :
  b ∈ hour_buckets -> b' ∈ hour_buckets ->
  in_bucket h b -> in_bucket h b' -> b' = b.
Proof.
  unfold in_bucket. intros Hb Hb' Hin Hin'.
  apply bucket_bounds in Hb, Hb'.
  destruct Hb as [-> | [-> | [-> | [-> | [-> | ->]]]]];
    destruct Hb' as [-> | [-> | [-> | [-> | [-> | ->]]]]];
    first [reflexivity | exfalso; cbn [fst snd] in Hin, Hin'; lia].
Qed.

Lemma bucket_of_hour (h : Z) :
  0 <= h <= 23 -> exists b, b ∈ hour_buckets /\ in_bucket h b.
Proof.
  intros Hh. unfold hour_buckets, in_bucket.
  destruct (Z.lt_ge_cases h 6); [eexists; split; [left |]; simpl; lia |].
  destruct (Z.lt_ge_cases h 10);
    [eexists; split; [right; left |]; simpl; lia |].
  destruct (Z.lt_ge_cases h 14);
    [eexists; split; [do 2 right; left |]; simpl; lia |].
  destruct (Z.lt_ge_cases h 18);
    [eexists; split; [do 3 right; left |]; simpl; lia |].
  destruct (Z.lt_ge_cases h 22);
    [eexists; split; [do 4 right; left |]; simpl; lia |].
  eexists; split; [do 5 right; left |]; simpl; lia.
Qed.

Lemma cut_hour_cell (h : Z) :
  cut_cell Analyses_et_graphiques.bins Analyses_et_graphiques.labels (Int h)
  = Ok (slot_cell (Int h)).
Proof. reflexivity. Qed.

(** On a table whose hour column holds integers, the page adds to every
    row the slot of its hour. *)
Lemma time_slot_spec df :
  has_col df "start_hour" = true ->
  (forall r, r ∈ rows df -> exists h, at_col "start_hour" r = Int h) ->
  Analyses_et_graphiques.time_slot df
  = Ok (assign "time_slot" (fun r => slot_cell (at_col "start_hour" r)) df).
Proof.
  intros Hc Hint. unfold Analyses_et_graphiques.time_slot.
  rewrite getitem_has by done. rewrite bind_Ok.
  unfold cut. cbn [values Nat.eqb length Nat.pred
                   Analyses_et_graphiques.bins Analyses_et_graphiques.labels].
  fold Analyses_et_graphiques.bins. fold Analyses_et_graphiques.labels.
  rewrite (mapM_fmap_Ok _ (at_col "start_hour")
             (fun r => slot_cell (at_col "start_hour" r))).
  - rewrite bind_Ok. apply setitem_fmap.
  - intros r Hr. destruct (Hint r Hr) as (h & ->). apply cut_hour_cell.
Qed.

(** C8 (hour buckets). The bin edges and labels of the page pair up into the
    six buckets [0,6) Night, [6,10) Morning, [10,14) Midday, [14,18)
    Afternoon, [18,22) Evening, [22,24) Late night; every hour from 0 to 23
    lies in exactly one of them and [pd.cut] gives it the label of that
    one; hour 6 is Morning, hour 21 Evening, hour 23 Late night; an hour
    outside 0..23 gets no label. On a table whose [start_hour] cells are
    hours from 0 to 23 the page returns the table with, in every row, a
    [time_slot] cell that is the label of the bucket of the hour of that
    row. *)
Theorem time_slot_buckets :
  zip (zip Analyses_et_graphiques.bins (tail Analyses_et_graphiques.bins))
    Analyses_et_graphiques.labels = hour_buckets /\
  (forall h, 0 <= h <= 23 ->
     exists b,
       b ∈ hour_buckets /\ in_bucket h b /\
       (forall b', b' ∈ hour_buckets -> in_bucket h b' -> b' = b) /\
       Analyses_et_graphiques.slot_of_hour h = Some b.2) /\
  Analyses_et_graphiques.slot_of_hour 6 = Some "06–09 (Matin)" /\
  Analyses_et_graphiques.slot_of_hour 21 = Some "18–21 (Soir)" /\
  Analyses_et_graphiques.slot_of_hour 23 = Some "22–23 (Nuit tardive)" /\
  (forall h, h < 0 \/ 24 <= h ->
     Analyses_et_graphiques.slot_of_hour h = None) /\
  (forall df,
     has_col df "start_hour" = true ->
     (forall r, r ∈ rows df ->
        exists h, at_col "start_hour" r = Int h /\ 0 <= h <= 23) ->
     exists df_h,
       Analyses_et_graphiques.time_slot df = Ok df_h /\
       length (rows df_h) = length (rows df) /\
       forall i r, rows df !! i = Some r ->
         exists h b,
           at_col "start_hour" r = Int h /\
           b ∈ hour_buckets /\ in_bucket h b /\
           rows df_h !! i = Some (<["time_slot" := Str b.2]> r)).
Proof.
  split; [reflexivity |]. split.
  { intros h Hh. destruct (bucket_of_hour h Hh) as (b & Hb & Hin).
    exists b. split; [done |]. split; [done |].
    split; [intros b' Hb' Hin'; by apply (bucket_unique h) |].
    by apply slot_of_hour_in_bucket. }
  split; [reflexivity |]. split; [reflexivity |]. split; [reflexivity |].
  split; [apply slot_of_hour_outside |].
  intros df Hc Hhours. eexists. split.
  { apply time_slot_spec; [done |]. intros r Hr.
    destruct (Hhours r Hr) as (h & ? & _). by exists h. }
  split; [simpl; by rewrite length_fmap |].
  intros i r Hi.
  assert (r ∈ rows df) as Hr by (by apply list_elem_of_lookup_2 in Hi).
  destruct (Hhours r Hr) as (h & Eh & Hh).
  destruct (bucket_of_hour h Hh) as (b & Hb & Hin).
  exists h, b. split; [done |]. split; [done |]. split; [done |].
  simpl. rewrite list_lookup_fmap, Hi. simpl. rewrite Eh. simpl.
  by rewrite (slot_of_hour_in_bucket h b Hb Hin).
Qed.

(** ** [load_prepared]: claim *)

Lemma dropna_pair df a b :
  has_col df a = true -> has_col df b = true ->
  dropna df [a; b] = Ok (keep (both_parsed a b) df).
Proof.
  intros Ha Hb. unfold dropna. simpl. rewrite Ha, Hb. simpl.
  unfold keep.
  rewrite (filter_ext_in _ (both_parsed a b))
    by (intros r _; unfold both_parsed; by rewrite andb_true_r).
  reflexivity.
Qed.

Lemma derive_lookups sc ec zone r :
  sc ∉ reserved -> ec ∉ reserved ->
  derive sc ec zone r !! sc = r !! sc /\
  derive sc ec zone r !! ec = r !! ec /\
  derive sc ec zone r !! DURATION = Some (duration_of sc ec r) /\
  derive sc ec zone r !! "day_of_week"
  = Some (day_name_cell zone (at_col sc r)) /\
  derive sc ec zone r !! "start_hour"
  = Some (hour_cell zone (at_col sc r)).
Proof.
  intros Hs He. unfold derive.
  assert (forall c, c ∈ reserved -> c <> sc) as Ns
    by (intros c Hc; by apply not_eq_sym, not_reserved_ne).
  assert (forall c, c ∈ reserved -> c <> ec) as Ne
    by (intros c Hc; by apply not_eq_sym, not_reserved_ne).
  assert (DURATION ∈ reserved /\ "day_of_week" ∈ reserved
          /\ "start_hour" ∈ reserved) as (HD & HW & HH)
    by (unfold reserved, DURATION; set_solver).
  rewrite !at_col_insert_ne by auto.
  rewrite !lookup_insert_ne by auto.
  repeat split; try done.
  - rewrite ?lookup_insert_ne by (unfold DURATION; discriminate).
    apply lookup_insert_eq.
  - rewrite ?lookup_insert_ne by discriminate. apply lookup_insert_eq.
  - apply lookup_insert_eq.
Qed.

Lemma at_col_Timestamp c (r : gmap string cell) t :
  at_col c r = Timestamp t <-> r !! c = Some (Timestamp t).
Proof.
  unfold at_col. destruct (r !! c) as [x|]; simpl; [|done].
  split; congruence.
Qed.

Lemma parsed_cell c (r : gmap string cell) :
  is_datetime_cell (at_col c r) = true -> notna (at_col c r) = true ->
  exists t, r !! c = Some (Timestamp t).
Proof.
  intros Hd Hn. destruct (at_col c r) as [| | | | |t] eqn:E; try done.
  exists t. by apply at_col_Timestamp.
Qed.

(** A conversion leaves the other columns as they are. *)
Lemma with_datetime_other_col c c' zone (instants : list (option Z)) df :
  c <> c' -> length instants = length (rows df) ->
  at_col c' <$> rows (with_datetime c zone instants df)
  = at_col c' <$> rows df.
Proof.
  intros Hne. simpl. generalize (rows df). clear df.
  induction instants as [|v vs IH]; intros [|r rs] Hlen; try done.
  csimpl. rewrite at_col_insert_ne by done. f_equal. apply IH.
  simpl in Hlen. lia.
Qed.

Lemma tzs_assign_ne c c' F df :
  c <> c' -> tzs (assign c F df) !! c' = tzs df !! c'.
Proof. intros H. simpl. by apply lookup_delete_ne. Qed.

Section Prepared.
Context (lower : string -> string) (parse : parser).
Context (Hlower : lowers_ascii lower).

Lemma utils_pair raw sc ec :
  utils.start_dt (utils.infer_cols lower raw) = Some sc ->
  utils.end_dt (utils.infer_cols lower raw) = Some ec ->
  resolved_pair raw sc ec.
Proof. apply (pair_resolved lower Hlower). Qed.

(** The steps of [load_prepared] after the two conversions, on a table [N]
    whose time columns are datetime columns. *)
Lemma load_prepared_tail N sc ec (cols : utils.cols) :
  sc ∉ reserved -> ec ∉ reserved -> sc <> ec ->
  datetime_col N sc -> datetime_col N ec ->
  (df ← dropna N [sc; ec];
   e ← getitem df ec;
   s ← getitem df sc;
   td ← series_sub e s;
   df ← setitem df "trip_duration_min"
          (float_series (truediv (total_seconds td) 60));
   s ← getitem df sc;
   names ← dt_day_name s;
   df ← setitem df "day_of_week" names;
   s ← getitem df sc;
   hours ← dt_hour s;
   df ← setitem df "start_hour" hours;
   mret (df, cols))
  = if same_awareness N sc ec then
      if differences_fit sc ec (keep (both_parsed sc ec) N) then
        Ok (assign "start_hour" (fun r => hour_cell (tzs N !! sc) (at_col sc r))
              (assign "day_of_week"
                 (fun r => day_name_cell (tzs N !! sc) (at_col sc r))
                 (assign DURATION (duration_of sc ec)
                    (keep (both_parsed sc ec) N))),
            cols)
      else Raise OverflowError
    else Raise TypeError.
Proof.
  intros Fs Fe Hne Ds De.
  rewrite dropna_pair, bind_Ok by (apply Ds || apply De).
  set (df3 := keep (both_parsed sc ec) N).
  assert (datetime_col df3 sc) as D3s by (by apply datetime_col_keep).
  assert (datetime_col df3 ec) as D3e by (by apply datetime_col_keep).
  rewrite (duration_then df3 sc ec) by done.
  change (same_awareness df3 sc ec) with (same_awareness N sc ec).
  destruct (same_awareness N sc ec); [|done].
  destruct (differences_fit sc ec df3); [|done].
  set (df4 := assign DURATION (duration_of sc ec) df3).
  destruct station_labels_reserved as (_ & _ & HD).
  assert (DURATION <> sc) as Nd by (by apply not_eq_sym, not_reserved_ne).
  assert ("day_of_week" <> sc) as Nw.
  { apply not_eq_sym, not_reserved_ne; [done |].
    unfold reserved. do 2 right. left. }
  assert (datetime_col df4 sc) as D4s by (by apply datetime_col_assign).
  rewrite getitem_has by apply D4s. rewrite bind_Ok.
  unfold dt_day_name. rewrite (datetime_col_series df4 sc D4s), bind_Ok.
  cbn [values tz].
  assert (tzs df4 !! sc = tzs N !! sc) as Z4
    by (unfold df4; by rewrite tzs_assign_ne).
  rewrite Z4, setitem_fmap_fmap, bind_Ok.
  set (df5 := assign "day_of_week" _ df4).
  assert (datetime_col df5 sc) as D5s by (by apply datetime_col_assign).
  rewrite getitem_has by apply D5s. rewrite bind_Ok.
  unfold dt_hour. rewrite (datetime_col_series df5 sc D5s), bind_Ok.
  cbn [values tz].
  assert (tzs df5 !! sc = tzs N !! sc) as Z5
    by (unfold df5; by rewrite tzs_assign_ne).
  rewrite Z5, setitem_fmap_fmap, bind_Ok.
  reflexivity.
Qed.

(** With both time columns resolved, what [load_prepared] answers. *)
Lemma load_prepared_resolved raw sc ec :
  utils.start_dt (utils.infer_cols lower raw) = Some sc ->
  utils.end_dt (utils.infer_cols lower raw) = Some ec ->
  utils.load_prepared lower parse raw
  = N1 ← converted parse sc raw;
    N ← converted parse ec N1;
    if same_awareness N sc ec then
      if differences_fit sc ec (keep (both_parsed sc ec) N) then
        Ok (assign "start_hour" (fun r => hour_cell (tzs N !! sc) (at_col sc r))
              (assign "day_of_week"
                 (fun r => day_name_cell (tzs N !! sc) (at_col sc r))
                 (assign DURATION (duration_of sc ec)
                    (keep (both_parsed sc ec) N))),
            utils.infer_cols lower raw)
      else Raise OverflowError
    else Raise TypeError.
Proof.
  intros Hs He. unfold utils.load_prepared, utils._to_datetime_safe.
  rewrite Hs, He.
  destruct (utils_pair raw sc ec Hs He) as [Is Ie Fs Fe Hne].
  rewrite (convert_then parse raw sc) by done.
  destruct (converted parse sc raw) as [N1|e] eqn:E1; [|done].
  rewrite !bind_Ok.
  pose proof (converted_opt_facts parse (Some sc) raw N1) as F1.
  destruct F1 as (C1 & _ & D1 & _); [by intros c [= <-] | done |].
  assert (ec ∈ columns N1) as Ie1 by (by rewrite C1).
  rewrite (convert_then parse N1 ec) by done.
  destruct (converted parse ec N1) as [N|e] eqn:E2; [|done].
  rewrite !bind_Ok.
  pose proof (converted_opt_facts parse (Some ec) N1 N) as F2.
  destruct F2 as (_ & _ & D2 & O2); [by intros c [= <-] | done |].
  apply load_prepared_tail; try done.
  - apply O2; [congruence | by apply D1].
  - by apply D2.
Qed.

(** C9, as the code has it ([load_prepared]). With the start or the end
    column unresolved the function returns the raw table as it is, with no
    derived column. With both resolved, a call that returns went through
    the two conversions; it returns, in order, exactly the raw rows whose
    start and end both parsed, each with its two timestamps, its duration
    (the float the code computes, of any sign and size), and the day name
    and the hour of its start on the clock of the zone of the start column;
    the three derived cells are present in every row. *)
Theorem load_prepared_rows (raw df : DataFrame) (cols : utils.cols) :
  utils.load_prepared lower parse raw = Ok (df, cols) ->
  cols = utils.infer_cols lower raw /\
  (utils.start_dt cols = None \/ utils.end_dt cols = None -> df = raw) /\
  (forall sc ec,
     utils.start_dt cols = Some sc -> utils.end_dt cols = Some ec ->
     exists zone starts zone' ends,
       parse (at_col sc <$> rows raw) = Ok (zone, starts) /\
       parse (at_col ec <$> rows raw) = Ok (zone', ends) /\
       length starts = length (rows raw) /\
       length ends = length (rows raw) /\
       let N := with_datetime ec zone' ends
                  (with_datetime sc zone starts raw) in
       rows df
       = derive sc ec zone <$> List.filter (both_parsed sc ec) (rows N) /\
       derived_present df /\
       forall r, r ∈ rows df ->
         exists s e,
           r !! sc = Some (Timestamp s) /\ r !! ec = Some (Timestamp e) /\
           r !! "trip_duration_min"
           = Some (Num (Float64.div (seconds_of (e - s)) 60)) /\
           r !! "day_of_week"
           = Some (Str (day_name_of (local_time zone s))) /\
           r !! "start_hour" = Some (Int (hour_of (local_time zone s)))).
Proof.
  intros Hrun.
  assert (cols = utils.infer_cols lower raw) as ->.
  { unfold utils.load_prepared in Hrun.
    destruct (utils.start_dt _) as [sc|]; [|by injection Hrun as _ <-].
    destruct (utils.end_dt _) as [ec|]; [|by injection Hrun as _ <-].
    repeat (apply bind_Ok_inv in Hrun as (? & _ & Hrun)).
    by injection Hrun as _ <-. }
  split; [done |]. split.
  { intros Hd. unfold utils.load_prepared in Hrun.
    destruct Hd as [Hd | Hd]; rewrite Hd in Hrun.
    - by injection Hrun as <-.
    - destruct (utils.start_dt _); by injection Hrun as <-. }
  intros sc ec Hs He.
  rewrite (load_prepared_resolved raw sc ec Hs He) in Hrun.
  destruct (utils_pair raw sc ec Hs He) as [Is Ie Fs Fe Hne].
  apply bind_Ok_inv in Hrun as (N1 & E1 & Hrun).
  apply bind_Ok_inv in Hrun as (N & E2 & Hrun).
  destruct (same_awareness N sc ec); [|done].
  destruct (differences_fit _ _ _); [|done].
  injection Hrun as <-.
  pose proof (converted_opt_facts parse (Some sc) raw N1) as F1.
  destruct F1 as (C1 & _ & D1 & _); [by intros c [= <-] | done |].
  pose proof (converted_opt_facts parse (Some ec) N1 N) as F2.
  destruct F2 as (_ & _ & D2 & O2);
    [intros c [= <-]; by rewrite C1 | done |].
  assert (datetime_col N sc) as DNs
    by (apply O2; [congruence | by apply D1]).
  assert (datetime_col N ec) as DNe by (by apply D2).
  apply converted_inv in E1 as (zone & starts & P1 & L1 & ->).
  apply converted_inv in E2 as (zone' & ends & P2 & L2 & ->).
  rewrite with_datetime_other_col in P2 by done.
  assert (length (rows (with_datetime sc zone starts raw))
          = length (rows raw)) as L1'.
  { simpl. rewrite length_zip_with. lia. }
  rewrite L1' in L2.
  exists zone, starts, zone', ends.
  split; [done |]. split; [done |]. split; [done |]. split; [done |].
  set (N := with_datetime ec zone' ends (with_datetime sc zone starts raw))
    in *.
  assert (tzs N !! sc = zone) as Ez.
  { unfold N. simpl. rewrite lookup_set_tz_ne by (by apply not_eq_sym).
    unfold set_tz. destruct zone; [apply lookup_insert_eq |].
    apply lookup_delete_eq. }
  rewrite Ez.
  assert (forall r0, r0 ∈ rows N -> both_parsed sc ec r0 = true ->
            exists s e,
              derive sc ec zone r0 !! sc = Some (Timestamp s) /\
              derive sc ec zone r0 !! ec = Some (Timestamp e) /\
              derive sc ec zone r0 !! "trip_duration_min"
              = Some (Num (float_minutes (e - s))) /\
              derive sc ec zone r0 !! "day_of_week"
              = Some (Str (day_name_of (local_time zone s))) /\
              derive sc ec zone r0 !! "start_hour"
              = Some (Int (hour_of (local_time zone s)))) as Hrow.
  { intros r0 Hr0 Hb. apply andb_true_iff in Hb as [Hb1 Hb2].
    destruct (parsed_cell sc r0 (proj2 DNs r0 Hr0) Hb1) as (s & Es).
    destruct (parsed_cell ec r0 (proj2 DNe r0 Hr0) Hb2) as (e & Ee).
    destruct (derive_lookups sc ec zone r0) as (L1a & L2a & L3 & L4 & L5);
      [done | done |].
    exists s, e. rewrite L1a, L2a. fold DURATION. rewrite L3, L4, L5.
    unfold duration_of, duration_cell.
    rewrite (proj2 (at_col_Timestamp sc r0 s) Es).
    rewrite (proj2 (at_col_Timestamp ec r0 e) Ee). done. }
  assert (rows (assign "start_hour"
                  (fun r => hour_cell zone (at_col sc r))
                  (assign "day_of_week"
                     (fun r => day_name_cell zone (at_col sc r))
                     (assign DURATION (duration_of sc ec)
                        (keep (both_parsed sc ec) N))))
          = derive sc ec zone <$> List.filter (both_parsed sc ec) (rows N))
    as Hrows.
  { simpl. rewrite <- !list_fmap_compose. reflexivity. }
  split; [exact Hrows |].
  assert (forall r, r ∈ derive sc ec zone
                        <$> List.filter (both_parsed sc ec) (rows N) ->
            exists s e,
              r !! sc = Some (Timestamp s) /\ r !! ec = Some (Timestamp e) /\
              r !! "trip_duration_min" = Some (Num (float_minutes (e - s))) /\
              r !! "day_of_week"
              = Some (Str (day_name_of (local_time zone s))) /\
              r !! "start_hour"
              = Some (Int (hour_of (local_time zone s)))) as Hall.
  { intros r Hr. apply list_elem_of_fmap in Hr as (r0 & -> & Hr0).
    apply elem_of_bool_filter in Hr0 as [Hr0 Hb]. by apply Hrow. }
  split.
  - intros r Hr. rewrite Hrows in Hr.
    destruct (Hall r Hr) as (s & e & _ & _ & E1 & E2 & E3).
    unfold duration, at_col. fold DURATION in E1. by rewrite E1, E2, E3.
  - intros r Hr. rewrite Hrows in Hr. by apply Hall.
Qed.

End Prepared.

(** * The code on the sample tables *)

Import Sample.

(** Scenario B of the design document: a trip from 10:00:00 to 10:05:00 on
    2024-01-01 lasts five minutes and starts on a Monday at hour 10. *)
Example scenario_b :
  parse_timestamp "2024-01-01 10:00:00" = Some (1704103200000000000, None) /\
  parse_timestamp "2024-01-01 10:05:00" = Some (1704103500000000000, None) /\
  float_minutes (1704103500000000000 - 1704103200000000000) = 5%Q /\
  day_name_of 1704103200000000000 = "Monday" /\
  hour_of 1704103200000000000 = 10.
Proof. vm_compute. repeat split. Qed.

(** Float durations: five minutes are exactly 5; a hundred seconds are the
    binary64 value nearest to 5/3, which is not 5/3. *)
Example float_durations :
  float_minutes 300000000000 = 5%Q /\
  float_minutes 100000000000 = (7505999378950827 # 4503599627370496)%Q /\
  ~ (float_minutes 100000000000 == 5 # 3)%Q.
Proof. vm_compute. repeat split. discriminate. Qed.

Example trips_roles :
  QN.infer_cols lower trips
  = {| QN.started_at := Some "Started_At"; QN.ended_at := Some "ended_at" |} /\
  utils.infer_cols lower trips = trips_cols.
Proof. vm_compute. repeat split. Qed.

(** A tz-aware start column against a tz-naive end column: the comparison
    of the temporal filter and the subtraction of [load_prepared] raise
    [TypeError]. Two UTC offsets in one column: the conversion raises
    [ValueError]. *)
Example mixed_zones_raise :
  conversions lower iso_parser zoned_start = Ok zoned_start_converted /\
  QN.prepare_data lower iso_parser zoned_start = Raise TypeError /\
  utils.load_prepared lower iso_parser zoned_start = Raise TypeError /\
  QN.prepare_data lower iso_parser two_offsets = Raise ValueError /\
  utils.load_prepared lower iso_parser two_offsets = Raise ValueError.
Proof. vm_compute. repeat split. Qed.


(** C2 on [trips]: six raw rows, one dropped by each of the first two rules
    and three by the bounds, one left. *)
Lemma log_arithmetic_witness :
  QN.prepare_data lower iso_parser trips = Ok (trips, trips_clean, trips_log)
  /\ QN.raw_n trips_log - QN.dropped_total trips_log = QN.clean_n trips_log
  /\ QN.dropped_total trips_log
     = QN.dropped_geo trips_log + QN.incoh_time trips_log
       + QN.dropped_dur trips_log
  /\ QN.raw_n trips_log = 6 /\ QN.clean_n trips_log = 1.
Proof.
  assert (QN.prepare_data lower iso_parser trips
          = Ok (trips, trips_clean, trips_log)) as Hrun
    by (vm_compute; reflexivity).
  destruct (log_arithmetic lower iso_parser ascii_lower_lowers
              trips trips trips_clean trips_log Hrun)
    as (_ & _ & _ & H1 & H2 & _).
  split; [exact Hrun |]. split; [exact H1 |]. split; [exact H2 |].
  split; reflexivity.
Defined.

(** C3 on [trips]: of the five rows the filter receives it drops the one
    that ends before it starts and keeps the one whose end did not
    parse. *)
Lemma temporal_filter_exact_witness :
  QN.started_at (QN.infer_cols lower trips) = Some "Started_At" /\
  QN.ended_at (QN.infer_cols lower trips) = Some "ended_at" /\
  QN.before_temporal lower iso_parser trips = Ok (1, trips_geo) /\
  same_awareness trips_geo "Started_At" "ended_at" = true /\
  exists n T,
    QN.drop_incoherent trips_geo "Started_At" "ended_at" = Ok (n, T) /\
    n = 1 /\
    (fun r => r !! "ride_id") <$> rows T
    = [Some (Str "a"); Some (Str "c"); Some (Str "d"); Some (Str "e")].
Proof.
  assert (QN.started_at (QN.infer_cols lower trips) = Some "Started_At")
    as Hs by (vm_compute; reflexivity).
  assert (QN.ended_at (QN.infer_cols lower trips) = Some "ended_at")
    as He by (vm_compute; reflexivity).
  assert (QN.before_temporal lower iso_parser trips = Ok (1, trips_geo))
    as Hbt by (vm_compute; reflexivity).
  assert (same_awareness trips_geo "Started_At" "ended_at" = true)
    as Ha by (vm_compute; reflexivity).
  split; [exact Hs |]. split; [exact He |]. split; [exact Hbt |].
  split; [exact Ha |].
  destruct (temporal_filter_exact lower iso_parser ascii_lower_lowers
              trips "Started_At" "ended_at" 1 trips_geo Hs He Hbt)
    as (_ & _ & _ & Hok).
  destruct (Hok Ha) as (n & T & Hd & _ & Hrows & _ & Hn & _).
  exists n, T. split; [exact Hd |]. split.
  - rewrite Hn. vm_compute. reflexivity.
  - rewrite Hrows. vm_compute. reflexivity.
Defined.

(** C4 on [no_times]: the run returns an empty cleaned table from the two
    rows it received. *)
Lemma degraded_mode_witness :
  QN.started_at (QN.infer_cols lower no_times) = None /\
  QN.ended_at (QN.infer_cols lower no_times) = None /\
  exists g T clean log,
    QN.before_bounds lower iso_parser no_times = Ok (g, 0, T) /\
    QN.prepare_data lower iso_parser no_times = Ok (no_times, clean, log) /\
    T = no_times_timed /\ rows clean = [] /\ QN.clean_n log = 0 /\
    QN.start_col log = None /\ QN.end_col log = None.
Proof.
  assert (QN.started_at (QN.infer_cols lower no_times) = None)
    as Hs by (vm_compute; reflexivity).
  assert (QN.ended_at (QN.infer_cols lower no_times) = None)
    as He by (vm_compute; reflexivity).
  split; [exact Hs |]. split; [exact He |].
  destruct (degraded_mode lower iso_parser ascii_lower_lowers no_times)
    as (Hboth & _).
  destruct (Hboth Hs He)
    as (g & T & clean & log & Hbb & _ & _ & _ & Hrun & Hrows & Hn & _ & _
        & _ & _ & Hsc & Hec).
  exists g, T, clean, log.
  split; [exact Hbb |]. split; [exact Hrun |]. split.
  - assert (QN.before_bounds lower iso_parser no_times
            = Ok (0, 0, no_times_timed)) as E by (vm_compute; reflexivity).
    rewrite E in Hbb. apply (f_equal (fun x => match x with
                                               | Ok (_, _, t) => t
                                               | Raise _ => no_times_timed
                                               end)) in Hbb.
    symmetry. exact Hbb.
  - split; [exact Hrows |]. split; [exact Hn |].
    split; [exact Hsc | exact Hec].
Defined.

(** C10 on [trips]: the durations at the accounting step are 5, 0, 2880
    and missing; the counters are 1, 0 and 1. *)
Lemma outlier_counters_witness :
  QN.before_bounds lower iso_parser trips = Ok (1, 1, trips_timed) /\
  duration <$> rows trips_timed = [Num 5; Num 0; Num 2880; NaN] /\
  exists clean log,
    QN.prepare_data lower iso_parser trips = Ok (trips, clean, log) /\
    QN.dur_le_0 log = 1 /\ QN.dur_lt_1 log = 0 /\ QN.dur_gt_24h log = 1.
Proof.
  assert (QN.before_bounds lower iso_parser trips = Ok (1, 1, trips_timed))
    as Hbb by (vm_compute; reflexivity).
  split; [exact Hbb |]. split; [vm_compute; reflexivity |].
  destruct (outlier_counters lower iso_parser ascii_lower_lowers
              trips 1 1 trips_timed Hbb)
    as (_ & _ & _ & _ & clean & log & Hrun & H0 & _ & H1 & H2).
  exists clean, log. split; [exact Hrun |].
  split; [rewrite H0; vm_compute; reflexivity |].
  split; [rewrite H1; vm_compute; reflexivity |].
  rewrite H2. vm_compute. reflexivity.
Defined.

(** C6 on [shouting]: the start role is the column ["STARTED_AT"], the end
    role is not found. *)
Lemma resolver_last_match_witness :
  utils.start_dt (utils.infer_cols lower shouting) = Some "STARTED_AT" /\
  QN.started_at (QN.infer_cols lower shouting) = Some "STARTED_AT" /\
  utils.end_dt (utils.infer_cols lower shouting) = None.
Proof.
  destruct (resolver_last_match lower ascii_lower_lowers shouting)
    as (_ & _ & _ & _ & _ & Hq & _ & Hstart & _ & Hend & _).
  assert (utils.start_dt (utils.infer_cols lower shouting)
          = Some "STARTED_AT") as Hs.
  { apply (Hstart ["ride_id"] []); [reflexivity |].
    intros col Hcol. by apply elem_of_nil in Hcol. }
  split; [exact Hs |]. split; [by rewrite Hq |].
  apply Hend. intros a col Ha Hcol.
  unfold end_aliases in Ha. cbn [columns shouting frame] in Hcol.
  repeat (apply elem_of_cons in Hcol as [-> | Hcol];
          [ repeat (apply elem_of_cons in Ha as [-> | Ha];
                    [vm_compute; discriminate |]);
            by apply elem_of_nil in Ha |]).
  by apply elem_of_nil in Hcol.
Defined.

(** C6 as stated fails on [two_starts]: the table has a column
    ["STARTED_AT"], and the start role is the later column
    ["started_at"]. *)
Lemma resolver_first_match_counterexample :
  "STARTED_AT" ∈ columns two_starts /\
  utils.start_dt (utils.infer_cols lower two_starts) = Some "started_at" /\
  QN.started_at (QN.infer_cols lower two_starts) = Some "started_at" /\
  utils.start_dt (utils.infer_cols lower two_starts) <> Some "STARTED_AT".
Proof.
  split; [left |].
  assert (utils.start_dt (utils.infer_cols lower two_starts)
          = Some "started_at") as E by (vm_compute; reflexivity).
  split; [exact E |]. split; [exact E |]. rewrite E. discriminate.
Qed.

(** C8 on [departures]: hours 6, 21, 23 and 0 get the slots Morning,
    Evening, Late night and Night. *)
Lemma time_slot_buckets_witness :
  exists df_h,
    Analyses_et_graphiques.time_slot departures = Ok df_h /\
    df_h = departures_slotted /\
    (fun r => r !! "time_slot") <$> rows df_h
    = [Some (Str "06–09 (Matin)"); Some (Str "18–21 (Soir)");
       Some (Str "22–23 (Nuit tardive)"); Some (Str "00–05 (Nuit)")].
Proof.
  destruct time_slot_buckets as (_ & _ & _ & _ & _ & _ & Hpage).
  destruct (Hpage departures) as (df_h & Hrun & _).
  { vm_compute. reflexivity. }
  { intros r Hr. apply list_elem_of_fmap in Hr as (line & -> & Hline).
    repeat (apply elem_of_cons in Hline as [-> | Hline];
            [eexists; split; [vm_compute; reflexivity | lia] |]).
    by apply elem_of_nil in Hline. }
  assert (Analyses_et_graphiques.time_slot departures
          = Ok departures_slotted) as E by (vm_compute; reflexivity).
  exists df_h. split; [exact Hrun |].
  rewrite E in Hrun.
  apply (f_equal (fun x => match x with
                           | Ok t => t
                           | Raise _ => departures_slotted
                           end)) in Hrun.
  cbv beta iota in Hrun. split; [symmetry; exact Hrun |].
  rewrite <- Hrun. vm_compute. reflexivity.
Defined.

(** C9 as stated fails on [no_times]: [load_prepared] returns its two rows,
    none of which has a start or an end timestamp, and none of the derived
    cells is present. *)
Lemma load_prepared_no_times_counterexample :
  exists cols,
    utils.load_prepared lower iso_parser no_times = Ok (no_times, cols) /\
    utils.start_dt cols = None /\ utils.end_dt cols = None /\
    length (rows no_times) = 2%nat /\
    ~ derived_present no_times /\
    (fun r => (r !! "trip_duration_min", r !! "day_of_week",
               r !! "start_hour")) <$> rows no_times
    = [(None, None, None); (None, None, None)].
Proof.
  exists (utils.infer_cols lower no_times).
  split; [vm_compute; reflexivity |].
  split; [vm_compute; reflexivity |]. split; [vm_compute; reflexivity |].
  split; [reflexivity |].
  split; [| vm_compute; reflexivity].
  intros Hp.
  assert (exists r, r ∈ rows no_times /\ r !! "trip_duration_min" = None)
    as (r & Hr & E).
  { eexists. split; [unfold no_times, frame; cbn [rows fmap list_fmap]; left |].
    vm_compute. reflexivity. }
  destruct (Hp r Hr) as (Hd & _).
  unfold duration, at_col, DURATION in Hd. rewrite E in Hd. discriminate Hd.
Qed.

(** C9, amended, on [trips]: the five rows whose timestamps parse are kept,
    with durations of 5, -60, 0, 2880 and 30 minutes. *)
Lemma load_prepared_rows_witness :
  utils.load_prepared lower iso_parser trips = Ok (trips_prepared, trips_cols)
  /\ derived_present trips_prepared
  /\ (fun r => (r !! "ride_id", r !! "trip_duration_min")) <$>
       rows trips_prepared
     = [(Some (Str "a"), Some (Num 5)); (Some (Str "b"), Some (Num (-60)));
        (Some (Str "c"), Some (Num 0)); (Some (Str "d"), Some (Num 2880));
        (Some (Str "f"), Some (Num 30))].
Proof.
  assert (utils.load_prepared lower iso_parser trips
          = Ok (trips_prepared, trips_cols)) as Hrun
    by (vm_compute; reflexivity).
  split; [exact Hrun |].
  destruct (load_prepared_rows lower iso_parser ascii_lower_lowers
              trips trips_prepared trips_cols Hrun) as (_ & _ & Hres).
  destruct (Hres "Started_At" "ended_at" eq_refl eq_refl)
    as (zone & starts & zone' & ends & _ & _ & _ & _ & _ & Hp & _).
  split; [exact Hp |]. vm_compute. reflexivity.
Defined.

(** * Further properties of the code *)

(** ** Columns of the intermediate tables *)

Lemma sublist_bool_filter {A} (p : A -> bool) (l : list A) :
  List.filter p l `sublist_of` l.
Proof.
  induction l as [|x l IH]; simpl; [done |].
  destruct (p x); [by apply sublist_skip | by apply sublist_cons].
Qed.

Lemma col_keep c p df :
  (at_col c <$> rows (keep p df)) `sublist_of` (at_col c <$> rows df).
Proof. simpl. apply fmap_sublist, sublist_bool_filter. Qed.

Lemma col_assign_ne c c' F df :
  c' <> c -> at_col c <$> rows (assign c' F df) = at_col c <$> rows df.
Proof.
  intros Hne. simpl. rewrite <- list_fmap_compose.
  apply fmap_ext_in. intros r _. simpl. by apply at_col_insert_ne.
Qed.

Lemma col_assign_eq c F df :
  at_col c <$> rows (assign c F df) = F <$> rows df.
Proof.
  simpl. rewrite <- list_fmap_compose.
  apply fmap_ext_in. intros r _. simpl. by apply at_col_insert_eq.
Qed.

Lemma col_imputed_ne c c' df :
  c' <> c -> at_col c <$> rows (imputed c' df) = at_col c <$> rows df.
Proof.
  intros Hne. unfold imputed. destruct (has_col df c'); [|done].
  simpl. rewrite <- list_fmap_compose.
  apply fmap_ext_in. intros r _. simpl. by apply at_col_insert_ne.
Qed.

Lemma col_imputed_eq c df :
  has_col df c = true ->
  at_col c <$> rows (imputed c df) = filled <$> (at_col c <$> rows df).
Proof.
  intros Hc. unfold imputed. rewrite Hc. simpl.
  rewrite <- !list_fmap_compose.
  apply fmap_ext_in. intros r _. simpl. by rewrite at_col_insert_eq.
Qed.

Lemma col_geo_filtered c df :
  (at_col c <$> rows (geo_filtered df)) `sublist_of` (at_col c <$> rows df).
Proof.
  unfold geo_filtered. destruct (_ && _); [apply col_keep | done].
Qed.

Lemma has_col_columns df df' c :
  columns df' = columns df -> has_col df' c = has_col df c.
Proof. unfold has_col. by intros ->. Qed.

Lemma col_converted_opt_ne parse c col df N :
  converted_opt parse col df = Ok N ->
  col <> Some c ->
  at_col c <$> rows N = at_col c <$> rows df.
Proof.
  destruct col as [c'|]; [|by intros [= <-]].
  simpl. intros H Hne.
  apply converted_inv in H as (zone & instants & _ & L & ->).
  apply with_datetime_other_col; [congruence | done].
Qed.

(** A column the pipeline does not write is, in the table before the bounds
    filter and in the cleaned table, a subsequence of the same column of
    the table the geo stage returns. *)
Lemma col_time_stage start_c end_c G c :
  c <> DURATION ->
  (at_col c <$> rows (time_stage start_c end_c G))
    `sublist_of` (at_col c <$> rows G).
Proof.
  intros Hne. unfold time_stage.
  destruct start_c as [sc|]; [destruct end_c as [ec|] |];
    rewrite col_assign_ne by (by apply not_eq_sym); try done.
  apply col_keep.
Qed.

Lemma col_cleaned start_c end_c G c :
  c <> DURATION ->
  (at_col c <$> rows (cleaned start_c end_c G))
    `sublist_of` (at_col c <$> rows G).
Proof.
  intros Hne. unfold cleaned.
  etrans; [apply col_keep | by apply col_time_stage].
Qed.

Lemma col_geo_stage_ne N c :
  c <> "start_station_name" -> c <> "end_station_name" ->
  (at_col c <$> rows (geo_stage N)) `sublist_of` (at_col c <$> rows N).
Proof.
  intros H1 H2. unfold geo_stage.
  etrans; [apply col_geo_filtered |].
  by rewrite !col_imputed_ne by (by apply not_eq_sym).
Qed.

Lemma col_geo_stage_station N c :
  c = "start_station_name" \/ c = "end_station_name" ->
  has_col N c = true ->
  (at_col c <$> rows (geo_stage N))
    `sublist_of` (filled <$> (at_col c <$> rows N)).
Proof.
  intros Hc Hhas. unfold geo_stage.
  etrans; [apply col_geo_filtered |].
  destruct Hc as [-> | ->].
  - rewrite col_imputed_ne by discriminate.
    by rewrite col_imputed_eq.
  - rewrite col_imputed_eq.
    + by rewrite col_imputed_ne by discriminate.
    + by rewrite (has_col_columns N) by apply columns_imputed.
Qed.

Section Columns.
Context (lower : string -> string) (parse : parser).
Context (Hlower : lowers_ascii lower).

Lemma resolved_not_label raw c :
  c ∈ reserved ->
  QN.started_at (QN.infer_cols lower raw) <> Some c
  /\ QN.ended_at (QN.infer_cols lower raw) <> Some c.
Proof.
  intros Hc. split; intros H.
  - by apply (start_resolved lower Hlower) in H as (_ & ? & _).
  - by apply (end_resolved lower Hlower) in H as (_ & ? & _).
Qed.

Lemma col_conversions raw N c :
  conversions lower parse raw = Ok N ->
  QN.started_at (QN.infer_cols lower raw) <> Some c ->
  QN.ended_at (QN.infer_cols lower raw) <> Some c ->
  at_col c <$> rows N = at_col c <$> rows raw.
Proof.
  unfold conversions. intros H Hs He.
  apply bind_Ok_inv in H as (N1 & H1 & H2).
  rewrite (col_converted_opt_ne parse c _ N1 N H2 He).
  by apply (col_converted_opt_ne parse c _ raw N1 H1).
Qed.

Lemma col_conversions_label raw N c :
  conversions lower parse raw = Ok N ->
  c ∈ reserved ->
  at_col c <$> rows N = at_col c <$> rows raw.
Proof.
  intros H Hc. destruct (resolved_not_label raw c Hc).
  by apply col_conversions.
Qed.

End Columns.

(** ** The cleaning pipeline: accounting and columns *)

Lemma duration_partition (c : cell) :
  is_float_cell c = true ->
  Z.b2z (non_positive c) + Z.b2z (sub_minute c) + Z.b2z (over_a_day c)
  + Z.b2z (missing_duration c) + Z.b2z (in_bounds c) = 1.
Proof.
  destruct c as [| | | |x|]; try done. intros _.
  unfold non_positive, sub_minute, over_a_day, in_bounds, missing_duration,
    num_test, Qlt_bool, Qle_bool. simpl.
  destruct x as [n d]. simpl.
  repeat match goal with
         | |- context [(?a <=? ?b)] => destruct (Z.leb_spec a b)
         end; simpl; lia.
Qed.

Lemma count_partition {A} (p1 p2 p3 p4 p5 : A -> bool) (l : list A) :
  (forall x, x ∈ l ->
     Z.b2z (p1 x) + Z.b2z (p2 x) + Z.b2z (p3 x) + Z.b2z (p4 x)
     + Z.b2z (p5 x) = 1) ->
  Z.of_nat (length (List.filter p1 l)) + Z.of_nat (length (List.filter p2 l))
  + Z.of_nat (length (List.filter p3 l)) + Z.of_nat (length (List.filter p4 l))
  + Z.of_nat (length (List.filter p5 l))
  = Z.of_nat (length l).
Proof.
  induction l as [|x l IH]; intros H; [done |].
  assert (forall y, y ∈ l ->
            Z.b2z (p1 y) + Z.b2z (p2 y) + Z.b2z (p3 y) + Z.b2z (p4 y)
            + Z.b2z (p5 y) = 1) as Hl by (intros y Hy; apply H; by right).
  specialize (IH Hl). specialize (H x (list_elem_of_here x l)).
  simpl.
  destruct (p1 x), (p2 x), (p3 x), (p4 x), (p5 x); simpl in *; lia.
Qed.

Lemma time_stage_row_origin start_c end_c G r :
  r ∈ rows (time_stage start_c end_c G) ->
  exists r0 v, r0 ∈ rows G /\ r = <[DURATION := v]> r0.
Proof.
  unfold time_stage.
  destruct start_c as [sc|]; [destruct end_c as [ec|] |];
    simpl; intros Hr; apply list_elem_of_fmap in Hr as (r0 & -> & Hr0);
    try (apply elem_of_bool_filter in Hr0 as [Hr0 _]); eauto.
Qed.

Section Accounting.
Context (lower : string -> string) (parse : parser).
Context (Hlower : lowers_ascii lower).

(** X1. Once the table before the bounds filter is there, the run returns,
    and the rows the bounds filter drops are the rows the three diagnostic
    counters count together with the rows whose duration is missing: no
    row is counted twice and none is left out. *)
Theorem bounds_drop_accounting (raw : DataFrame) (g n : Z) (T : DataFrame) :
  QN.before_bounds lower parse raw = Ok (g, n, T) ->
  exists clean log,
    QN.prepare_data lower parse raw = Ok (raw, clean, log) /\
    QN.dropped_dur log
    = QN.dur_le_0 log + QN.dur_lt_1 log + QN.dur_gt_24h log
      + count_rows (fun r => missing_duration (duration r)) T /\
    QN.dur_le_0 log + QN.dur_lt_1 log + QN.dur_gt_24h log
    <= QN.dropped_dur log.
Proof.
  intros Hbb.
  apply (prepare_data_after_bounds lower parse Hlower) in Hbb
    as (N & HN & -> & _ & Hrun).
  eexists _, _. split; [exact Hrun |].
  cbn [QN.dropped_dur QN.dur_le_0 QN.dur_lt_1 QN.dur_gt_24h log_of].
  set (sc := QN.started_at (QN.infer_cols lower raw)).
  set (ec := QN.ended_at (QN.infer_cols lower raw)).
  pose proof (count_partition
                (fun r => non_positive (duration r))
                (fun r => sub_minute (duration r))
                (fun r => over_a_day (duration r))
                (fun r => missing_duration (duration r))
                (fun r => in_bounds (duration r))
                (rows (time_stage sc ec (geo_stage N)))) as Hp.
  assert (forall r, r ∈ rows (time_stage sc ec (geo_stage N)) ->
            Z.b2z (non_positive (duration r)) + Z.b2z (sub_minute (duration r))
            + Z.b2z (over_a_day (duration r))
            + Z.b2z (missing_duration (duration r))
            + Z.b2z (in_bounds (duration r)) = 1) as Hone.
  { intros r Hr. apply duration_partition.
    by apply (proj2 (time_stage_float sc ec (geo_stage N))). }
  specialize (Hp Hone).
  unfold count_rows, len, cleaned, keep. cbn [rows]. lia.
Qed.

(** X2. A station-name column of the raw table has no missing value in the
    table a run returns: its cells are, in order, cells of the raw column
    with every missing one replaced by ["Missing"] and the others
    unchanged. *)
Theorem station_names_imputed (raw raw' clean : DataFrame)
    (log : QN.cleaning_log) (c : string) :
  c = "start_station_name" \/ c = "end_station_name" ->
  has_col raw c = true ->
  QN.prepare_data lower parse raw = Ok (raw', clean, log) ->
  (at_col c <$> rows clean)
    `sublist_of` (filled <$> (at_col c <$> rows raw)) /\
  forall r, r ∈ rows clean -> notna (at_col c r) = true.
Proof.
  intros Hc Hhas Hrun.
  apply (prepare_data_inv lower parse Hlower) in Hrun
    as (N & HN & _ & _ & -> & _).
  assert (c ∈ reserved) as Hres
    by (unfold reserved; destruct Hc as [-> | ->];
        [do 4 right; left | do 5 right; left]).
  assert (c <> DURATION) as HD
    by (unfold DURATION; destruct Hc as [-> | ->]; discriminate).
  pose proof (col_conversions_label lower parse Hlower raw N c HN Hres)
    as Hcol.
  apply (conversions_facts lower parse Hlower) in HN as (HC & _).
  assert ((at_col c <$> rows (cleaned
             (QN.started_at (QN.infer_cols lower raw))
             (QN.ended_at (QN.infer_cols lower raw)) (geo_stage N)))
            `sublist_of` (filled <$> (at_col c <$> rows raw))) as Hsub.
  { rewrite <- Hcol. etrans; [by apply col_cleaned |].
    apply col_geo_stage_station; [done |].
    by rewrite (has_col_columns raw). }
  split; [exact Hsub |].
  intros r Hr.
  assert (at_col c r ∈ filled <$> (at_col c <$> rows raw)) as Hin.
  { apply (sublist_subseteq _ _ Hsub). apply list_elem_of_fmap. eauto. }
  apply list_elem_of_fmap in Hin as (x & -> & _).
  unfold filled. by destruct x.
Qed.

(** X3. For a run that returns: when the raw table has both [end_lat] and
    [end_lng], [dropped_geo] is the number of raw rows with a missing
    coordinate and every cleaned row has both coordinates; when it lacks
    one of the two columns the geo filter drops nothing, whatever the other
    column holds. *)
Theorem geo_completeness (raw raw' clean : DataFrame)
    (log : QN.cleaning_log) :
  QN.prepare_data lower parse raw = Ok (raw', clean, log) ->
  (has_col raw "end_lat" = true -> has_col raw "end_lng" = true ->
   QN.dropped_geo log = count_rows (fun r => negb (geo_complete r)) raw /\
   forall r, r ∈ rows clean ->
     notna (at_col "end_lat" r) = true /\
     notna (at_col "end_lng" r) = true) /\
  (has_col raw "end_lat" = false \/ has_col raw "end_lng" = false ->
   QN.dropped_geo log = 0).
Proof.
  intros Hrun.
  apply (prepare_data_inv lower parse Hlower) in Hrun
    as (N & HN & _ & _ & -> & ->).
  pose proof (conversions_facts lower parse Hlower raw N HN)
    as (HC & HL & _).
  set (M := imputed "end_station_name" (imputed "start_station_name" N)).
  assert (forall c, has_col M c = has_col raw c) as Hhc.
  { intros c. unfold M. rewrite (has_col_columns raw); [done |].
    by rewrite !columns_imputed. }
  assert (len M = len raw) as HlM
    by (unfold M; by rewrite !len_imputed).
  cbn [QN.dropped_geo log_of]. split.
  - intros Hlat Hlng.
    assert (forall c, c = "end_lat" \/ c = "end_lng" ->
              at_col c <$> rows M = at_col c <$> rows raw) as Hcol.
    { intros c Hc.
      assert (c ∈ reserved) as Hres
        by (unfold reserved; destruct Hc as [-> | ->];
            [do 6 right; left | do 7 right; left]).
      unfold M. rewrite !col_imputed_ne
        by (destruct Hc as [-> | ->]; discriminate).
      by apply (col_conversions_label lower parse Hlower). }
    assert (rows (geo_stage N) = List.filter geo_complete (rows M)) as Hg.
    { unfold geo_stage, geo_filtered. fold M. by rewrite !Hhc, Hlat, Hlng. }
    split.
    + unfold len, count_rows in *. rewrite Hg.
      pose proof (filter_split_length geo_complete (rows M)) as Hsplit.
      assert (Z.of_nat (length (List.filter (fun r => negb (geo_complete r))
                                  (rows M)))
              = Z.of_nat (length (List.filter (fun r => negb (geo_complete r))
                                    (rows raw)))) as Hsame.
      { rewrite <- !mask_sum_fmap. f_equal. unfold geo_complete.
        rewrite <- !(zip_with_fmap_diag
                       (fun a b => negb (notna a && notna b))
                       (at_col "end_lat") (at_col "end_lng")).
        by rewrite !Hcol by auto. }
      lia.
    + intros r Hr. apply elem_of_bool_filter in Hr as [Hr _].
      apply time_stage_row_origin in Hr as (r0 & v & Hr0 & ->).
      rewrite Hg in Hr0. apply elem_of_bool_filter in Hr0 as [_ Hgeo].
      unfold geo_complete in Hgeo. apply andb_true_iff in Hgeo.
      by rewrite !at_col_insert_ne by (unfold DURATION; discriminate).
  - intros Hno.
    assert (geo_stage N = M) as ->.
    { unfold geo_stage, geo_filtered. fold M. rewrite !Hhc.
      destruct Hno as [-> | ->]; [done | by rewrite andb_false_r]. }
    lia.
Qed.

(** X4. The table a run returns has the columns of the raw table, in
    order, with [trip_duration_min] appended when the raw table has no such
    column; and a column that is neither a resolved time column, nor a
    station-name column, nor [trip_duration_min] keeps its raw cells: the
    cleaned column is a subsequence of the raw one. *)
Theorem cleaning_preserves_other_columns (raw raw' clean : DataFrame)
    (log : QN.cleaning_log) :
  QN.prepare_data lower parse raw = Ok (raw', clean, log) ->
  columns clean
  = (if has_col raw "trip_duration_min" then columns raw
     else (columns raw ++ ["trip_duration_min"])%list) /\
  forall c,
    c <> "trip_duration_min" ->
    c <> "start_station_name" -> c <> "end_station_name" ->
    QN.start_col log <> Some c -> QN.end_col log <> Some c ->
    (at_col c <$> rows clean) `sublist_of` (at_col c <$> rows raw).
Proof.
  intros Hrun.
  apply (prepare_data_inv lower parse Hlower) in Hrun
    as (N & HN & _ & _ & -> & ->).
  pose proof (conversions_facts lower parse Hlower raw N HN) as (HC & _).
  cbn [QN.start_col QN.end_col log_of]. split.
  - unfold cleaned, time_stage.
    destruct (QN.started_at (QN.infer_cols lower raw)) as [sc|];
      [destruct (QN.ended_at (QN.infer_cols lower raw)) as [ec|] |];
      unfold keep, assign, has_col; cbn [columns];
      by rewrite !columns_geo_stage, HC.
  - intros c HD H1 H2 Hs He.
    rewrite <- (col_conversions lower parse raw N c HN Hs He).
    etrans; [by apply col_cleaned |]. by apply col_geo_stage_ne.
Qed.

End Accounting.

(** ** The prepared table and the pages that read it *)

Lemma filter_fmap {A B} (p : B -> bool) (f : A -> B) (l : list A) :
  List.filter p (f <$> l) = f <$> List.filter (fun x => p (f x)) l.
Proof.
  induction l as [|x l IH]; csimpl; [done |].
  destruct (p (f x)); csimpl; by rewrite IH.
Qed.

Lemma filter_sublist_mono {A} (p : A -> bool) (l1 l2 : list A) :
  l1 `sublist_of` l2 -> List.filter p l1 `sublist_of` List.filter p l2.
Proof.
  induction 1 as [|x l1 l2 _ IH|x l1 l2 _ IH]; simpl; [done | |].
  - destruct (p x); [by apply sublist_skip | done].
  - destruct (p x); [by apply sublist_cons | done].
Qed.

Lemma filter_all_length {A} (p : A -> bool) (l : list A) :
  length (List.filter p l) = length l -> List.filter p l = l.
Proof.
  induction l as [|x l IH]; simpl; [done |].
  destruct (p x); simpl; intros H.
  - f_equal. apply IH. lia.
  - pose proof (sublist_length _ _ (sublist_bool_filter p l)). lia.
Qed.

Lemma series_loc_fmap (p : cell -> bool) (s : Series) :
  series_loc s (p <$> values s)
  = Ok {| values := List.filter p (values s); tz := tz s |}.
Proof.
  unfold series_loc. rewrite length_fmap, Nat.eqb_refl.
  by rewrite filter_by_mask.
Qed.

Lemma compare_scalar_cells op (s : Series) k :
  (forall c, c ∈ values s -> is_float_cell c = true) ->
  compare_scalar op s k = Ok (num_test (fun x => op x k) <$> values s).
Proof.
  intros Hf. unfold compare_scalar.
  rewrite <- (list_fmap_id (values s)) at 1.
  rewrite (mapM_fmap_Ok as_float id
             (fun c => match c with Num x => Some x | _ => None end)).
  - rewrite bind_Ok. unfold mret, result_ret. f_equal.
    rewrite <- list_fmap_compose. apply fmap_ext_in. intros c Hc.
    simpl. specialize (Hf c Hc). by destruct c.
  - intros c Hc. specialize (Hf c Hc). by destruct c.
Qed.

Lemma in_bounds_Num (c : cell) :
  is_float_cell c = true -> in_bounds c = true ->
  exists d, c = Num d /\ (1 <= d)%Q /\ (d <= 1440)%Q.
Proof.
  destruct c as [| | | |x|]; try done. intros _ H. simpl in H.
  apply andb_true_iff in H as [H1 H2]. apply Qle_bool_iff in H1, H2.
  by exists x.
Qed.

(** The float duration of a span that is not positive is not positive. *)
Lemma nearest_even_ceil x : Float64.nearest_even x <= Qfloor x + 1.
Proof.
  unfold Float64.nearest_even.
  destruct (_ ?= _)%Q; [destruct (Z.even _) | |]; lia.
Qed.

Lemma round_nonpos x : (x <= 0)%Q -> (Float64.round x <= 0)%Q.
Proof.
  intros H. unfold Float64.round.
  destruct (Qeq_bool x 0) eqn:E; [apply Qle_refl |].
  assert (x < 0)%Q as Hlt.
  { apply Qle_lteq in H as [H | H]; [done |].
    apply Qeq_bool_iff in H. congruence. }
  set (e := Float64.ilog2 (Qabs x) - 52).
  rewrite Qred_correct.
  assert (Float64.nearest_even (x / Float64.pow2 e) <= 0) as Hn.
  { pose proof (nearest_even_ceil (x / Float64.pow2 e)).
    assert (Qfloor (x / Float64.pow2 e) < 0); [| lia].
    apply Z.lt_nge. intros Hge.
    assert (0 <= x / Float64.pow2 e)%Q as Hq.
    { apply Qle_trans with (inject_Z (Qfloor (x / Float64.pow2 e)));
        [| apply Qfloor_le].
      change 0%Q with (inject_Z 0). by rewrite <- Zle_Qle. }
    assert (0 <= x)%Q as Hx.
    { apply (Qmult_le_r _ _ (/ Float64.pow2 e)).
      - apply Qinv_lt_0_compat, pow2_pos.
      - by rewrite Qmult_0_l. }
    apply (Qlt_irrefl 0). by apply Qle_lt_trans with x. }
  assert (inject_Z (Float64.nearest_even (x / Float64.pow2 e)) <= 0)%Q as Hq
    by (change 0%Q with (inject_Z 0); by rewrite <- Zle_Qle).
  pose proof (pow2_pos e) as Hp.
  apply Qlt_le_weak in Hp.
  pose proof (Qmult_le_compat_r _ _ _ Hq Hp) as Hm.
  by rewrite Qmult_0_l in Hm.
Qed.

Lemma float_minutes_nonpos ns : ns <= 0 -> (float_minutes ns <= 0)%Q.
Proof.
  intros H. unfold float_minutes, seconds_of, Float64.div, Float64.of_int.
  assert (forall x (k : positive),
            (x <= 0)%Q -> (x / inject_Z (Z.pos k) <= 0)%Q) as Hdiv.
  { intros x k Hx. apply Qle_shift_div_r; [reflexivity |].
    by rewrite Qmult_0_l. }
  apply round_nonpos. apply (Hdiv _ 60%positive).
  apply round_nonpos. apply (Hdiv _ 1000000000%positive).
  apply round_nonpos. change 0%Q with (inject_Z 0). by rewrite <- Zle_Qle.
Qed.

(** A duration within the bounds comes from two parsed timestamps, the
    end after the start. *)
Lemma in_bounds_duration_parsed sc ec r :
  in_bounds (duration_of sc ec r) = true ->
  both_parsed sc ec r = true /\ incoherent sc ec r = false.
Proof.
  unfold duration_of, duration_cell, both_parsed, incoherent.
  destruct (at_col ec r) as [| | | | |e]; try done.
  destruct (at_col sc r) as [| | | | |s]; try done.
  simpl. intros H. split; [done |].
  apply andb_true_iff in H as [H _]. apply Qle_bool_iff in H.
  apply Z.ltb_ge. apply Z.le_ngt. intros Hlt.
  pose proof (float_minutes_nonpos (e - s)) as Hn.
  assert (float_minutes (e - s) <= 0)%Q as Hle by (apply Hn; lia).
  assert (1 <= 0)%Q as Habs by (by apply Qle_trans with (float_minutes (e - s))).
  unfold Qle in Habs. simpl in Habs. lia.
Qed.

Lemma rows_imputed c df :
  rows (imputed c df) = impute_row df c <$> rows df.
Proof.
  unfold imputed, impute_row. destruct (has_col df c); simpl.
  - done.
  - by rewrite list_fmap_id.
Qed.

Lemma impute_row_other df c c' r :
  c <> c' -> at_col c' (impute_row df c r) = at_col c' r.
Proof.
  intros Hne. unfold impute_row. destruct (has_col df c); [|done].
  by apply at_col_insert_ne.
Qed.

Lemma duration_of_imputed (df df' : DataFrame) sc ec r :
  sc ∉ reserved -> ec ∉ reserved ->
  duration_of sc ec
    (impute_row df' "end_station_name"
       (impute_row df "start_station_name" r))
  = duration_of sc ec r.
Proof.
  intros Hs He. destruct station_labels_reserved as (H1 & H2 & _).
  unfold duration_of.
  by rewrite !impute_row_other by (by apply not_eq_sym, not_reserved_ne).
Qed.

Lemma rows_prepared sc ec N :
  rows (prepared sc ec N)
  = derive sc ec (tzs N !! sc) <$> List.filter (both_parsed sc ec) (rows N).
Proof. unfold prepared. simpl. by rewrite <- !list_fmap_compose. Qed.

Lemma has_col_prepared sc ec N c :
  has_col (prepared sc ec N) c
  = has_col N c
    || bool_decide (c ∈ ["trip_duration_min"; "day_of_week"; "start_hour"]).
Proof.
  unfold prepared. rewrite !has_col_assign.
  rewrite (has_col_columns N (keep (both_parsed sc ec) N)) by done.
  rewrite <- !orb_assoc. f_equal.
  apply eq_true_iff_eq.
  rewrite !orb_true_iff, !bool_decide_eq_true, !elem_of_cons, elem_of_nil.
  tauto.
Qed.

(** What a row of the prepared table holds. *)
Lemma prepared_row sc ec N r :
  sc ∉ reserved -> ec ∉ reserved ->
  datetime_col N sc -> datetime_col N ec ->
  r ∈ rows (prepared sc ec N) ->
  exists s e,
    r !! sc = Some (Timestamp s) /\ r !! ec = Some (Timestamp e) /\
    r !! "trip_duration_min" = Some (Num (float_minutes (e - s))) /\
    r !! "day_of_week"
    = Some (Str (day_name_of (local_time (tzs N !! sc) s))) /\
    r !! "start_hour" = Some (Int (hour_of (local_time (tzs N !! sc) s))).
Proof.
  intros Fs Fe Ds De Hr. rewrite rows_prepared in Hr.
  apply list_elem_of_fmap in Hr as (r0 & -> & Hr0).
  apply elem_of_bool_filter in Hr0 as [Hr0 Hb].
  apply andb_true_iff in Hb as [Hb1 Hb2].
  destruct (parsed_cell sc r0 (proj2 Ds r0 Hr0) Hb1) as (s & Es).
  destruct (parsed_cell ec r0 (proj2 De r0 Hr0) Hb2) as (e & Ee).
  destruct (derive_lookups sc ec (tzs N !! sc) r0)
    as (L1 & L2 & L3 & L4 & L5); [done | done |].
  exists s, e. rewrite L1, L2. fold DURATION. rewrite L3, L4, L5.
  unfold duration_of, duration_cell.
  rewrite (proj2 (at_col_Timestamp sc r0 s) Es).
  rewrite (proj2 (at_col_Timestamp ec r0 e) Ee). done.
Qed.

Lemma hour_of_range (t : Z) : 0 <= hour_of t <= 23.
Proof.
  unfold hour_of. pose proof (Z.mod_pos_bound (t / NS_PER_HOUR) 24). lia.
Qed.

Section PreparedTable.
Context (lower : string -> string) (parse : parser).
Context (Hlower : lowers_ascii lower).

Lemma load_prepared_cols raw df cols :
  utils.load_prepared lower parse raw = Ok (df, cols) ->
  cols = utils.infer_cols lower raw.
Proof.
  intros Hrun. unfold utils.load_prepared in Hrun.
  destruct (utils.start_dt _) as [sc|]; [|by injection Hrun as _ <-].
  destruct (utils.end_dt _) as [ec|]; [|by injection Hrun as _ <-].
  repeat (apply bind_Ok_inv in Hrun as (? & _ & Hrun)).
  by injection Hrun as _ <-.
Qed.

Lemma load_prepared_unresolved raw df cols :
  utils.load_prepared lower parse raw = Ok (df, cols) ->
  utils.start_dt (utils.infer_cols lower raw) = None
  \/ utils.end_dt (utils.infer_cols lower raw) = None ->
  df = raw.
Proof.
  intros Hrun Hd. unfold utils.load_prepared in Hrun.
  destruct Hd as [Hd | Hd]; rewrite Hd in Hrun.
  - by injection Hrun as <-.
  - destruct (utils.start_dt _); by injection Hrun as <-.
Qed.

(** With both time columns resolved, a call of [load_prepared] that
    returns went through the two conversions and returns the prepared
    table. *)
Lemma load_prepared_inv raw df cols sc ec :
  utils.start_dt (utils.infer_cols lower raw) = Some sc ->
  utils.end_dt (utils.infer_cols lower raw) = Some ec ->
  utils.load_prepared lower parse raw = Ok (df, cols) ->
  exists N,
    conversions lower parse raw = Ok N /\
    resolved_pair raw sc ec /\
    columns N = columns raw /\
    datetime_col N sc /\ datetime_col N ec /\
    df = prepared sc ec N.
Proof.
  intros Hs He Hrun.
  rewrite (load_prepared_resolved lower parse Hlower raw sc ec Hs He) in Hrun.
  pose proof (utils_pair lower Hlower raw sc ec Hs He) as Hp.
  apply bind_Ok_inv in Hrun as (N1 & E1 & Hrun).
  apply bind_Ok_inv in Hrun as (N & E2 & Hrun).
  destruct (same_awareness N sc ec); [|done].
  destruct (differences_fit _ _ _); [|done].
  injection Hrun as <- _.
  assert (conversions lower parse raw = Ok N) as HN.
  { unfold conversions.
    change (QN.started_at (QN.infer_cols lower raw))
      with (utils.start_dt (utils.infer_cols lower raw)).
    change (QN.ended_at (QN.infer_cols lower raw))
      with (utils.end_dt (utils.infer_cols lower raw)).
    rewrite Hs, He. simpl. by rewrite E1, bind_Ok. }
  exists N. split; [done |]. split; [done |].
  apply (conversions_facts lower parse Hlower) in HN as (HC & _ & Ds & De).
  split; [done |]. split; [by apply Ds |]. split; [by apply De |]. done.
Qed.

(** The durations of the cleaned table, read off the rows of the geo
    stage. *)
Lemma cleaned_durations sc ec G :
  duration <$> rows (cleaned (Some sc) (Some ec) G)
  = duration_of sc ec
      <$> List.filter (fun r => in_bounds (duration_of sc ec r)) (rows G).
Proof.
  unfold cleaned, time_stage. simpl.
  rewrite filter_fmap, <- list_fmap_compose.
  rewrite (filter_ext_in _ (fun r => in_bounds (duration_of sc ec r)))
    by (intros r _; unfold duration; by rewrite at_col_insert_eq).
  rewrite filter_filter_implied.
  2:{ intros r Hr. apply in_bounds_duration_parsed in Hr as [_ Hr].
      unfold coherent. by rewrite Hr. }
  apply fmap_ext_in. intros r _. simpl. unfold duration.
  by rewrite at_col_insert_eq.
Qed.

(** X5. With both time columns resolved and both pages running to their
    tables: the durations page 3 explores (the prepared durations it keeps
    between 1 and 1440 minutes) all lie in that range, the selection does
    not raise, and the durations of the cleaned table are a subsequence of
    them; the two sequences are equal when the geo filter dropped no
    row. *)
Theorem explored_durations_match_cleaning (raw df raw' clean : DataFrame)
    (cols : utils.cols) (log : QN.cleaning_log) (sc ec : string) :
  utils.start_dt (utils.infer_cols lower raw) = Some sc ->
  utils.end_dt (utils.infer_cols lower raw) = Some ec ->
  utils.load_prepared lower parse raw = Ok (df, cols) ->
  QN.prepare_data lower parse raw = Ok (raw', clean, log) ->
  exists s,
    Variables_creees.explored df "trip_duration_min" = Ok s /\
    (forall c, c ∈ values s ->
       exists d, c = Num d /\ (1 <= d)%Q /\ (d <= 1440)%Q) /\
    (duration <$> rows clean) `sublist_of` values s /\
    (QN.dropped_geo log = 0 -> duration <$> rows clean = values s).
Proof.
  intros Hs He Hload Hrun.
  apply (load_prepared_inv raw df cols sc ec Hs He) in Hload
    as (N & HN & [Is Ie Fs Fe Hne] & HC & Ds & De & ->).
  apply (prepare_data_inv lower parse Hlower) in Hrun
    as (N' & HN' & _ & _ & -> & ->).
  assert (N' = N) as -> by congruence.
  change (QN.started_at (QN.infer_cols lower raw))
    with (utils.start_dt (utils.infer_cols lower raw)).
  change (QN.ended_at (QN.infer_cols lower raw))
    with (utils.end_dt (utils.infer_cols lower raw)).
  rewrite Hs, He.
  set (l2 := rows N).
  set (P := fun r => in_bounds (duration_of sc ec r)).
  (* the series page 3 explores *)
  assert (exists z,
            Variables_creees.explored (prepared sc ec N) "trip_duration_min"
            = Ok {| values := duration_of sc ec <$> List.filter P l2;
                    tz := z |}) as (z & Hexp).
  { unfold Variables_creees.explored.
    rewrite getitem_has.
    2:{ rewrite has_col_prepared. apply orb_true_iff. right.
        apply bool_decide_eq_true. left. }
    rewrite bind_Ok. simpl String.eqb. cbv iota.
    assert (at_col "trip_duration_min" <$> rows (prepared sc ec N)
            = duration_of sc ec <$> List.filter (both_parsed sc ec) l2) as ->.
    { unfold prepared. rewrite !col_assign_ne by discriminate.
      by rewrite col_assign_eq. }
    set (s0 := series_dropna _).
    assert (forall c, c ∈ values s0 -> is_float_cell c = true) as Hfloat.
    { intros c Hc. subst s0. unfold series_dropna in Hc. simpl in Hc.
      apply elem_of_bool_filter in Hc as [Hc _].
      apply list_elem_of_fmap in Hc as (r & -> & _).
      apply duration_cell_float. }
    unfold series_ge, series_le.
    rewrite !compare_scalar_cells by done. rewrite !bind_Ok.
    unfold mask_and. rewrite zip_with_fmap_diag.
    rewrite (fmap_ext_in _ in_bounds) by (intros c _; apply num_test_and).
    rewrite series_loc_fmap. eexists. f_equal. f_equal.
    subst s0. unfold series_dropna. cbn [values].
    rewrite filter_filter_implied
      by (intros c; unfold notna; by destruct c).
    rewrite filter_fmap. f_equal.
    apply filter_filter_implied. intros r Hr.
    by apply in_bounds_duration_parsed in Hr as [Hr _]. }
  (* the durations of the cleaned table *)
  set (I := fun r => impute_row (imputed "start_station_name" N)
                       "end_station_name"
                       (impute_row N "start_station_name" r)).
  assert (rows (imputed "end_station_name" (imputed "start_station_name" N))
          = I <$> l2) as Hnorm.
  { rewrite !rows_imputed, <- list_fmap_compose. reflexivity. }
  assert (duration_of sc ec <$> List.filter P (I <$> l2)
          = duration_of sc ec <$> List.filter P l2) as Hsame.
  { rewrite filter_fmap, <- list_fmap_compose.
    rewrite (filter_ext_in _ P)
      by (intros r _; unfold P, I; by rewrite duration_of_imputed).
    apply fmap_ext_in. intros r _. unfold I. simpl.
    by apply duration_of_imputed. }
  assert (rows (geo_stage N) `sublist_of` (I <$> l2)) as Hsub.
  { rewrite <- Hnorm. unfold geo_stage, geo_filtered.
    destruct (_ && _); [apply sublist_bool_filter | done]. }
  eexists. split; [exact Hexp |]. cbn [values].
  rewrite cleaned_durations. fold P.
  split; [|split].
  - intros c Hc. apply list_elem_of_fmap in Hc as (r & -> & Hr).
    apply elem_of_bool_filter in Hr as [_ Hr].
    apply in_bounds_Num; [apply duration_cell_float | done].
  - rewrite <- Hsame. by apply fmap_sublist, filter_sublist_mono.
  - cbn [QN.dropped_geo log_of]. intros Hzero.
    rewrite <- Hsame. do 2 f_equal.
    rewrite <- Hnorm. unfold geo_stage, geo_filtered in *.
    pose proof (conversions_facts lower parse Hlower raw N HN)
      as (_ & HL & _).
    pose proof (len_imputed "end_station_name"
                  (imputed "start_station_name" N)) as L1.
    pose proof (len_imputed "start_station_name" N) as L2.
    destruct (_ && _); [|done].
    apply filter_all_length. unfold len in *. simpl in Hzero. lia.
Qed.

Lemma start_alias_not_slot raw sc :
  utils.start_dt (utils.infer_cols lower raw) = Some sc -> sc <> "time_slot".
Proof.
  intros H ->.
  apply (start_resolved lower Hlower) in H as (_ & _ & a & Ha & Hl).
  rewrite (Hlower "time_slot") in Hl by reflexivity.
  rewrite (lower_alias lower Hlower a) in Hl
    by (apply elem_of_app; by left).
  unfold start_aliases in Ha.
  repeat (apply elem_of_cons in Ha as [-> | Ha]; [discriminate Hl |]).
  by apply elem_of_nil in Ha.
Qed.

(** X6. With both time columns resolved, page 4 gives every row of the
    table [load_prepared] returned a time slot: [pd.cut] does not raise, no
    row is lost, the start hour of a row, read on the clock of the zone of
    the start column, is between 0 and 23, and its slot is the label of the
    one bucket that holds that hour. *)
Theorem time_slot_total (raw df : DataFrame) (cols : utils.cols)
    (sc ec : string) :
  utils.start_dt (utils.infer_cols lower raw) = Some sc ->
  utils.end_dt (utils.infer_cols lower raw) = Some ec ->
  utils.load_prepared lower parse raw = Ok (df, cols) ->
  exists df_h,
    Analyses_et_graphiques.time_slot df = Ok df_h /\
    length (rows df_h) = length (rows df) /\
    forall r, r ∈ rows df_h ->
      exists s b,
        r !! sc = Some (Timestamp s) /\
        r !! "start_hour"
        = Some (Int (hour_of (local_time (tzs df !! sc) s))) /\
        0 <= hour_of (local_time (tzs df !! sc) s) <= 23 /\
        b ∈ hour_buckets /\
        in_bucket (hour_of (local_time (tzs df !! sc) s)) b /\
        r !! "time_slot" = Some (Str b.2).
Proof.
  intros Hs He Hload.
  apply (load_prepared_inv raw df cols sc ec Hs He) in Hload
    as (N & HN & [Is Ie Fs Fe Hne] & HC & Ds & De & ->).
  assert (tzs (prepared sc ec N) !! sc = tzs N !! sc) as Ez.
  { unfold prepared. rewrite !tzs_assign_ne; [done | |  |].
    - apply not_eq_sym, not_reserved_ne; [done |].
      unfold reserved. do 1 right. left.
    - apply not_eq_sym, not_reserved_ne; [done |].
      unfold reserved. do 2 right. left.
    - apply not_eq_sym, not_reserved_ne; [done |].
      unfold reserved. do 3 right. left. }
  rewrite Ez. set (zone := tzs N !! sc) in *.
  set (df := prepared sc ec N).
  assert (forall r, r ∈ rows df ->
            exists s,
              r !! sc = Some (Timestamp s) /\
              r !! "start_hour" = Some (Int (hour_of (local_time zone s))))
    as Hrow.
  { intros r Hr.
    destruct (prepared_row sc ec N r Fs Fe Ds De Hr)
      as (s & e & Es & _ & _ & _ & Eh).
    by exists s. }
  assert (Analyses_et_graphiques.time_slot df
          = Ok (assign "time_slot"
                  (fun r => slot_cell (at_col "start_hour" r)) df)) as Hts.
  { apply time_slot_spec.
    - unfold df. rewrite has_col_prepared. apply orb_true_iff.
      right. apply bool_decide_eq_true. do 2 right. left.
    - intros r Hr. destruct (Hrow r Hr) as (s & _ & Eh).
      eexists. unfold at_col. by rewrite Eh. }
  eexists. split; [exact Hts |].
  split; [simpl; by rewrite !length_fmap |].
  intros r Hr. cbn [rows assign] in Hr.
  apply list_elem_of_fmap in Hr as (r0 & -> & Hr0).
  destruct (Hrow r0 Hr0) as (s & Es & Eh).
  pose proof (hour_of_range (local_time zone s)) as Hh.
  destruct (bucket_of_hour _ Hh) as (b & Hb & Hin).
  exists s, b.
  rewrite (lookup_insert_ne r0 "time_slot" sc)
    by exact (not_eq_sym (start_alias_not_slot raw sc Hs)).
  rewrite (lookup_insert_ne r0 "time_slot" "start_hour") by discriminate.
  rewrite lookup_insert_eq.
  split; [done |]. split; [done |]. split; [done |].
  split; [done |]. split; [done |].
  unfold at_col. rewrite Eh. simpl. unfold slot_cell.
  by rewrite (slot_of_hour_in_bucket _ b Hb Hin).
Qed.

(** X7. What pages 3 and 4 find in the table [load_prepared] returned.
    With both time columns resolved the three derived variables are all
    available to page 3, and the columns page 4 reports missing are exactly
    those of [member_casual] and [rideable_type] that the raw table lacks
    under these very names. With a time column unresolved the pages find
    what the raw table has. *)
Theorem pages_find_derived_columns (raw df : DataFrame) (cols : utils.cols) :
  utils.load_prepared lower parse raw = Ok (df, cols) ->
  (forall sc ec,
     utils.start_dt cols = Some sc -> utils.end_dt cols = Some ec ->
     Variables_creees.available_vars df
     = ["trip_duration_min"; "day_of_week"; "start_hour"] /\
     Analyses_page.missing df
     = List.filter (fun c => negb (has_col raw c))
         ["member_casual"; "rideable_type"]) /\
  (utils.start_dt cols = None \/ utils.end_dt cols = None ->
   Variables_creees.available_vars df = Variables_creees.available_vars raw /\
   Analyses_page.missing df = Analyses_page.missing raw).
Proof.
  intros Hload.
  pose proof (load_prepared_cols raw df cols Hload) as ->.
  split.
  - intros sc ec Hs He.
    destruct (load_prepared_inv raw df _ sc ec Hs He Hload)
      as (N & _ & _ & HC & _ & _ & Hdf).
    rewrite Hdf.
    unfold Variables_creees.available_vars, Analyses_page.missing,
      Analyses_page.required. simpl.
    rewrite !has_col_prepared. rewrite !(has_col_columns raw N) by done.
    simpl. by rewrite !orb_true_r, !orb_false_r.
  - intros Hd. by rewrite (load_prepared_unresolved raw df _ Hload Hd).
Qed.

End PreparedTable.

(** ** The quality page: the histogram of raw durations *)

Section QualityPage.
Context (lower : string -> string) (parse : parser).
Context (Hlower : lowers_ascii lower).

(** Lines 264-268 when the log names both time columns. *)
Lemma dur_raw_resolved raw log sc ec :
  QN.start_col log = Some sc -> QN.end_col log = Some ec ->
  resolved_pair raw sc ec ->
  Qualite_page.dur_raw parse raw log
  = N1 ← converted parse sc raw;
    N ← converted parse ec N1;
    if same_awareness N sc ec then
      if differences_fit sc ec N then
        Ok (assign DURATION (duration_of sc ec) N)
      else Raise OverflowError
    else Raise TypeError.
Proof.
  intros Hs He [Is Ie Fs Fe Hne]. unfold Qualite_page.dur_raw.
  rewrite Hs, He. rewrite !not_reserved_truthy by done. cbn [andb].
  rewrite (convert_then parse raw sc) by done.
  destruct (converted parse sc raw) as [N1|e] eqn:E1; [|done].
  rewrite !bind_Ok.
  pose proof (converted_opt_facts parse (Some sc) raw N1) as F1.
  destruct F1 as (C1 & _ & D1 & _); [by intros c [= <-] | done |].
  assert (ec ∈ columns N1) as Ie1 by (by rewrite C1).
  rewrite (convert_then parse N1 ec) by done.
  destruct (converted parse ec N1) as [N|e] eqn:E2; [|done].
  rewrite !bind_Ok.
  pose proof (converted_opt_facts parse (Some ec) N1 N) as F2.
  destruct F2 as (_ & _ & D2 & O2); [by intros c [= <-] | done |].
  rewrite (duration_then N sc ec).
  - reflexivity.
  - apply O2; [congruence | by apply D1].
  - by apply D2.
Qed.

(** Lines 279-283 on a table whose duration column holds floats. *)
Lemma plot_df_of_dur raw log max_show D :
  Qualite_page.dur_raw parse raw log = Ok D ->
  float_col D ->
  Qualite_page.plot_df parse raw log max_show
  = Ok (keep (fun r => shown max_show (duration r)) D).
Proof.
  intros HD Hf. unfold Qualite_page.plot_df. rewrite HD, bind_Ok.
  rewrite !getitem_has by apply Hf. rewrite !bind_Ok.
  unfold series_ge, series_le.
  repeat (rewrite compare_scalar_float by done; rewrite ?bind_Ok).
  unfold series_notna, mask_and. cbn [values].
  rewrite <- list_fmap_compose, !zip_with_fmap_diag.
  rewrite (fmap_ext_in _ (fun r => shown max_show (duration r))).
  2:{ intros r _. unfold shown, duration, DURATION. simpl.
      by destruct (at_col "trip_duration_min" r). }
  apply loc_fmap.
Qed.

(** X8. The rows of the histogram of raw durations, after a run of the
    pipeline that returned and for the value [max_show] of the slider.
    With both time columns resolved the page converts the two columns of
    the raw table again and subtracts them on every row, also on the rows
    the pipeline dropped before its own subtraction. When every one of
    these differences fits in an [int64], the selection returns and its
    rows are, in order, the raw rows, their timestamps converted and their
    duration added, whose duration is a number between 0 and [max_show],
    so that rows the cleaning drops for their coordinates or for a duration
    under one minute are shown. With a time column unresolved and no
    [trip_duration_min] column in the raw table, the selection raises
    [KeyError]. *)
Theorem histogram_rows (raw raw' clean : DataFrame) (log : QN.cleaning_log) :
  QN.prepare_data lower parse raw = Ok (raw', clean, log) ->
  (forall sc ec max_show,
     QN.start_col log = Some sc -> QN.end_col log = Some ec ->
     exists N,
       conversions lower parse raw = Ok N /\
       (differences_fit sc ec N = true ->
        exists df,
          Qualite_page.plot_df parse raw' log max_show = Ok df /\
          rows df
          = List.filter (fun r => shown max_show (duration r))
              ((fun r => <[DURATION := duration_of sc ec r]> r) <$> rows N))) /\
  (QN.start_col log = None \/ QN.end_col log = None ->
   has_col raw "trip_duration_min" = false ->
   forall max_show,
     Qualite_page.plot_df parse raw' log max_show
     = Raise (KeyError "trip_duration_min")).
Proof.
  intros Hrun.
  apply (prepare_data_inv lower parse Hlower) in Hrun
    as (N & HN & HT & -> & _ & ->).
  cbn [QN.start_col QN.end_col log_of]. split.
  - intros sc ec max_show Hs He. exists N. split; [done |].
    pose proof (infer_cols_pair lower Hlower raw sc ec Hs He) as Hp.
    cbv zeta in HT. rewrite Hs, He in HT. rewrite Hs, He.
    apply temporal_outcome_resolved in HT as [Ha _].
    unfold same_awareness in Ha. rewrite tzs_geo_stage in Ha.
    fold (same_awareness N sc ec) in Ha.
    pose proof (dur_raw_resolved raw
                  (log_of (Some sc) (Some ec) raw (geo_stage N)) sc ec
                  eq_refl eq_refl Hp) as Hd.
    assert (converted parse sc raw ≫= converted parse ec = Ok N) as Hc.
    { unfold conversions in HN. rewrite Hs, He in HN. exact HN. }
    apply bind_Ok_inv in Hc as (N1 & E1 & E2).
    rewrite E1, bind_Ok, E2, bind_Ok, Ha in Hd.
    intros Hfit. rewrite Hfit in Hd. eexists. split.
    + apply plot_df_of_dur; [exact Hd |].
      split; [apply has_col_assign_same |].
      simpl. intros r Hr. apply list_elem_of_fmap in Hr as (r0 & -> & _).
      rewrite at_col_insert_eq. apply duration_cell_float.
    + reflexivity.
  - intros Hd Hno max_show.
    unfold Qualite_page.plot_df, Qualite_page.dur_raw.
    cbn [QN.start_col QN.end_col log_of].
    assert (getitem raw "trip_duration_min"
            = Raise (KeyError "trip_duration_min")) as Hk
      by (unfold getitem; by rewrite Hno).
    destruct Hd as [-> | ->].
    + rewrite bind_Ok. by rewrite Hk.
    + destruct (QN.started_at (QN.infer_cols lower raw));
        rewrite bind_Ok; by rewrite Hk.
Qed.

End QualityPage.

(** ** The resolver: roles *)

Lemma lower_case_apart_spec (lower : string -> string) l l' a :
  lowers_ascii lower ->
  lower_case_apart l l' = true -> a ∈ l ->
  lower a = a /\ forall b, b ∈ l' -> a <> b.
Proof.
  intros Hlower H Ha. unfold lower_case_apart in H.
  rewrite forallb_forall in H.
  specialize (H a (proj1 (list_elem_of_In _ _) Ha)).
  apply andb_true_iff in H as [H Hd]. apply andb_true_iff in H as [Hi Hl].
  apply String.eqb_eq in Hl. split.
  - by rewrite (Hlower a Hi).
  - intros b Hb. rewrite forallb_forall in Hd.
    specialize (Hd b (proj1 (list_elem_of_In _ _) Hb)).
    by apply negb_true_iff, String.eqb_neq in Hd.
Qed.

Lemma find_col_apart (lower : string -> string) df l1 l2 c :
  lowers_ascii lower ->
  lower_case_apart l1 l2 = true -> lower_case_apart l2 l1 = true ->
  utils._find_col lower df l1 = Some c ->
  utils._find_col lower df l2 <> Some c.
Proof.
  intros Hlower H12 H21 H1 H2.
  apply find_col_in_columns in H1 as (_ & a & Ha & Hla).
  apply find_col_in_columns in H2 as (_ & b & Hb & Hlb).
  destruct (lower_case_apart_spec lower l1 l2 a Hlower H12 Ha) as [Ea Hne].
  destruct (lower_case_apart_spec lower l2 l1 b Hlower H21 Hb) as [Eb _].
  apply (Hne b Hb). congruence.
Qed.

(** X9. No column is given two roles: the columns [infer_cols] resolves
    for the start time, the end time, the user type and the bike type are
    pairwise different. *)
Theorem resolved_roles_distinct (lower : string -> string)
    (df : DataFrame) (c : string) :
  lowers_ascii lower ->
  (utils.start_dt (utils.infer_cols lower df) = Some c ->
   utils.end_dt (utils.infer_cols lower df) <> Some c /\
   utils.user (utils.infer_cols lower df) <> Some c /\
   utils.bike (utils.infer_cols lower df) <> Some c) /\
  (utils.end_dt (utils.infer_cols lower df) = Some c ->
   utils.user (utils.infer_cols lower df) <> Some c /\
   utils.bike (utils.infer_cols lower df) <> Some c) /\
  (utils.user (utils.infer_cols lower df) = Some c ->
   utils.bike (utils.infer_cols lower df) <> Some c).
Proof.
  intros Hlower.
  cbn [utils.start_dt utils.end_dt utils.user utils.bike utils.infer_cols].
  split; [|split].
  - intros Hc. split; [|split];
      by eapply (find_col_apart lower df _ _ c Hlower); [| | exact Hc].
  - intros Hc. split;
      by eapply (find_col_apart lower df _ _ c Hlower); [| | exact Hc].
  - intros Hc.
    by eapply (find_col_apart lower df _ _ c Hlower); [| | exact Hc].
Qed.

(** ** The quality page: duplicates *)

Import Qualite_rapports.

Lemma mask_sum_cons (b : bool) (m : list bool) :
  mask_sum (b :: m) = Z.b2z b + mask_sum m.
Proof. unfold mask_sum. simpl. destruct b; simpl; lia. Qed.

Lemma mask_sum_bounds (m : list bool) :
  0 <= mask_sum m <= Z.of_nat (length m).
Proof.
  induction m as [|b m IH]; [done |].
  rewrite mask_sum_cons. simpl length. destruct b; simpl; lia.
Qed.

Lemma length_duplicated_from cols seen l :
  length (duplicated_from cols seen l) = length l.
Proof.
  revert seen. induction l as [|r l IH]; intros seen; simpl; [done |].
  by rewrite IH.
Qed.

(** No row of [l] is marked exactly when no row of [l] is the same as a row
    seen before it. *)
Lemma duplicated_from_none cols seen l :
  mask_sum (duplicated_from cols seen l) = 0 <->
  (forall r r', r ∈ l -> r' ∈ seen -> row_same cols r r' = false) /\
  (forall i j a b, (i < j)%nat -> l !! i = Some a -> l !! j = Some b ->
                   row_same cols b a = false).
Proof.
  revert seen. induction l as [|r l IH]; intros seen.
  - simpl. split; [|done]. intros _. split.
    + intros r r' Hr. by apply elem_of_nil in Hr.
    + intros i j a b _ Hi. done.
  - simpl duplicated_from. rewrite mask_sum_cons.
    pose proof (mask_sum_bounds (duplicated_from cols (r :: seen) l)) as Hb.
    split.
    + intros H.
      assert (existsb (row_same cols r) seen = false) as Hr
        by (destruct (existsb _ _); [simpl in H; lia | done]).
      assert (mask_sum (duplicated_from cols (r :: seen) l) = 0) as Hl
        by (rewrite Hr in H; simpl in H; lia).
      apply IH in Hl as [Hseen Hpair].
      assert (forall r', r' ∈ seen -> row_same cols r r' = false) as Hrs.
      { intros r' Hr'. apply not_true_iff_false. intros Hs.
        assert (existsb (row_same cols r) seen = true) as Ht
          by (apply existsb_exists; exists r';
              split; [by apply list_elem_of_In | done]).
        congruence. }
      split.
      * intros x x' Hx Hx'. apply elem_of_cons in Hx as [-> | Hx].
        -- by apply Hrs.
        -- apply Hseen; [done | by right].
      * intros i j a b Hij Hi Hj. destruct j as [|j]; [lia |].
        simpl in Hj. destruct i as [|i].
        -- simpl in Hi. injection Hi as <-.
           apply Hseen; [by apply list_elem_of_lookup_2 in Hj | left].
        -- simpl in Hi. apply (Hpair i j); [lia | done | done].
    + intros [Hseen Hpair].
      assert (existsb (row_same cols r) seen = false) as Hr.
      { apply not_true_iff_false. intros Ht.
        apply existsb_exists in Ht as (r' & Hr' & Hs).
        rewrite (Hseen r r') in Hs; [done | left | by apply list_elem_of_In]. }
      rewrite Hr. simpl.
      apply IH. split.
      * intros x x' Hx Hx'. apply elem_of_cons in Hx' as [-> | Hx'].
        -- apply list_elem_of_lookup_1 in Hx as [j Hj].
           apply (Hpair 0%nat (S j)); [lia | done | done].
        -- apply Hseen; [by right | done].
      * intros i j a b Hij Hi Hj.
        apply (Hpair (S i) (S j)); [lia | done | done].
Qed.

(** X10. The duplicate count of the quality page is 0 exactly when no row
    of the raw table is the same as an earlier row; it is never negative,
    and the first row is never counted, so that the count is below the
    number of rows of a table that has rows. *)
Theorem duplicate_count_sound (df_raw : DataFrame) :
  (dup_count df_raw = 0 <->
   forall i j a b, (i < j)%nat ->
     rows df_raw !! i = Some a -> rows df_raw !! j = Some b ->
     row_same (columns df_raw) b a = false) /\
  0 <= dup_count df_raw /\
  (rows df_raw <> [] -> dup_count df_raw < len df_raw).
Proof.
  unfold dup_count, duplicated.
  assert (0 <= mask_sum (duplicated_from (columns df_raw) [] (rows df_raw))
          <= len df_raw) as Hb.
  { pose proof (mask_sum_bounds
                  (duplicated_from (columns df_raw) [] (rows df_raw))) as H.
    rewrite length_duplicated_from in H. exact H. }
  assert (rows df_raw <> [] ->
          mask_sum (duplicated_from (columns df_raw) [] (rows df_raw))
          < len df_raw) as Hlt.
  { unfold len. destruct (rows df_raw) as [|r l]; [done |]. intros _.
    simpl duplicated_from. rewrite mask_sum_cons. simpl existsb.
    pose proof (mask_sum_bounds
                  (duplicated_from (columns df_raw) [r] l)) as H.
    rewrite length_duplicated_from in H. simpl length. simpl Z.b2z. lia. }
  split.
  { rewrite duplicated_from_none. split.
    - intros [_ H]. exact H.
    - intros H. split; [|exact H]. intros r r' _ Hr'.
      by apply elem_of_nil in Hr'. }
  split; [lia |]. exact Hlt.
Qed.

(** ** The further properties on the sample tables *)

Import PageSample.

(** X1 on [trips]: the bounds filter drops three rows: one of duration 0,
    one longer than a day, one with no duration. *)
Lemma bounds_drop_accounting_witness :
  QN.before_bounds lower iso_parser trips = Ok (1, 1, trips_timed) /\
  count_rows (fun r => missing_duration (duration r)) trips_timed = 1 /\
  exists clean log,
    QN.prepare_data lower iso_parser trips = Ok (trips, clean, log) /\
    QN.dropped_dur log
    = QN.dur_le_0 log + QN.dur_lt_1 log + QN.dur_gt_24h log
      + count_rows (fun r => missing_duration (duration r)) trips_timed.
Proof.
  assert (QN.before_bounds lower iso_parser trips = Ok (1, 1, trips_timed))
    as Hbb by (vm_compute; reflexivity).
  split; [exact Hbb |]. split; [vm_compute; reflexivity |].
  destruct (bounds_drop_accounting lower iso_parser ascii_lower_lowers
              trips 1 1 trips_timed Hbb)
    as (clean & log & Hp & Hsum & _).
  exists clean, log. split; [exact Hp | exact Hsum].
Defined.

(** X2 on [rides]: the end stations of the two cleaned trips are ["Gare"]
    and ["Missing"]. *)
Lemma station_names_imputed_witness :
  has_col rides "end_station_name" = true /\
  QN.prepare_data lower iso_parser rides = Ok (rides, rides_clean, rides_log)
  /\ at_col "end_station_name" <$> rows rides_clean
     = [Str "Gare"; Str "Missing"]
  /\ forall r, r ∈ rows rides_clean ->
       notna (at_col "end_station_name" r) = true.
Proof.
  assert (QN.prepare_data lower iso_parser rides
          = Ok (rides, rides_clean, rides_log)) as Hrun
    by (vm_compute; reflexivity).
  split; [reflexivity |]. split; [exact Hrun |].
  split; [vm_compute; reflexivity |].
  exact (proj2 (station_names_imputed lower iso_parser ascii_lower_lowers
                  rides rides rides_clean rides_log "end_station_name"
                  (or_intror eq_refl) eq_refl Hrun)).
Defined.

(** X3 on [rides]: one raw row has a missing coordinate and is dropped. *)
Lemma geo_completeness_witness :
  has_col rides "end_lat" = true /\ has_col rides "end_lng" = true /\
  QN.prepare_data lower iso_parser rides = Ok (rides, rides_clean, rides_log)
  /\ QN.dropped_geo rides_log
     = count_rows (fun r => negb (geo_complete r)) rides
  /\ QN.dropped_geo rides_log = 1
  /\ forall r, r ∈ rows rides_clean ->
       notna (at_col "end_lat" r) = true /\ notna (at_col "end_lng" r) = true.
Proof.
  assert (QN.prepare_data lower iso_parser rides
          = Ok (rides, rides_clean, rides_log)) as Hrun
    by (vm_compute; reflexivity).
  split; [reflexivity |]. split; [reflexivity |]. split; [exact Hrun |].
  destruct (geo_completeness lower iso_parser ascii_lower_lowers
              rides rides rides_clean rides_log Hrun) as (Hgeo & _).
  destruct (Hgeo eq_refl eq_refl) as [Hn Hrows].
  split; [exact Hn |]. split; [reflexivity | exact Hrows].
Defined.

(** X4 on [rides]: the identifiers of the cleaned table are those of trips
    [a] and [c], and the cleaned table has one more column. *)
Lemma cleaning_preserves_other_columns_witness :
  QN.prepare_data lower iso_parser rides = Ok (rides, rides_clean, rides_log)
  /\ columns rides_clean = (columns rides ++ ["trip_duration_min"])%list
  /\ at_col "ride_id" <$> rows rides_clean = [Str "a"; Str "c"]
  /\ (at_col "ride_id" <$> rows rides_clean)
       `sublist_of` (at_col "ride_id" <$> rows rides).
Proof.
  assert (QN.prepare_data lower iso_parser rides
          = Ok (rides, rides_clean, rides_log)) as Hrun
    by (vm_compute; reflexivity).
  split; [exact Hrun |].
  destruct (cleaning_preserves_other_columns lower iso_parser
              ascii_lower_lowers rides rides rides_clean rides_log Hrun)
    as (Hcols & Hsub).
  split; [exact Hcols |]. split; [vm_compute; reflexivity |].
  apply Hsub; discriminate.
Defined.

(** X5 on [trips]: page 3 explores the durations of 5 and 30 minutes; the
    cleaned table, which drops the trip with no end latitude, holds the
    first one only. *)
Lemma explored_durations_match_cleaning_witness :
  utils.start_dt (utils.infer_cols lower trips) = Some "Started_At" /\
  utils.end_dt (utils.infer_cols lower trips) = Some "ended_at" /\
  utils.load_prepared lower iso_parser trips = Ok (trips_prepared, trips_cols)
  /\ QN.prepare_data lower iso_parser trips
     = Ok (trips, trips_clean, trips_log)
  /\ exists s,
       Variables_creees.explored trips_prepared "trip_duration_min" = Ok s /\
       values s = [Num 5; Num 30] /\
       duration <$> rows trips_clean = [Num 5] /\
       (duration <$> rows trips_clean) `sublist_of` values s.
Proof.
  assert (utils.load_prepared lower iso_parser trips
          = Ok (trips_prepared, trips_cols)) as Hload
    by (vm_compute; reflexivity).
  assert (QN.prepare_data lower iso_parser trips
          = Ok (trips, trips_clean, trips_log)) as Hrun
    by (vm_compute; reflexivity).
  split; [reflexivity |]. split; [reflexivity |].
  split; [exact Hload |]. split; [exact Hrun |].
  destruct (explored_durations_match_cleaning lower iso_parser
              ascii_lower_lowers trips trips_prepared trips trips_clean
              trips_cols trips_log "Started_At" "ended_at"
              eq_refl eq_refl Hload Hrun)
    as (s & He & _ & Hsub & _).
  exists s. split; [exact He |]. split; [|split; [|exact Hsub]].
  - assert (Variables_creees.explored trips_prepared "trip_duration_min"
            = Ok {| values := [Num 5; Num 30]; tz := None |}) as Hv
      by (vm_compute; reflexivity).
    rewrite Hv in He. by injection He as <-.
  - vm_compute. reflexivity.
Defined.

(** X6 on [trips]: the five prepared trips start at hour 10 and all get
    the Midday slot. *)
Lemma time_slot_total_witness :
  utils.start_dt (utils.infer_cols lower trips) = Some "Started_At" /\
  utils.end_dt (utils.infer_cols lower trips) = Some "ended_at" /\
  utils.load_prepared lower iso_parser trips = Ok (trips_prepared, trips_cols)
  /\ exists df_h,
       Analyses_et_graphiques.time_slot trips_prepared = Ok df_h /\
       length (rows df_h) = 5%nat /\
       (forall r, r ∈ rows df_h ->
          exists b, b ∈ hour_buckets /\ r !! "time_slot" = Some (Str b.2)) /\
       (fun r => r !! "time_slot") <$> rows df_h
       = replicate 5 (Some (Str "10–13 (Midi)")).
Proof.
  assert (utils.load_prepared lower iso_parser trips
          = Ok (trips_prepared, trips_cols)) as Hload
    by (vm_compute; reflexivity).
  split; [reflexivity |]. split; [reflexivity |]. split; [exact Hload |].
  destruct (time_slot_total lower iso_parser ascii_lower_lowers
              trips trips_prepared trips_cols "Started_At" "ended_at"
              eq_refl eq_refl Hload)
    as (df_h & Ht & Hlen & Hrows).
  exists df_h. split; [exact Ht |].
  split; [rewrite Hlen; reflexivity |].
  split.
  - intros r Hr. destruct (Hrows r Hr) as (s & b & _ & _ & _ & Hb & _ & E).
    exists b. split; [exact Hb | exact E].
  - assert (exists v,
              Analyses_et_graphiques.time_slot trips_prepared = Ok v
              /\ (fun r => r !! "time_slot") <$> rows v
                 = replicate 5 (Some (Str "10–13 (Midi)")))
      as (v & Hv & Hslots)
      by (eexists; split; vm_compute; reflexivity).
    rewrite Hv in Ht. by injection Ht as <-.
Defined.

(** X7 on [trips]: page 3 finds the three derived variables and page 4
    stops, the table having neither [member_casual] nor
    [rideable_type]. *)
Lemma pages_find_derived_columns_witness :
  utils.load_prepared lower iso_parser trips = Ok (trips_prepared, trips_cols)
  /\ Variables_creees.available_vars trips_prepared
     = ["trip_duration_min"; "day_of_week"; "start_hour"]
  /\ Analyses_page.missing trips_prepared
     = ["member_casual"; "rideable_type"].
Proof.
  assert (utils.load_prepared lower iso_parser trips
          = Ok (trips_prepared, trips_cols)) as Hload
    by (vm_compute; reflexivity).
  split; [exact Hload |].
  destruct (pages_find_derived_columns lower iso_parser ascii_lower_lowers
              trips trips_prepared trips_cols Hload) as (Hres & _).
  destruct (Hres "Started_At" "ended_at" eq_refl eq_refl) as [Ha Hm].
  split; [exact Ha |]. rewrite Hm. reflexivity.
Defined.

(** X8 on [trips] and [no_times]: with the slider at 120 the histogram
    shows the durations 5, 0 and 30; on the table with no time column the
    selection raises [KeyError]. *)
Lemma histogram_rows_witness :
  QN.prepare_data lower iso_parser trips = Ok (trips, trips_clean, trips_log)
  /\ conversions lower iso_parser trips = Ok trips_converted
  /\ differences_fit "Started_At" "ended_at" trips_converted = true
  /\ (exists df,
        Qualite_page.plot_df iso_parser trips trips_log 120 = Ok df /\
        duration <$> rows df = [Num 5; Num 0; Num 30])
  /\ exists clean log,
       QN.prepare_data lower iso_parser no_times = Ok (no_times, clean, log)
       /\ QN.start_col log = None
       /\ has_col no_times "trip_duration_min" = false
       /\ Qualite_page.plot_df iso_parser no_times log 120
          = Raise (KeyError "trip_duration_min").
Proof.
  assert (QN.prepare_data lower iso_parser trips
          = Ok (trips, trips_clean, trips_log)) as Hrun
    by (vm_compute; reflexivity).
  assert (conversions lower iso_parser trips = Ok trips_converted) as HN
    by (vm_compute; reflexivity).
  assert (differences_fit "Started_At" "ended_at" trips_converted = true)
    as Hfit by (vm_compute; reflexivity).
  split; [exact Hrun |]. split; [exact HN |]. split; [exact Hfit |].
  split.
  - destruct (histogram_rows lower iso_parser ascii_lower_lowers
                trips trips trips_clean trips_log Hrun) as (Hres & _).
    destruct (Hres "Started_At" "ended_at" 120%Q eq_refl eq_refl)
      as (N & HN' & Hok).
    assert (N = trips_converted) as -> by congruence.
    destruct (Hok Hfit) as (df & Hdf & Hrows).
    exists df. split; [exact Hdf |].
    rewrite Hrows. vm_compute. reflexivity.
  - assert (exists clean log,
              QN.prepare_data lower iso_parser no_times
              = Ok (no_times, clean, log) /\ QN.start_col log = None)
      as (clean & log & Hrun' & Hs)
      by (eexists _, _; split; vm_compute; reflexivity).
    exists clean, log. split; [exact Hrun' |]. split; [exact Hs |].
    split; [reflexivity |].
    destruct (histogram_rows lower iso_parser ascii_lower_lowers
                no_times no_times clean log Hrun') as (_ & Hdeg).
    exact (Hdeg (or_introl Hs) eq_refl 120%Q).
Defined.

(** X9 on [rides]: the start column is no other role's column. *)
Lemma resolved_roles_distinct_witness :
  utils.start_dt (utils.infer_cols lower rides) = Some "started_at" /\
  utils.end_dt (utils.infer_cols lower rides) <> Some "started_at" /\
  utils.user (utils.infer_cols lower rides) <> Some "started_at" /\
  utils.bike (utils.infer_cols lower rides) <> Some "started_at".
Proof.
  assert (utils.start_dt (utils.infer_cols lower rides) = Some "started_at")
    as Hs by (vm_compute; reflexivity).
  split; [exact Hs |].
  destruct (resolved_roles_distinct lower rides "started_at"
              ascii_lower_lowers) as (H1 & _).
  exact (H1 Hs).
Defined.

(** X10 on [doubled]: the third row repeats the first; one duplicate among
    three rows. *)
Lemma duplicate_count_sound_witness :
  rows doubled <> [] /\
  dup_count doubled = 1 /\
  dup_count doubled <> 0 /\
  dup_count doubled < len doubled.
Proof.
  assert (rows doubled <> []) as Hne by discriminate.
  destruct (duplicate_count_sound doubled) as (Hiff & _ & Hlt).
  split; [exact Hne |]. split; [vm_compute; reflexivity |].
  split; [| exact (Hlt Hne)].
  intros Hzero.
  assert (exists a b, rows doubled !! 0%nat = Some a
                      /\ rows doubled !! 2%nat = Some b
                      /\ row_same (columns doubled) b a = true)
    as (a & b & Ha & Hb & Hsame)
    by (eexists _, _; split; [|split]; vm_compute; reflexivity).
  rewrite (proj1 Hiff Hzero 0%nat 2%nat a b) in Hsame; [done | lia | done | done].
Defined.
